(** * imgui-go-examples: platform and renderer glue, embedded in Rocq

    The development follows the Go packages of the repository:
    - [platforms] : [internal/platforms/sdl.go] and the GLFW platform,
    - [renderers] : [internal/renderers/OpenGL3.go].

    The external libraries (SDL2, GLFW, OpenGL, Dear ImGui) are
    represented by the constants the code names, by the calls the code
    issues (recorded in traces), and by the part of their state the code
    reads back. *)

From Stdlib Require Import ZArith List String Bool Lia.
From Stdlib Require Import Floats.SpecFloat.
Import ListNotations.

Local Open Scope Z_scope.

(* ================================================================== *)
(** * Go: integer conversions, switch statements, errors, float32 *)
(* ================================================================== *)

Module Go.

(** [uint32(x)]: conversion to an unsigned 32-bit integer wraps. *)
Definition uint32 (x : Z) : Z := x mod 2 ^ 32.

(** [int32(x)]: conversion to a signed 32-bit integer wraps. *)
Definition int32 (x : Z) : Z := (x + 2 ^ 31) mod 2 ^ 32 - 2 ^ 31.

Definition is_uint32 (x : Z) : Prop := 0 <= x < 2 ^ 32.
Definition is_int32 (x : Z) : Prop := - 2 ^ 31 <= x < 2 ^ 31.

(** A [switch tag { case c1: return b1; case c2: return b2; ... }]
    whose cases are constants and whose bodies return: the first case
    equal to the tag is taken; [None] is falling out of the switch. *)
Fixpoint switch {A : Type} (tag : Z) (cases : list (Z * A)) : option A :=
  match cases with
  | [] => None
  | (c, body) :: rest => if tag =? c then Some body else switch tag rest
  end.

(** The constants a switch enumerates. *)
Definition case_constants {A : Type} (cases : list (Z * A)) : list Z :=
  map fst cases.

(** Go refuses to compile a switch that repeats an integer constant. *)
Fixpoint distinct (l : list Z) : bool :=
  match l with
  | [] => true
  | x :: r => negb (existsb (Z.eqb x) r) && distinct r
  end.

(** Error values, by the way the code builds them.
    - [LibraryError]   an error returned by SDL, GLFW or the GL loader;
    - [Errorf msg e]   [fmt.Errorf(msg, e)] for a format [msg] that
      ends in [": %w"], which wraps [e];
    - [ErrUnsupportedClientAPI]  the package-level sentinel of package
      [platforms]; its declaration is outside the listed sources, the
      code returns it as it is. *)
Inductive error : Type :=
| LibraryError (code : Z)
| Errorf (msg : string) (wrapped : error)
| ErrUnsupportedClientAPI.

(** The string of one line feed. *)
Definition newline : string := String (Ascii.ascii_of_nat 10) EmptyString.

(** [errors.Unwrap]. *)
Definition Unwrap (e : error) : option error :=
  match e with
  | Errorf _ w => Some w
  | _ => None
  end.

(** The error of a result that is a value or an error. *)
Definition err_of {A : Type} (r : A + error) : option error :=
  match r with
  | inl _ => None
  | inr e => Some e
  end.

(** What a constructor [New...] may return, Go's pair of a pointer
    and an error: the object and no error; or no object and the
    error of one of the [library_errors], wrapped in a message; or,
    when [unsupported] holds, no object and the sentinel. *)
Inductive Outcome {A : Type} (library_errors : list (option error))
    (unsupported : Prop) : option A * option error -> Prop :=
| Constructed (object : A) :
    Outcome library_errors unsupported (Some object, None)
| LibraryFailure (msg : string) (cause : error) :
    In (Some cause) library_errors ->
    Outcome library_errors unsupported (None, Some (Errorf msg cause))
| Unsupported :
    unsupported ->
    Outcome library_errors unsupported (None, Some ErrUnsupportedClientAPI).

(** [l] ends with [suffix]. *)
Definition ends_with {A : Type} (l suffix : list A) : Prop :=
  exists pre, l = pre ++ suffix.

(** ** float32 and float64: IEEE 754 binary32 and binary64 *)

Definition float32 : Type := spec_float.
Definition float64 : Type := spec_float.

Definition prec32 : Z := 24.
Definition emax32 : Z := 128.

Definition f32_of_Z (z : Z) : float32 := binary_normalize prec32 emax32 z 0 false.
Definition f32_zero : float32 := S754_zero false.
Definition f32_add : float32 -> float32 -> float32 := SFadd prec32 emax32.
Definition f32_sub : float32 -> float32 -> float32 := SFsub prec32 emax32.
Definition f32_mul : float32 -> float32 -> float32 := SFmul prec32 emax32.
Definition f32_div : float32 -> float32 -> float32 := SFdiv prec32 emax32.
Definition f32_neg : float32 -> float32 := SFopp.
Definition f32_leb : float32 -> float32 -> bool := SFleb.
Definition f32_ltb : float32 -> float32 -> bool := SFltb.

(** [float32(x)] for [x float64]: rounding to nearest even. *)
Definition f32_of_f64 (x : float64) : float32 :=
  match x with
  | S754_finite s m e =>
      binary_normalize prec32 emax32 (if s then Z.neg m else Z.pos m) e s
  | _ => x
  end.

(** The integer part of a float: the fraction is discarded
    (truncation towards zero). *)
Definition f32_trunc (x : float32) : Z :=
  match x with
  | S754_finite s m e =>
      let a := match e with
               | Z0 => Z.pos m
               | Zpos p => Z.pos m * 2 ^ Z.pos p
               | Zneg p => Z.pos m / 2 ^ Z.pos p
               end in
      if s then - a else a
  | _ => 0
  end.

(** [int32(x)] for a float [x]: the integer part of [x] when int32
    can represent it.  For every other value (an integer part outside
    the range, an infinity, NaN) Go leaves the result to the
    implementation; the compiled code converts with the processor's
    truncating conversion, which gives [-2^31] there. *)
Definition int32_of_f32 (x : float32) : Z :=
  match x with
  | S754_infinity _ | S754_nan => - 2 ^ 31
  | _ =>
      if (- 2 ^ 31 <=? f32_trunc x) && (f32_trunc x <? 2 ^ 31) then f32_trunc x
      else - 2 ^ 31
  end.

(** [x++] and [x--] on a float32 variable. *)
Definition f32_incr (x : float32) : float32 := f32_add x (f32_of_Z 1).
Definition f32_decr (x : float32) : float32 := f32_sub x (f32_of_Z 1).

End Go.

(* ================================================================== *)
(** * Effect: calls on an external library, as state and trace *)
(* ================================================================== *)

Module Effect.

(** A computation over a library state [S] that logs the calls [E] it
    issues, in program order, and returns an [A]. *)
Definition M (S E A : Type) : Type := S -> (A * S) * list E.

Definition ret {S E A : Type} (a : A) : M S E A :=
  fun s => ((a, s), []).

Definition bind {S E A B : Type} (m : M S E A) (f : A -> M S E B) : M S E B :=
  fun s =>
    let r1 := m s in
    let r2 := f (fst (fst r1)) (snd (fst r1)) in
    (fst r2, snd r1 ++ snd r2).

(** One library call: log [e], change the state by [upd], answer by [ans]. *)
Definition call {S E A : Type} (e : E) (upd : S -> S) (ans : S -> A) : M S E A :=
  fun s => ((ans s, upd s), [e]).

(** The same computation, its calls injected into a larger call type. *)
Definition lift {S E E' A : Type} (inj : E -> E') (m : M S E A) : M S E' A :=
  fun s => (fst (m s), map inj (snd (m s))).

Definition value {S E A : Type} (m : M S E A) (s : S) : A := fst (fst (m s)).
Definition final {S E A : Type} (m : M S E A) (s : S) : S := snd (fst (m s)).
Definition trace {S E A : Type} (m : M S E A) (s : S) : list E := snd (m s).

(** [for _, x := range l { body(x) }]. *)
Fixpoint for_range {S E A : Type} (l : list A) (body : A -> M S E unit) : M S E unit :=
  match l with
  | [] => ret tt
  | x :: rest => bind (body x) (fun _ => for_range rest body)
  end.

(** [f] applied [n] times in a row, each time to the value the
    previous application returned. *)
Fixpoint times {S E A : Type} (n : nat) (f : A -> M S E A) (a : A) : M S E A :=
  match n with
  | O => ret a
  | Datatypes.S k => bind (f a) (fun a' => times k f a')
  end.

(** [if c { m }] without an else branch. *)
Definition when {S E : Type} (c : bool) (m : M S E unit) : M S E unit :=
  if c then m else ret tt.

End Effect.

Declare Scope effect_scope.
Delimit Scope effect_scope with effect.
Notation "x <- m ;; k" := (Effect.bind m (fun x => k))
  (at level 61, m at next level, right associativity) : effect_scope.
Notation "m ;; k" := (Effect.bind m (fun _ => k))
  (at level 61, right associativity) : effect_scope.

(* ================================================================== *)
(** * gl: OpenGL 3.2 core, as far as the renderer uses it *)
(* ================================================================== *)

Module gl.

(** Enumerants ([GLenum] values of the OpenGL headers). *)
Definition TRIANGLES : Z := 4.
Definition SRC_ALPHA : Z := 770.
Definition ONE_MINUS_SRC_ALPHA : Z := 771.
Definition FRONT_AND_BACK : Z := 1032.
Definition TEXTURE_2D : Z := 3553.
Definition UNSIGNED_BYTE : Z := 5121.
Definition UNSIGNED_SHORT : Z := 5123.
Definition UNSIGNED_INT : Z := 5125.
Definition FLOAT : Z := 5126.
Definition RED : Z := 6403.
Definition FILL : Z := 6914.
Definition LINEAR : Z := 9729.
Definition TEXTURE_MAG_FILTER : Z := 10240.
Definition TEXTURE_MIN_FILTER : Z := 10241.
Definition UNPACK_ROW_LENGTH : Z := 3314.
Definition COLOR_BUFFER_BIT : Z := 16384.
Definition FUNC_ADD : Z := 32774.
Definition TEXTURE0 : Z := 33984.
Definition STREAM_DRAW : Z := 35040.
Definition FRAGMENT_SHADER : Z := 35632.
Definition VERTEX_SHADER : Z := 35633.

(** The capabilities the renderer enables, disables and queries. *)
Inductive Cap : Type := BLEND | CULL_FACE | DEPTH_TEST | SCISSOR_TEST.

(** The buffer targets the renderer binds. *)
Inductive Target : Type := ARRAY_BUFFER | ELEMENT_ARRAY_BUFFER.

(** The parameters the renderer reads with [GetIntegerv]. *)
Inductive Pname : Type :=
| ACTIVE_TEXTURE | CURRENT_PROGRAM | TEXTURE_BINDING_2D | SAMPLER_BINDING
| ARRAY_BUFFER_BINDING | ELEMENT_ARRAY_BUFFER_BINDING | VERTEX_ARRAY_BINDING
| POLYGON_MODE | VIEWPORT | SCISSOR_BOX
| BLEND_SRC_RGB | BLEND_DST_RGB | BLEND_SRC_ALPHA | BLEND_DST_ALPHA
| BLEND_EQUATION_RGB | BLEND_EQUATION_ALPHA.

(** ** Context state

    The state variables of an OpenGL context that the renderer reads
    or writes.  The 2D texture binding belongs to a texture unit
    (named by its enumerant, [TEXTURE0 + i]), the sampler binding to a
    unit index, the element-array-buffer binding to a vertex array
    object.  In the core profile the polygon mode is one value for
    both faces.  [NextName] is the next object name the [Gen*] and
    [Create*] calls hand out.  [UnpackRowLength] is the row length of
    the pixel-store state for reading client memory.  Buffer and
    texture contents, shader and program objects, uniforms, vertex
    attributes and the framebuffer are not represented: calls on them
    appear in the trace only. *)
Inductive Var : Type :=
| ActiveTexture
| CurrentProgram
| TextureBinding2D (unit : Z)
| SamplerBinding (unit : Z)
| ArrayBufferBinding
| VertexArrayBinding
| ElementArrayBufferBinding (vao : Z)
| PolygonMode
| ViewportX | ViewportY | ViewportWidth | ViewportHeight
| ScissorX | ScissorY | ScissorWidth | ScissorHeight
| BlendSrcRgb | BlendDstRgb | BlendSrcAlpha | BlendDstAlpha
| BlendEquationRgb | BlendEquationAlpha
| Enabled (cap : Cap)
| NextName
| UnpackRowLength.

Definition State : Type := Var -> Z.

Definition Cap_code (c : Cap) : Z :=
  match c with
  | BLEND => 0 | CULL_FACE => 1 | DEPTH_TEST => 2 | SCISSOR_TEST => 3
  end.

(** A variable's constructor and its parameter. *)
Definition code (v : Var) : Z * Z :=
  match v with
  | ActiveTexture => (0, 0)
  | CurrentProgram => (1, 0)
  | TextureBinding2D u => (2, u)
  | SamplerBinding u => (3, u)
  | ArrayBufferBinding => (4, 0)
  | VertexArrayBinding => (5, 0)
  | ElementArrayBufferBinding a => (6, a)
  | PolygonMode => (7, 0)
  | ViewportX => (8, 0)
  | ViewportY => (9, 0)
  | ViewportWidth => (10, 0)
  | ViewportHeight => (11, 0)
  | ScissorX => (12, 0)
  | ScissorY => (13, 0)
  | ScissorWidth => (14, 0)
  | ScissorHeight => (15, 0)
  | BlendSrcRgb => (16, 0)
  | BlendDstRgb => (17, 0)
  | BlendSrcAlpha => (18, 0)
  | BlendDstAlpha => (19, 0)
  | BlendEquationRgb => (20, 0)
  | BlendEquationAlpha => (21, 0)
  | Enabled c => (22, Cap_code c)
  | NextName => (23, 0)
  | UnpackRowLength => (24, 0)
  end.

Definition Var_eqb (a b : Var) : bool :=
  (fst (code a) =? fst (code b)) && (snd (code a) =? snd (code b)).

(** The state with variable [v] set to [x]. *)
Definition upd (s : State) (v : Var) (x : Z) : State :=
  fun w => if Var_eqb w v then x else s w.

(** State variables hold values of their GL types: object names and
    enumerants are [GLuint]/[GLenum] (unsigned 32-bit), coordinates
    and sizes are [GLint]/[GLsizei] (signed 32-bit), capabilities are
    0 or 1. *)
Definition in_range (v : Var) (x : Z) : Prop :=
  match v with
  | ViewportX | ViewportY | ViewportWidth | ViewportHeight
  | ScissorX | ScissorY | ScissorWidth | ScissorHeight => Go.is_int32 x
  | Enabled _ => x = 0 \/ x = 1
  | _ => Go.is_uint32 x
  end.

Definition wf (s : State) : Prop := forall v, in_range v (s v).

(** The state of a fresh context (the initial values of the OpenGL
    specification), with a viewport and scissor box of [w] by [h]. *)
Definition initial (w h : Z) : State :=
  fun v =>
    match v with
    | ActiveTexture => TEXTURE0
    | PolygonMode => FILL
    | ViewportWidth | ScissorWidth => w
    | ViewportHeight | ScissorHeight => h
    | BlendSrcRgb | BlendSrcAlpha => 1
    | BlendEquationRgb | BlendEquationAlpha => FUNC_ADD
    | NextName => 1
    | _ => 0
    end.

(** ** Calls

    A call whose Go name is also the name of a state variable carries a
    trailing underscore ([ActiveTexture_], [PolygonMode_]). *)

Inductive Call : Type :=
| CallInit
| CallGetIntegerv (pname : Pname)
| CallIsEnabled (cap : Cap)
| CallEnable (cap : Cap)
| CallDisable (cap : Cap)
| CallActiveTexture (texture : Z)
| CallBlendEquation (mode : Z)
| CallBlendFunc (sfactor dfactor : Z)
| CallBlendEquationSeparate (modeRGB modeAlpha : Z)
| CallBlendFuncSeparate (sfactorRGB dfactorRGB sfactorAlpha dfactorAlpha : Z)
| CallPolygonMode (face mode : Z)
| CallViewport (x y width height : Z)
| CallScissor (x y width height : Z)
| CallUseProgram (program : Z)
| CallUniform1i (location v0 : Z)
| CallUniformMatrix4fv (location count : Z) (transpose : bool) (value : list Go.float32)
| CallBindSampler (unit sampler : Z)
| CallGenVertexArrays (n : Z)
| CallBindVertexArray (array : Z)
| CallDeleteVertexArrays (n array : Z)
| CallBindBuffer (target : Target) (buffer : Z)
| CallEnableVertexAttribArray (index : Z)
| CallVertexAttribPointerWithOffset
    (index size xtype : Z) (normalized : bool) (stride offset : Z)
| CallBufferData (target : Target) (size data usage : Z)
| CallBindTexture (target texture : Z)
| CallDrawElementsBaseVertexWithOffset (mode count xtype indices basevertex : Z)
| CallClearColor (red green blue alpha : Go.float32)
| CallClear (mask : Z)
| CallCreateProgram
| CallCreateShader (xtype : Z)
| CallShaderSource (shader : Z) (source : string)
| CallCompileShader (shader : Z)
| CallAttachShader (program shader : Z)
| CallDetachShader (program shader : Z)
| CallLinkProgram (program : Z)
| CallGetUniformLocation (program : Z) (name : string)
| CallGetAttribLocation (program : Z) (name : string)
| CallGenBuffers (n : Z)
| CallGenTextures (n : Z)
| CallTexParameteri (target pname param : Z)
| CallPixelStorei (pname param : Z)
| CallTexImage2D (target level internalformat width height border format xtype pixels : Z)
| CallDeleteBuffers (n buffer : Z)
| CallDeleteShader (shader : Z)
| CallDeleteProgram (program : Z)
| CallDeleteTextures (n texture : Z).

(** What the driver answers where the renderer has no say. *)
Record Answers : Type :=
  { Init_error : option Go.error;
    UniformLocation : Z -> string -> Z;
    AttribLocation : Z -> string -> Z }.

Definition Cmd (A : Type) : Type := Effect.M State Call A.

(** A call that changes none of the represented state. *)
Definition inert (c : Call) : Cmd unit :=
  Effect.call c (fun s => s) (fun _ => tt).

Definition Init (answers : Answers) : Cmd (option Go.error) :=
  Effect.call CallInit (fun s => s) (fun _ => Init_error answers).

(** [GetIntegerv] writes one, two or four [int32] values. *)
Definition read (s : State) (pname : Pname) : list Z :=
  map Go.int32
    match pname with
    | ACTIVE_TEXTURE => [s ActiveTexture]
    | CURRENT_PROGRAM => [s CurrentProgram]
    | TEXTURE_BINDING_2D => [s (TextureBinding2D (s ActiveTexture))]
    | SAMPLER_BINDING => [s (SamplerBinding (s ActiveTexture - TEXTURE0))]
    | ARRAY_BUFFER_BINDING => [s ArrayBufferBinding]
    | ELEMENT_ARRAY_BUFFER_BINDING =>
        [s (ElementArrayBufferBinding (s VertexArrayBinding))]
    | VERTEX_ARRAY_BINDING => [s VertexArrayBinding]
    | POLYGON_MODE => [s PolygonMode; s PolygonMode]
    | VIEWPORT => [s ViewportX; s ViewportY; s ViewportWidth; s ViewportHeight]
    | SCISSOR_BOX => [s ScissorX; s ScissorY; s ScissorWidth; s ScissorHeight]
    | BLEND_SRC_RGB => [s BlendSrcRgb]
    | BLEND_DST_RGB => [s BlendDstRgb]
    | BLEND_SRC_ALPHA => [s BlendSrcAlpha]
    | BLEND_DST_ALPHA => [s BlendDstAlpha]
    | BLEND_EQUATION_RGB => [s BlendEquationRgb]
    | BLEND_EQUATION_ALPHA => [s BlendEquationAlpha]
    end.

(** [gl.GetIntegerv(pname, &a[0])], [a] an array of [int32]. *)
Definition GetIntegerv (pname : Pname) : Cmd (list Z) :=
  Effect.call (CallGetIntegerv pname) (fun s => s) (fun s => read s pname).

(** [gl.GetIntegerv(pname, &x)], [x] one [int32]. *)
Definition GetInteger (pname : Pname) : Cmd Z :=
  Effect.call (CallGetIntegerv pname) (fun s => s) (fun s => nth 0 (read s pname) 0).

Definition IsEnabled (cap : Cap) : Cmd bool :=
  Effect.call (CallIsEnabled cap) (fun s => s) (fun s => negb (s (Enabled cap) =? 0)).

Definition Enable (cap : Cap) : Cmd unit :=
  Effect.call (CallEnable cap) (fun s => upd s (Enabled cap) 1) (fun _ => tt).

Definition Disable (cap : Cap) : Cmd unit :=
  Effect.call (CallDisable cap) (fun s => upd s (Enabled cap) 0) (fun _ => tt).

Definition ActiveTexture_ (texture : Z) : Cmd unit :=
  Effect.call (CallActiveTexture texture) (fun s => upd s ActiveTexture texture)
    (fun _ => tt).

Definition BlendEquation (mode : Z) : Cmd unit :=
  Effect.call (CallBlendEquation mode)
    (fun s => upd (upd s BlendEquationRgb mode) BlendEquationAlpha mode)
    (fun _ => tt).

Definition BlendFunc (sfactor dfactor : Z) : Cmd unit :=
  Effect.call (CallBlendFunc sfactor dfactor)
    (fun s => upd (upd (upd (upd s BlendSrcRgb sfactor) BlendDstRgb dfactor)
                     BlendSrcAlpha sfactor) BlendDstAlpha dfactor)
    (fun _ => tt).

Definition BlendEquationSeparate (modeRGB modeAlpha : Z) : Cmd unit :=
  Effect.call (CallBlendEquationSeparate modeRGB modeAlpha)
    (fun s => upd (upd s BlendEquationRgb modeRGB) BlendEquationAlpha modeAlpha)
    (fun _ => tt).

Definition BlendFuncSeparate (sfactorRGB dfactorRGB sfactorAlpha dfactorAlpha : Z)
  : Cmd unit :=
  Effect.call (CallBlendFuncSeparate sfactorRGB dfactorRGB sfactorAlpha dfactorAlpha)
    (fun s => upd (upd (upd (upd s BlendSrcRgb sfactorRGB) BlendDstRgb dfactorRGB)
                     BlendSrcAlpha sfactorAlpha) BlendDstAlpha dfactorAlpha)
    (fun _ => tt).

(** In the core profile [face] must be [FRONT_AND_BACK]; any other
    value is an error and changes nothing. *)
Definition PolygonMode_ (face mode : Z) : Cmd unit :=
  Effect.call (CallPolygonMode face mode)
    (fun s => if face =? FRONT_AND_BACK then upd s PolygonMode mode else s)
    (fun _ => tt).

Definition Viewport (x y width height : Z) : Cmd unit :=
  Effect.call (CallViewport x y width height)
    (fun s => upd (upd (upd (upd s ViewportX x) ViewportY y)
                     ViewportWidth width) ViewportHeight height)
    (fun _ => tt).

Definition Scissor (x y width height : Z) : Cmd unit :=
  Effect.call (CallScissor x y width height)
    (fun s => upd (upd (upd (upd s ScissorX x) ScissorY y)
                     ScissorWidth width) ScissorHeight height)
    (fun _ => tt).

Definition UseProgram (program : Z) : Cmd unit :=
  Effect.call (CallUseProgram program) (fun s => upd s CurrentProgram program)
    (fun _ => tt).

Definition Uniform1i (location v0 : Z) : Cmd unit :=
  inert (CallUniform1i location v0).

Definition UniformMatrix4fv (location count : Z) (transpose : bool)
    (value : list Go.float32) : Cmd unit :=
  inert (CallUniformMatrix4fv location count transpose value).

Definition BindSampler (unit_ sampler : Z) : Cmd unit :=
  Effect.call (CallBindSampler unit_ sampler)
    (fun s => upd s (SamplerBinding unit_) sampler) (fun _ => tt).

(** Names come from one counter, so a generated name is unused. *)
Definition fresh (c : Call) : Cmd Z :=
  Effect.call c (fun s => upd s NextName (s NextName + 1)) (fun s => s NextName).

Definition GenVertexArrays (n : Z) : Cmd Z := fresh (CallGenVertexArrays n).
Definition GenBuffers (n : Z) : Cmd Z := fresh (CallGenBuffers n).
Definition GenTextures (n : Z) : Cmd Z := fresh (CallGenTextures n).
Definition CreateProgram : Cmd Z := fresh CallCreateProgram.
Definition CreateShader (xtype : Z) : Cmd Z := fresh (CallCreateShader xtype).

Definition BindVertexArray (array : Z) : Cmd unit :=
  Effect.call (CallBindVertexArray array) (fun s => upd s VertexArrayBinding array)
    (fun _ => tt).

(** Deleting the vertex array that is bound binds the default one. *)
Definition DeleteVertexArrays (n array : Z) : Cmd unit :=
  Effect.call (CallDeleteVertexArrays n array)
    (fun s => if s VertexArrayBinding =? array
              then upd (upd s (ElementArrayBufferBinding array) 0) VertexArrayBinding 0
              else upd s (ElementArrayBufferBinding array) 0)
    (fun _ => tt).

(** The element array buffer is bound in the vertex array object that
    is bound at the time of the call. *)
Definition BindBuffer (target : Target) (buffer : Z) : Cmd unit :=
  Effect.call (CallBindBuffer target buffer)
    (fun s => match target with
              | ARRAY_BUFFER => upd s ArrayBufferBinding buffer
              | ELEMENT_ARRAY_BUFFER =>
                  upd s (ElementArrayBufferBinding (s VertexArrayBinding)) buffer
              end)
    (fun _ => tt).

Definition EnableVertexAttribArray (index : Z) : Cmd unit :=
  inert (CallEnableVertexAttribArray index).

Definition VertexAttribPointerWithOffset
    (index size xtype : Z) (normalized : bool) (stride offset : Z) : Cmd unit :=
  inert (CallVertexAttribPointerWithOffset index size xtype normalized stride offset).

Definition BufferData (target : Target) (size data usage : Z) : Cmd unit :=
  inert (CallBufferData target size data usage).

(** A texture is bound in the texture unit that is active. *)
Definition BindTexture (target texture : Z) : Cmd unit :=
  Effect.call (CallBindTexture target texture)
    (fun s => if target =? TEXTURE_2D
              then upd s (TextureBinding2D (s ActiveTexture)) texture
              else s)
    (fun _ => tt).

Definition DrawElementsBaseVertexWithOffset (mode count xtype indices basevertex : Z)
  : Cmd unit :=
  inert (CallDrawElementsBaseVertexWithOffset mode count xtype indices basevertex).

Definition ClearColor (red green blue alpha : Go.float32) : Cmd unit :=
  inert (CallClearColor red green blue alpha).
Definition Clear (mask : Z) : Cmd unit := inert (CallClear mask).
Definition ShaderSource (shader : Z) (source : string) : Cmd unit :=
  inert (CallShaderSource shader source).
Definition CompileShader (shader : Z) : Cmd unit := inert (CallCompileShader shader).
Definition AttachShader (program shader : Z) : Cmd unit :=
  inert (CallAttachShader program shader).
Definition DetachShader (program shader : Z) : Cmd unit :=
  inert (CallDetachShader program shader).
Definition LinkProgram (program : Z) : Cmd unit := inert (CallLinkProgram program).
Definition GetUniformLocation (answers : Answers) (program : Z) (name : string) : Cmd Z :=
  Effect.call (CallGetUniformLocation program name) (fun s => s)
    (fun _ => UniformLocation answers program name).
Definition GetAttribLocation (answers : Answers) (program : Z) (name : string) : Cmd Z :=
  Effect.call (CallGetAttribLocation program name) (fun s => s)
    (fun _ => AttribLocation answers program name).
Definition TexParameteri (target pname param : Z) : Cmd unit :=
  inert (CallTexParameteri target pname param).
(** [PixelStorei] sets a parameter of the pixel-store state; the
    renderer sets the unpack row length only, the one parameter that
    is represented. *)
Definition PixelStorei (pname param : Z) : Cmd unit :=
  Effect.call (CallPixelStorei pname param)
    (fun s => if pname =? UNPACK_ROW_LENGTH then upd s UnpackRowLength param else s)
    (fun _ => tt).
Definition TexImage2D
    (target level internalformat width height border format xtype pixels : Z) : Cmd unit :=
  inert (CallTexImage2D target level internalformat width height border format xtype pixels).

(** Deleting a bound object resets the bindings of the current
    context that name it. *)
Definition DeleteBuffers (n buffer : Z) : Cmd unit :=
  Effect.call (CallDeleteBuffers n buffer)
    (fun s w =>
       match w with
       | ArrayBufferBinding => if s w =? buffer then 0 else s w
       | ElementArrayBufferBinding a =>
           if (a =? s VertexArrayBinding) && (s w =? buffer) then 0 else s w
       | _ => s w
       end)
    (fun _ => tt).

Definition DeleteTextures (n texture : Z) : Cmd unit :=
  Effect.call (CallDeleteTextures n texture)
    (fun s w =>
       match w with
       | TextureBinding2D _ => if s w =? texture then 0 else s w
       | _ => s w
       end)
    (fun _ => tt).

Definition DeleteShader (shader : Z) : Cmd unit := inert (CallDeleteShader shader).

Definition DeleteProgram (program : Z) : Cmd unit := inert (CallDeleteProgram program).

End gl.

(* ================================================================== *)
(** * imgui: the part of Dear ImGui's Go binding the code names *)
(* ================================================================== *)

Module imgui.

(** [imgui.ImguiKey]: the keys the two translation functions return,
    and the four modifier keys. *)
Inductive ImguiKey : Type :=
| KeyNone
| KeyTab | KeyLeftArrow | KeyRightArrow | KeyUpArrow | KeyDownArrow
| KeyPageUp | KeyPageDown | KeyHome | KeyEnd | KeyInsert | KeyDelete
| KeyBackspace | KeySpace | KeyEnter | KeyEscape
| KeyApostrophe | KeyComma | KeyMinus | KeyPeriod | KeySlash
| KeySemicolon | KeyEqual | KeyLeftBracket | KeyBackslash
| KeyRightBracket | KeyGraveAccent | KeyOem102
| KeyCapsLock | KeyScrollLock | KeyNumLock | KeyPrintScreen | KeyPause
| KeyKeypad0 | KeyKeypad1 | KeyKeypad2 | KeyKeypad3 | KeyKeypad4
| KeyKeypad5 | KeyKeypad6 | KeyKeypad7 | KeyKeypad8 | KeyKeypad9
| KeyKeypadDecimal | KeyKeypadDivide | KeyKeypadMultiply
| KeyKeypadSubtract | KeyKeypadAdd | KeyKeypadEnter | KeyKeypadEqual
| KeyLeftCtrl | KeyLeftShift | KeyLeftAlt | KeyLeftSuper
| KeyRightCtrl | KeyRightShift | KeyRightAlt | KeyRightSuper | KeyMenu
| Key0 | Key1 | Key2 | Key3 | Key4 | Key5 | Key6 | Key7 | Key8 | Key9
| KeyA | KeyB | KeyC | KeyD | KeyE | KeyF | KeyG | KeyH | KeyI | KeyJ
| KeyK | KeyL | KeyM | KeyN | KeyO | KeyP | KeyQ | KeyR | KeyS | KeyT
| KeyU | KeyV | KeyW | KeyX | KeyY | KeyZ
| KeyF1 | KeyF2 | KeyF3 | KeyF4 | KeyF5 | KeyF6 | KeyF7 | KeyF8
| KeyF9 | KeyF10 | KeyF11 | KeyF12 | KeyF13 | KeyF14 | KeyF15 | KeyF16
| KeyF17 | KeyF18 | KeyF19 | KeyF20 | KeyF21 | KeyF22 | KeyF23 | KeyF24
| KeyAppBack | KeyAppForward
| KeyModCtrl | KeyModShift | KeyModAlt | KeyModSuper.

(** [imgui.Vec2{X, Y}] and [imgui.Vec4{X, Y, Z, W}]; the fields carry
    a prefix because [Z] names the integers here. *)
Record Vec2 : Type := { v2X : Go.float32; v2Y : Go.float32 }.

Record Vec4 : Type :=
  { vX : Go.float32; vY : Go.float32; vZ : Go.float32; vW : Go.float32 }.

(** [imgui.IO] is a handle on the library's input/output object. *)
Definition IO : Type := Z.

(** The calls the platforms make on [imgui.IO]. *)
Inductive IOCall : Type :=
| SetDisplaySize (size : Vec2)
| SetDeltaTime (dt : Go.float32)
| SetMousePosition (pos : Vec2)
| SetMouseButtonDown (index : Z) (down : bool)
| AddMouseWheelDelta (horizontal vertical : Go.float32)
| AddInputCharacters (chars : string)
| AddKeyEvent (key : ImguiKey) (down : bool).

(** ** Draw data *)

(** A user callback is foreign code run in the middle of rendering;
    it may change the OpenGL context in any way. *)
Definition Callback : Type := gl.State -> gl.State.

(** [imgui.DrawCommand], by the values of its getters. *)
Record DrawCommand : Type :=
  { ElementCount : Z;
    IndexOffset : Z;
    VertexOffset : Z;
    TextureID : Z;
    ClipRect : Vec4;
    UserCallback : option Callback }.

Definition HasUserCallback (cmd : DrawCommand) : bool :=
  match UserCallback cmd with
  | Some _ => true
  | None => false
  end.

(** [imgui.DrawList]: the vertex and index buffers (address and size
    in bytes) and the commands. *)
Record DrawList : Type :=
  { VertexBuffer : Z * Z;
    IndexBuffer : Z * Z;
    Commands : list DrawCommand }.

Record DrawData : Type := { CommandLists : list DrawList }.

(** [drawData.ScaleClipRects(scale)] multiplies every clip rectangle
    by the scale, in place. *)
Definition scale_command (scale : Vec2) (cmd : DrawCommand) : DrawCommand :=
  {| ElementCount := ElementCount cmd;
     IndexOffset := IndexOffset cmd;
     VertexOffset := VertexOffset cmd;
     TextureID := TextureID cmd;
     ClipRect :=
       {| vX := Go.f32_mul (vX (ClipRect cmd)) (v2X scale);
          vY := Go.f32_mul (vY (ClipRect cmd)) (v2Y scale);
          vZ := Go.f32_mul (vZ (ClipRect cmd)) (v2X scale);
          vW := Go.f32_mul (vW (ClipRect cmd)) (v2Y scale) |};
     UserCallback := UserCallback cmd |}.

Definition scale_list (scale : Vec2) (l : DrawList) : DrawList :=
  {| VertexBuffer := VertexBuffer l;
     IndexBuffer := IndexBuffer l;
     Commands := map (scale_command scale) (Commands l) |}.

Definition ScaleClipRects (scale : Vec2) (d : DrawData) : DrawData :=
  {| CommandLists := map (scale_list scale) (CommandLists d) |}.

Definition BackendFlagsRendererHasVtxOffset : Z := 8.

(** The calls the renderer makes on imgui. *)
Inductive RendererCall : Type :=
| CallScaleClipRects (scale : Vec2)
| CallCurrentIO
| CallTextureDataAlpha8
| CallSetTextureID (id : Z)
| CallGetBackendFlags
| CallSetBackendFlags (flags : Z).

(** What imgui answers: the layout of its buffers
    ([VertexBufferLayout], [IndexBufferLayout]), the font atlas
    (width, height, address of the pixels) and the backend flags. *)
Record Answers : Type :=
  { VertexBufferLayout : Z * Z * Z * Z;
    IndexBufferLayout : Z;
    TextureDataAlpha8 : Z * Z * Z;
    BackendFlags : Z }.

End imgui.

(* ================================================================== *)
(** * sdl: constants of SDL2 ([SDL_scancode.h], [SDL_keycode.h]) *)
(* ================================================================== *)

Module sdl.

Definition SCANCODE_MINUS : Z := 45.
Definition SCANCODE_EQUALS : Z := 46.
Definition SCANCODE_LEFTBRACKET : Z := 47.
Definition SCANCODE_RIGHTBRACKET : Z := 48.
Definition SCANCODE_BACKSLASH : Z := 49.
Definition SCANCODE_SEMICOLON : Z := 51.
Definition SCANCODE_APOSTROPHE : Z := 52.
Definition SCANCODE_GRAVE : Z := 53.
Definition SCANCODE_COMMA : Z := 54.
Definition SCANCODE_PERIOD : Z := 55.
Definition SCANCODE_SLASH : Z := 56.
Definition SCANCODE_NONUSBACKSLASH : Z := 100.

(** [SDL_SCANCODE_TO_KEYCODE]: keys without a character have the
    scancode with bit 30 set as their keycode. *)
Definition K_SCANCODE_MASK : Z := Z.shiftl 1 30.
Definition SCANCODE_TO_KEYCODE (scancode : Z) : Z :=
  Z.lor scancode K_SCANCODE_MASK.

Definition K_BACKSPACE : Z := 8.
Definition K_TAB : Z := 9.
Definition K_RETURN : Z := 13.
Definition K_ESCAPE : Z := 27.
Definition K_SPACE : Z := 32.
Definition K_QUOTE : Z := 39.
Definition K_COMMA : Z := 44.
Definition K_MINUS : Z := 45.
Definition K_PERIOD : Z := 46.
Definition K_SLASH : Z := 47.
Definition K_0 : Z := 48.
Definition K_1 : Z := 49.
Definition K_2 : Z := 50.
Definition K_3 : Z := 51.
Definition K_4 : Z := 52.
Definition K_5 : Z := 53.
Definition K_6 : Z := 54.
Definition K_7 : Z := 55.
Definition K_8 : Z := 56.
Definition K_9 : Z := 57.
Definition K_SEMICOLON : Z := 59.
Definition K_EQUALS : Z := 61.
Definition K_a : Z := 97.
Definition K_b : Z := 98.
Definition K_c : Z := 99.
Definition K_d : Z := 100.
Definition K_e : Z := 101.
Definition K_f : Z := 102.
Definition K_g : Z := 103.
Definition K_h : Z := 104.
Definition K_i : Z := 105.
Definition K_j : Z := 106.
Definition K_k : Z := 107.
Definition K_l : Z := 108.
Definition K_m : Z := 109.
Definition K_n : Z := 110.
Definition K_o : Z := 111.
Definition K_p : Z := 112.
Definition K_q : Z := 113.
Definition K_r : Z := 114.
Definition K_s : Z := 115.
Definition K_t : Z := 116.
Definition K_u : Z := 117.
Definition K_v : Z := 118.
Definition K_w : Z := 119.
Definition K_x : Z := 120.
Definition K_y : Z := 121.
Definition K_z : Z := 122.
Definition K_DELETE : Z := 127.
Definition K_CAPSLOCK : Z := SCANCODE_TO_KEYCODE 57.
Definition K_F1 : Z := SCANCODE_TO_KEYCODE 58.
Definition K_F2 : Z := SCANCODE_TO_KEYCODE 59.
Definition K_F3 : Z := SCANCODE_TO_KEYCODE 60.
Definition K_F4 : Z := SCANCODE_TO_KEYCODE 61.
Definition K_F5 : Z := SCANCODE_TO_KEYCODE 62.
Definition K_F6 : Z := SCANCODE_TO_KEYCODE 63.
Definition K_F7 : Z := SCANCODE_TO_KEYCODE 64.
Definition K_F8 : Z := SCANCODE_TO_KEYCODE 65.
Definition K_F9 : Z := SCANCODE_TO_KEYCODE 66.
Definition K_F10 : Z := SCANCODE_TO_KEYCODE 67.
Definition K_F11 : Z := SCANCODE_TO_KEYCODE 68.
Definition K_F12 : Z := SCANCODE_TO_KEYCODE 69.
Definition K_PRINTSCREEN : Z := SCANCODE_TO_KEYCODE 70.
Definition K_SCROLLLOCK : Z := SCANCODE_TO_KEYCODE 71.
Definition K_PAUSE : Z := SCANCODE_TO_KEYCODE 72.
Definition K_INSERT : Z := SCANCODE_TO_KEYCODE 73.
Definition K_HOME : Z := SCANCODE_TO_KEYCODE 74.
Definition K_PAGEUP : Z := SCANCODE_TO_KEYCODE 75.
Definition K_END : Z := SCANCODE_TO_KEYCODE 77.
Definition K_PAGEDOWN : Z := SCANCODE_TO_KEYCODE 78.
Definition K_RIGHT : Z := SCANCODE_TO_KEYCODE 79.
Definition K_LEFT : Z := SCANCODE_TO_KEYCODE 80.
Definition K_DOWN : Z := SCANCODE_TO_KEYCODE 81.
Definition K_UP : Z := SCANCODE_TO_KEYCODE 82.
Definition K_NUMLOCKCLEAR : Z := SCANCODE_TO_KEYCODE 83.
Definition K_KP_DIVIDE : Z := SCANCODE_TO_KEYCODE 84.
Definition K_KP_MULTIPLY : Z := SCANCODE_TO_KEYCODE 85.
Definition K_KP_MINUS : Z := SCANCODE_TO_KEYCODE 86.
Definition K_KP_PLUS : Z := SCANCODE_TO_KEYCODE 87.
Definition K_KP_ENTER : Z := SCANCODE_TO_KEYCODE 88.
Definition K_KP_1 : Z := SCANCODE_TO_KEYCODE 89.
Definition K_KP_2 : Z := SCANCODE_TO_KEYCODE 90.
Definition K_KP_3 : Z := SCANCODE_TO_KEYCODE 91.
Definition K_KP_4 : Z := SCANCODE_TO_KEYCODE 92.
Definition K_KP_5 : Z := SCANCODE_TO_KEYCODE 93.
Definition K_KP_6 : Z := SCANCODE_TO_KEYCODE 94.
Definition K_KP_7 : Z := SCANCODE_TO_KEYCODE 95.
Definition K_KP_8 : Z := SCANCODE_TO_KEYCODE 96.
Definition K_KP_9 : Z := SCANCODE_TO_KEYCODE 97.
Definition K_KP_0 : Z := SCANCODE_TO_KEYCODE 98.
Definition K_KP_PERIOD : Z := SCANCODE_TO_KEYCODE 99.
Definition K_APPLICATION : Z := SCANCODE_TO_KEYCODE 101.
Definition K_KP_EQUALS : Z := SCANCODE_TO_KEYCODE 103.
Definition K_F13 : Z := SCANCODE_TO_KEYCODE 104.
Definition K_F14 : Z := SCANCODE_TO_KEYCODE 105.
Definition K_F15 : Z := SCANCODE_TO_KEYCODE 106.
Definition K_F16 : Z := SCANCODE_TO_KEYCODE 107.
Definition K_F17 : Z := SCANCODE_TO_KEYCODE 108.
Definition K_F18 : Z := SCANCODE_TO_KEYCODE 109.
Definition K_F19 : Z := SCANCODE_TO_KEYCODE 110.
Definition K_F20 : Z := SCANCODE_TO_KEYCODE 111.
Definition K_F21 : Z := SCANCODE_TO_KEYCODE 112.
Definition K_F22 : Z := SCANCODE_TO_KEYCODE 113.
Definition K_F23 : Z := SCANCODE_TO_KEYCODE 114.
Definition K_F24 : Z := SCANCODE_TO_KEYCODE 115.
Definition K_LCTRL : Z := SCANCODE_TO_KEYCODE 224.
Definition K_LSHIFT : Z := SCANCODE_TO_KEYCODE 225.
Definition K_LALT : Z := SCANCODE_TO_KEYCODE 226.
Definition K_LGUI : Z := SCANCODE_TO_KEYCODE 227.
Definition K_RCTRL : Z := SCANCODE_TO_KEYCODE 228.
Definition K_RSHIFT : Z := SCANCODE_TO_KEYCODE 229.
Definition K_RALT : Z := SCANCODE_TO_KEYCODE 230.
Definition K_RGUI : Z := SCANCODE_TO_KEYCODE 231.
Definition K_AC_BACK : Z := SCANCODE_TO_KEYCODE 270.
Definition K_AC_FORWARD : Z := SCANCODE_TO_KEYCODE 271.

(** Key modifier masks ([SDL_Keymod]). *)
Definition KMOD_CTRL : Z := Z.lor 64 128.
Definition KMOD_SHIFT : Z := Z.lor 1 2.
Definition KMOD_ALT : Z := Z.lor 256 512.
Definition KMOD_GUI : Z := Z.lor 1024 2048.

(** Mouse buttons and [SDL_BUTTON(x)]. *)
Definition BUTTON_LEFT : Z := 1.
Definition BUTTON_MIDDLE : Z := 2.
Definition BUTTON_RIGHT : Z := 3.
Definition Button (flag : Z) : Z := Z.shiftl 1 (flag - 1).

Definition INIT_VIDEO : Z := 32.
Definition WINDOWPOS_CENTERED : Z := 805240832.
Definition WINDOW_OPENGL : Z := 2.
Definition GL_CONTEXT_FORWARD_COMPATIBLE_FLAG : Z := 2.
Definition GL_CONTEXT_PROFILE_CORE : Z := 1.

(** [sdl.GLattr], the attributes the platform sets. *)
Inductive GLattr : Type :=
| GL_CONTEXT_MAJOR_VERSION | GL_CONTEXT_MINOR_VERSION | GL_CONTEXT_FLAGS
| GL_CONTEXT_PROFILE_MASK | GL_DOUBLEBUFFER | GL_DEPTH_SIZE | GL_STENCIL_SIZE.

(** Handles: [*sdl.Window] and [sdl.GLContext]. *)
Definition Window : Type := Z.
Definition GLContext : Type := Z.

(** [sdl.Event], by the event types [processEvent] switches on; every
    other event type is [OtherEvent]. *)
Inductive Event : Type :=
| QuitEvent
| MouseWheelEvent (X Y : Z)
| MouseButtonDownEvent (Button : Z)
| TextInputEvent (Text : string)
| KeyDownEvent (Sym Scancode Mod : Z)
| KeyUpEvent (Sym Scancode Mod : Z)
| OtherEvent (type : Z).

(** The calls the platform makes on SDL. *)
Inductive Call : Type :=
| CallInit (flags : Z)
| CallQuit
| CallCreateWindow (title : string) (x y w h flags : Z)
| CallDestroy (window : Window)
| CallGLSetAttribute (attr : GLattr) (value : Z)
| CallGLCreateContext (window : Window)
| CallGLMakeCurrent (window : Window) (context : GLContext)
| CallGLDeleteContext (context : GLContext)
| CallGLSetSwapInterval (interval : Z)
| CallPollEvent
| CallGetSize (window : Window)
| CallGLGetDrawableSize (window : Window)
| CallGetPerformanceFrequency
| CallGetPerformanceCounter
| CallGetMouseState
| CallGLSwap (window : Window)
| CallGetClipboardText
| CallSetClipboardText (text : string).

(** What SDL holds on behalf of the process: whether it is
    initialised, the windows and OpenGL contexts that were created and
    not yet destroyed, the context that is current and the window it
    is current in, and the queue of pending events. *)
Record Resources : Type :=
  { initialized : bool;
    windows : list Window;
    glContexts : list GLContext;
    currentContext : option GLContext;
    currentWindow : option Window;
    events : list Event }.

Definition set_initialized (b : bool) (r : Resources) : Resources :=
  {| initialized := b; windows := windows r; glContexts := glContexts r;
     currentContext := currentContext r; currentWindow := currentWindow r;
     events := events r |}.
Definition set_windows (l : list Window) (r : Resources) : Resources :=
  {| initialized := initialized r; windows := l; glContexts := glContexts r;
     currentContext := currentContext r; currentWindow := currentWindow r;
     events := events r |}.
Definition set_glContexts (l : list GLContext) (r : Resources) : Resources :=
  {| initialized := initialized r; windows := windows r; glContexts := l;
     currentContext := currentContext r; currentWindow := currentWindow r;
     events := events r |}.
(** [context] is current in [window]; [None] and [None] when no
    context is current. *)
Definition set_current (context : option GLContext) (window : option Window)
    (r : Resources) : Resources :=
  {| initialized := initialized r; windows := windows r; glContexts := glContexts r;
     currentContext := context; currentWindow := window; events := events r |}.
Definition set_events (l : list Event) (r : Resources) : Resources :=
  {| initialized := initialized r; windows := windows r; glContexts := glContexts r;
     currentContext := currentContext r; currentWindow := currentWindow r;
     events := l |}.

(** Nothing is held before [sdl.Init]. *)
Definition no_resources : Resources :=
  {| initialized := false; windows := []; glContexts := [];
     currentContext := None; currentWindow := None; events := [] |}.

(** What the library answers where the platform has no say: whether
    each fallible call succeeds, and the readings of the window size,
    the clock and the mouse. *)
Record Answers : Type :=
  { Init_error : option Go.error;
    CreateWindow_result : Window + Go.error;
    GLCreateContext_result : GLContext + Go.error;
    GLMakeCurrent_error : option Go.error;
    GetSize_result : Z * Z;
    GLGetDrawableSize_result : Z * Z;
    PerformanceFrequency : Z;
    PerformanceCounter : Z;
    MouseState : Z * Z * Z;
    ClipboardText : string * option Go.error }.

Definition Cmd (A : Type) : Type := Effect.M Resources Call A.

(** [sdl.Init]: on success SDL is initialised. *)
Definition Init (lib : Answers) (flags : Z) : Cmd (option Go.error) :=
  Effect.call (CallInit flags)
    (fun r => match Init_error lib with
              | None => set_initialized true r
              | Some _ => r
              end)
    (fun _ => Init_error lib).

(** [sdl.Quit]: SDL shuts down; the video subsystem destroys the
    windows that are left, so that no context is current any more.
    OpenGL contexts are deleted by [GLDeleteContext] only. *)
Definition Quit : Cmd unit :=
  Effect.call CallQuit
    (fun r => set_current None None (set_windows [] (set_initialized false r)))
    (fun _ => tt).

(** [sdl.CreateWindow]: on success the window is live. *)
Definition CreateWindow (lib : Answers) (title : string) (x y w h flags : Z)
  : Cmd (Window + Go.error) :=
  Effect.call (CallCreateWindow title x y w h flags)
    (fun r => match CreateWindow_result lib with
              | inl win => set_windows (win :: windows r) r
              | inr _ => r
              end)
    (fun _ => CreateWindow_result lib).

(** Whether a context is current in [window]. *)
Definition is_current_window (window : Window) (r : Resources) : bool :=
  match currentWindow r with
  | Some w => w =? window
  | None => false
  end.

(** [window.Destroy]: the window is no longer live; when a context
    was current in it, no context is current afterwards. *)
Definition Destroy (window : Window) : Cmd unit :=
  Effect.call (CallDestroy window)
    (fun r =>
       let r' := set_windows (filter (fun w => negb (w =? window)) (windows r)) r in
       if is_current_window window r then set_current None None r' else r')
    (fun _ => tt).

Definition GLSetAttribute (attr : GLattr) (value : Z) : Cmd unit :=
  Effect.call (CallGLSetAttribute attr value) (fun r => r) (fun _ => tt).

(** [window.GLCreateContext]: on success the context is live, and
    current in the window it was created for. *)
Definition GLCreateContext (lib : Answers) (window : Window)
  : Cmd (GLContext + Go.error) :=
  Effect.call (CallGLCreateContext window)
    (fun r => match GLCreateContext_result lib with
              | inl c =>
                  set_current (Some c) (Some window)
                    (set_glContexts (c :: glContexts r) r)
              | inr _ => r
              end)
    (fun _ => GLCreateContext_result lib).

Definition GLMakeCurrent (lib : Answers) (window : Window) (context : GLContext)
  : Cmd (option Go.error) :=
  Effect.call (CallGLMakeCurrent window context)
    (fun r => match GLMakeCurrent_error lib with
              | None => set_current (Some context) (Some window) r
              | Some _ => r
              end)
    (fun _ => GLMakeCurrent_error lib).

Definition GLSetSwapInterval (interval : Z) : Cmd unit :=
  Effect.call (CallGLSetSwapInterval interval) (fun r => r) (fun _ => tt).

(** [sdl.PollEvent]: the next pending event, removed from the queue;
    [None] is Go's [nil], the queue is empty. *)
Definition PollEvent : Cmd (option Event) :=
  Effect.call CallPollEvent
    (fun r => set_events (tl (events r)) r)
    (fun r => hd_error (events r)).

Definition GetSize (lib : Answers) (window : Window) : Cmd (Z * Z) :=
  Effect.call (CallGetSize window) (fun r => r) (fun _ => GetSize_result lib).
Definition GLGetDrawableSize (lib : Answers) (window : Window) : Cmd (Z * Z) :=
  Effect.call (CallGLGetDrawableSize window) (fun r => r)
    (fun _ => GLGetDrawableSize_result lib).
Definition GetPerformanceFrequency (lib : Answers) : Cmd Z :=
  Effect.call CallGetPerformanceFrequency (fun r => r) (fun _ => PerformanceFrequency lib).
Definition GetPerformanceCounter (lib : Answers) : Cmd Z :=
  Effect.call CallGetPerformanceCounter (fun r => r) (fun _ => PerformanceCounter lib).
Definition GetMouseState (lib : Answers) : Cmd (Z * Z * Z) :=
  Effect.call CallGetMouseState (fun r => r) (fun _ => MouseState lib).
Definition GLSwap (window : Window) : Cmd unit :=
  Effect.call (CallGLSwap window) (fun r => r) (fun _ => tt).
Definition GetClipboardText (lib : Answers) : Cmd (string * option Go.error) :=
  Effect.call CallGetClipboardText (fun r => r) (fun _ => ClipboardText lib).
Definition SetClipboardText (text : string) : Cmd unit :=
  Effect.call (CallSetClipboardText text) (fun r => r) (fun _ => tt).

End sdl.

(* ================================================================== *)
(** * glfw: key constants of GLFW 3.2 *)
(* ================================================================== *)

Module glfw.

Definition KeyUnknown : Z := -1.
Definition KeySpace : Z := 32.
Definition KeyApostrophe : Z := 39.
Definition KeyComma : Z := 44.
Definition KeyMinus : Z := 45.
Definition KeyPeriod : Z := 46.
Definition KeySlash : Z := 47.
Definition Key0 : Z := 48.
Definition Key1 : Z := 49.
Definition Key2 : Z := 50.
Definition Key3 : Z := 51.
Definition Key4 : Z := 52.
Definition Key5 : Z := 53.
Definition Key6 : Z := 54.
Definition Key7 : Z := 55.
Definition Key8 : Z := 56.
Definition Key9 : Z := 57.
Definition KeySemicolon : Z := 59.
Definition KeyEqual : Z := 61.
Definition KeyA : Z := 65.
Definition KeyB : Z := 66.
Definition KeyC : Z := 67.
Definition KeyD : Z := 68.
Definition KeyE : Z := 69.
Definition KeyF : Z := 70.
Definition KeyG : Z := 71.
Definition KeyH : Z := 72.
Definition KeyI : Z := 73.
Definition KeyJ : Z := 74.
Definition KeyK : Z := 75.
Definition KeyL : Z := 76.
Definition KeyM : Z := 77.
Definition KeyN : Z := 78.
Definition KeyO : Z := 79.
Definition KeyP : Z := 80.
Definition KeyQ : Z := 81.
Definition KeyR : Z := 82.
Definition KeyS : Z := 83.
Definition KeyT : Z := 84.
Definition KeyU : Z := 85.
Definition KeyV : Z := 86.
Definition KeyW : Z := 87.
Definition KeyX : Z := 88.
Definition KeyY : Z := 89.
Definition KeyZ : Z := 90.
Definition KeyLeftBracket : Z := 91.
Definition KeyBackslash : Z := 92.
Definition KeyRightBracket : Z := 93.
Definition KeyGraveAccent : Z := 96.
Definition KeyWorld1 : Z := 161.
Definition KeyWorld2 : Z := 162.
Definition KeyEscape : Z := 256.
Definition KeyEnter : Z := 257.
Definition KeyTab : Z := 258.
Definition KeyBackspace : Z := 259.
Definition KeyInsert : Z := 260.
Definition KeyDelete : Z := 261.
Definition KeyRight : Z := 262.
Definition KeyLeft : Z := 263.
Definition KeyDown : Z := 264.
Definition KeyUp : Z := 265.
Definition KeyPageUp : Z := 266.
Definition KeyPageDown : Z := 267.
Definition KeyHome : Z := 268.
Definition KeyEnd : Z := 269.
Definition KeyCapsLock : Z := 280.
Definition KeyScrollLock : Z := 281.
Definition KeyNumLock : Z := 282.
Definition KeyPrintScreen : Z := 283.
Definition KeyPause : Z := 284.
Definition KeyF1 : Z := 290.
Definition KeyF2 : Z := 291.
Definition KeyF3 : Z := 292.
Definition KeyF4 : Z := 293.
Definition KeyF5 : Z := 294.
Definition KeyF6 : Z := 295.
Definition KeyF7 : Z := 296.
Definition KeyF8 : Z := 297.
Definition KeyF9 : Z := 298.
Definition KeyF10 : Z := 299.
Definition KeyF11 : Z := 300.
Definition KeyF12 : Z := 301.
Definition KeyF13 : Z := 302.
Definition KeyF14 : Z := 303.
Definition KeyF15 : Z := 304.
Definition KeyF16 : Z := 305.
Definition KeyF17 : Z := 306.
Definition KeyF18 : Z := 307.
Definition KeyF19 : Z := 308.
Definition KeyF20 : Z := 309.
Definition KeyF21 : Z := 310.
Definition KeyF22 : Z := 311.
Definition KeyF23 : Z := 312.
Definition KeyF24 : Z := 313.
Definition KeyKP0 : Z := 320.
Definition KeyKP1 : Z := 321.
Definition KeyKP2 : Z := 322.
Definition KeyKP3 : Z := 323.
Definition KeyKP4 : Z := 324.
Definition KeyKP5 : Z := 325.
Definition KeyKP6 : Z := 326.
Definition KeyKP7 : Z := 327.
Definition KeyKP8 : Z := 328.
Definition KeyKP9 : Z := 329.
Definition KeyKPDecimal : Z := 330.
Definition KeyKPDivide : Z := 331.
Definition KeyKPMultiply : Z := 332.
Definition KeyKPSubtract : Z := 333.
Definition KeyKPAdd : Z := 334.
Definition KeyKPEnter : Z := 335.
Definition KeyKPEqual : Z := 336.
Definition KeyLeftShift : Z := 340.
Definition KeyLeftControl : Z := 341.
Definition KeyLeftAlt : Z := 342.
Definition KeyLeftSuper : Z := 343.
Definition KeyRightShift : Z := 344.
Definition KeyRightControl : Z := 345.
Definition KeyRightAlt : Z := 346.
Definition KeyRightSuper : Z := 347.
Definition KeyMenu : Z := 348.

(** [glfw.Action] and [glfw.ModifierKey]. *)
Definition Release : Z := 0.
Definition Press : Z := 1.
Definition Repeat : Z := 2.
Definition ModShift : Z := 1.
Definition ModControl : Z := 2.
Definition ModAlt : Z := 4.
Definition ModSuper : Z := 8.

Definition MouseButton1 : Z := 0.
Definition MouseButton2 : Z := 1.
Definition MouseButton3 : Z := 2.

Definition OpenGLCoreProfile : Z := 204801.

(** [glfw.Hint], the hints the platform sets. *)
Inductive Hint : Type :=
| ContextVersionMajor | ContextVersionMinor | OpenGLProfile | OpenGLForwardCompatible.

(** Handle: [*glfw.Window]. *)
Definition Window : Type := Z.

(** The calls the platform makes on GLFW. *)
Inductive Call : Type :=
| CallInit
| CallTerminate
| CallWindowHint (target : Hint) (hint : Z)
| CallCreateWindow (width height : Z) (title : string)
| CallMakeContextCurrent (window : Window)
| CallSwapInterval (interval : Z)
| CallDestroy (window : Window)
| CallSetMouseButtonCallback (window : Window)
| CallSetScrollCallback (window : Window)
| CallSetKeyCallback (window : Window)
| CallSetCharCallback (window : Window).

(** What GLFW holds on behalf of the process. *)
Record Resources : Type :=
  { initialized : bool;
    windows : list Window }.

Definition no_resources : Resources :=
  {| initialized := false; windows := [] |}.

(** Whether the fallible calls succeed. *)
Record Answers : Type :=
  { Init_error : option Go.error;
    CreateWindow_result : Window + Go.error }.

Definition Cmd (A : Type) : Type := Effect.M Resources Call A.

Definition Init (lib : Answers) : Cmd (option Go.error) :=
  Effect.call CallInit
    (fun r => match Init_error lib with
              | None => {| initialized := true; windows := windows r |}
              | Some _ => r
              end)
    (fun _ => Init_error lib).

(** [glfw.Terminate] destroys the remaining windows as well. *)
Definition Terminate : Cmd unit :=
  Effect.call CallTerminate
    (fun _ => {| initialized := false; windows := [] |}) (fun _ => tt).

Definition WindowHint (target : Hint) (hint : Z) : Cmd unit :=
  Effect.call (CallWindowHint target hint) (fun r => r) (fun _ => tt).

Definition CreateWindow (lib : Answers) (width height : Z) (title : string)
  : Cmd (Window + Go.error) :=
  Effect.call (CallCreateWindow width height title)
    (fun r => match CreateWindow_result lib with
              | inl win => {| initialized := initialized r; windows := win :: windows r |}
              | inr _ => r
              end)
    (fun _ => CreateWindow_result lib).

Definition Destroy (window : Window) : Cmd unit :=
  Effect.call (CallDestroy window)
    (fun r => {| initialized := initialized r;
                 windows := filter (fun w => negb (w =? window)) (windows r) |})
    (fun _ => tt).

Definition MakeContextCurrent (window : Window) : Cmd unit :=
  Effect.call (CallMakeContextCurrent window) (fun r => r) (fun _ => tt).
Definition SwapInterval (interval : Z) : Cmd unit :=
  Effect.call (CallSwapInterval interval) (fun r => r) (fun _ => tt).
Definition SetMouseButtonCallback (window : Window) : Cmd unit :=
  Effect.call (CallSetMouseButtonCallback window) (fun r => r) (fun _ => tt).
Definition SetScrollCallback (window : Window) : Cmd unit :=
  Effect.call (CallSetScrollCallback window) (fun r => r) (fun _ => tt).
Definition SetKeyCallback (window : Window) : Cmd unit :=
  Effect.call (CallSetKeyCallback window) (fun r => r) (fun _ => tt).
Definition SetCharCallback (window : Window) : Cmd unit :=
  Effect.call (CallSetCharCallback window) (fun r => r) (fun _ => tt).

End glfw.

(* ================================================================== *)
(** * platforms: [internal/platforms/sdl.go] and the GLFW platform *)
(* ================================================================== *)

Module platforms.

Import Go.
Local Open Scope string_scope.
Local Open Scope list_scope.
Local Open Scope Z_scope.
Local Open Scope effect_scope.

(** ** Key translation *)

(** The cases of the keycode switch of [sdl2KeyEventToImguiKey], in
    source order (the cases the source has commented out are absent). *)
Definition sdl2_keycode_cases : list (Z * imgui.ImguiKey) :=
  [ (sdl.K_TAB, imgui.KeyTab);
    (sdl.K_LEFT, imgui.KeyLeftArrow);
    (sdl.K_RIGHT, imgui.KeyRightArrow);
    (sdl.K_UP, imgui.KeyUpArrow);
    (sdl.K_DOWN, imgui.KeyDownArrow);
    (sdl.K_PAGEUP, imgui.KeyPageUp);
    (sdl.K_PAGEDOWN, imgui.KeyPageDown);
    (sdl.K_HOME, imgui.KeyHome);
    (sdl.K_END, imgui.KeyEnd);
    (sdl.K_INSERT, imgui.KeyInsert);
    (sdl.K_DELETE, imgui.KeyDelete);
    (sdl.K_BACKSPACE, imgui.KeyBackspace);
    (sdl.K_SPACE, imgui.KeySpace);
    (sdl.K_RETURN, imgui.KeyEnter);
    (sdl.K_ESCAPE, imgui.KeyEscape);
    (sdl.K_COMMA, imgui.KeyComma);
    (sdl.K_PERIOD, imgui.KeyPeriod);
    (sdl.K_SEMICOLON, imgui.KeySemicolon);
    (sdl.K_CAPSLOCK, imgui.KeyCapsLock);
    (sdl.K_SCROLLLOCK, imgui.KeyScrollLock);
    (sdl.K_NUMLOCKCLEAR, imgui.KeyNumLock);
    (sdl.K_PRINTSCREEN, imgui.KeyPrintScreen);
    (sdl.K_PAUSE, imgui.KeyPause);
    (sdl.K_KP_0, imgui.KeyKeypad0);
    (sdl.K_KP_1, imgui.KeyKeypad1);
    (sdl.K_KP_2, imgui.KeyKeypad2);
    (sdl.K_KP_3, imgui.KeyKeypad3);
    (sdl.K_KP_4, imgui.KeyKeypad4);
    (sdl.K_KP_5, imgui.KeyKeypad5);
    (sdl.K_KP_6, imgui.KeyKeypad6);
    (sdl.K_KP_7, imgui.KeyKeypad7);
    (sdl.K_KP_8, imgui.KeyKeypad8);
    (sdl.K_KP_9, imgui.KeyKeypad9);
    (sdl.K_KP_PERIOD, imgui.KeyKeypadDecimal);
    (sdl.K_KP_DIVIDE, imgui.KeyKeypadDivide);
    (sdl.K_KP_MULTIPLY, imgui.KeyKeypadMultiply);
    (sdl.K_KP_MINUS, imgui.KeyKeypadSubtract);
    (sdl.K_KP_PLUS, imgui.KeyKeypadAdd);
    (sdl.K_KP_ENTER, imgui.KeyKeypadEnter);
    (sdl.K_KP_EQUALS, imgui.KeyKeypadEqual);
    (sdl.K_LCTRL, imgui.KeyLeftCtrl);
    (sdl.K_LSHIFT, imgui.KeyLeftShift);
    (sdl.K_LALT, imgui.KeyLeftAlt);
    (sdl.K_LGUI, imgui.KeyLeftSuper);
    (sdl.K_RCTRL, imgui.KeyRightCtrl);
    (sdl.K_RSHIFT, imgui.KeyRightShift);
    (sdl.K_RALT, imgui.KeyRightAlt);
    (sdl.K_RGUI, imgui.KeyRightSuper);
    (sdl.K_APPLICATION, imgui.KeyMenu);
    (sdl.K_0, imgui.Key0);
    (sdl.K_1, imgui.Key1);
    (sdl.K_2, imgui.Key2);
    (sdl.K_3, imgui.Key3);
    (sdl.K_4, imgui.Key4);
    (sdl.K_5, imgui.Key5);
    (sdl.K_6, imgui.Key6);
    (sdl.K_7, imgui.Key7);
    (sdl.K_8, imgui.Key8);
    (sdl.K_9, imgui.Key9);
    (sdl.K_a, imgui.KeyA);
    (sdl.K_b, imgui.KeyB);
    (sdl.K_c, imgui.KeyC);
    (sdl.K_d, imgui.KeyD);
    (sdl.K_e, imgui.KeyE);
    (sdl.K_f, imgui.KeyF);
    (sdl.K_g, imgui.KeyG);
    (sdl.K_h, imgui.KeyH);
    (sdl.K_i, imgui.KeyI);
    (sdl.K_j, imgui.KeyJ);
    (sdl.K_k, imgui.KeyK);
    (sdl.K_l, imgui.KeyL);
    (sdl.K_m, imgui.KeyM);
    (sdl.K_n, imgui.KeyN);
    (sdl.K_o, imgui.KeyO);
    (sdl.K_p, imgui.KeyP);
    (sdl.K_q, imgui.KeyQ);
    (sdl.K_r, imgui.KeyR);
    (sdl.K_s, imgui.KeyS);
    (sdl.K_t, imgui.KeyT);
    (sdl.K_u, imgui.KeyU);
    (sdl.K_v, imgui.KeyV);
    (sdl.K_w, imgui.KeyW);
    (sdl.K_x, imgui.KeyX);
    (sdl.K_y, imgui.KeyY);
    (sdl.K_z, imgui.KeyZ);
    (sdl.K_F1, imgui.KeyF1);
    (sdl.K_F2, imgui.KeyF2);
    (sdl.K_F3, imgui.KeyF3);
    (sdl.K_F4, imgui.KeyF4);
    (sdl.K_F5, imgui.KeyF5);
    (sdl.K_F6, imgui.KeyF6);
    (sdl.K_F7, imgui.KeyF7);
    (sdl.K_F8, imgui.KeyF8);
    (sdl.K_F9, imgui.KeyF9);
    (sdl.K_F10, imgui.KeyF10);
    (sdl.K_F11, imgui.KeyF11);
    (sdl.K_F12, imgui.KeyF12);
    (sdl.K_F13, imgui.KeyF13);
    (sdl.K_F14, imgui.KeyF14);
    (sdl.K_F15, imgui.KeyF15);
    (sdl.K_F16, imgui.KeyF16);
    (sdl.K_F17, imgui.KeyF17);
    (sdl.K_F18, imgui.KeyF18);
    (sdl.K_F19, imgui.KeyF19);
    (sdl.K_F20, imgui.KeyF20);
    (sdl.K_F21, imgui.KeyF21);
    (sdl.K_F22, imgui.KeyF22);
    (sdl.K_F23, imgui.KeyF23);
    (sdl.K_F24, imgui.KeyF24);
    (sdl.K_AC_BACK, imgui.KeyAppBack);
    (sdl.K_AC_FORWARD, imgui.KeyAppForward) ].

(** The cases of the scancode switch ("Fallback to scancode"). *)
Definition sdl2_scancode_cases : list (Z * imgui.ImguiKey) :=
  [ (sdl.SCANCODE_GRAVE, imgui.KeyGraveAccent);
    (sdl.SCANCODE_MINUS, imgui.KeyMinus);
    (sdl.SCANCODE_EQUALS, imgui.KeyEqual);
    (sdl.SCANCODE_LEFTBRACKET, imgui.KeyLeftBracket);
    (sdl.SCANCODE_RIGHTBRACKET, imgui.KeyRightBracket);
    (sdl.SCANCODE_NONUSBACKSLASH, imgui.KeyOem102);
    (sdl.SCANCODE_BACKSLASH, imgui.KeyBackslash);
    (sdl.SCANCODE_SEMICOLON, imgui.KeySemicolon);
    (sdl.SCANCODE_APOSTROPHE, imgui.KeyApostrophe);
    (sdl.SCANCODE_COMMA, imgui.KeyComma);
    (sdl.SCANCODE_PERIOD, imgui.KeyPeriod);
    (sdl.SCANCODE_SLASH, imgui.KeySlash) ].

(** [sdl2KeyEventToImguiKey]: the keycode switch; when no case of it
    returns, the scancode switch; when that returns neither, [KeyNone]. *)
Definition sdl2KeyEventToImguiKey (keycode scancode : Z) : imgui.ImguiKey :=
  match switch keycode sdl2_keycode_cases with
  | Some k => k
  | None =>
      match switch scancode sdl2_scancode_cases with
      | Some k => k
      | None => imgui.KeyNone
      end
  end.

(** The result of the scancode switch alone. *)
Definition scancode_fallback (scancode : Z) : imgui.ImguiKey :=
  match switch scancode sdl2_scancode_cases with
  | Some k => k
  | None => imgui.KeyNone
  end.

Definition is_KeyNone (k : imgui.ImguiKey) : bool :=
  match k with
  | imgui.KeyNone => true
  | _ => false
  end.

(** The cases of the switch of [glfwKeyEventToImguiKey], in source order. *)
Definition glfw_key_cases : list (Z * imgui.ImguiKey) :=
  [ (glfw.KeyTab, imgui.KeyTab);
    (glfw.KeyLeft, imgui.KeyLeftArrow);
    (glfw.KeyRight, imgui.KeyRightArrow);
    (glfw.KeyUp, imgui.KeyUpArrow);
    (glfw.KeyDown, imgui.KeyDownArrow);
    (glfw.KeyPageUp, imgui.KeyPageUp);
    (glfw.KeyPageDown, imgui.KeyPageDown);
    (glfw.KeyHome, imgui.KeyHome);
    (glfw.KeyEnd, imgui.KeyEnd);
    (glfw.KeyInsert, imgui.KeyInsert);
    (glfw.KeyDelete, imgui.KeyDelete);
    (glfw.KeyBackspace, imgui.KeyBackspace);
    (glfw.KeySpace, imgui.KeySpace);
    (glfw.KeyEnter, imgui.KeyEnter);
    (glfw.KeyEscape, imgui.KeyEscape);
    (glfw.KeyApostrophe, imgui.KeyApostrophe);
    (glfw.KeyComma, imgui.KeyComma);
    (glfw.KeyMinus, imgui.KeyMinus);
    (glfw.KeyPeriod, imgui.KeyPeriod);
    (glfw.KeySlash, imgui.KeySlash);
    (glfw.KeySemicolon, imgui.KeySemicolon);
    (glfw.KeyEqual, imgui.KeyEqual);
    (glfw.KeyLeftBracket, imgui.KeyLeftBracket);
    (glfw.KeyBackslash, imgui.KeyBackslash);
    (glfw.KeyWorld1, imgui.KeyOem102);
    (glfw.KeyWorld2, imgui.KeyOem102);
    (glfw.KeyRightBracket, imgui.KeyRightBracket);
    (glfw.KeyGraveAccent, imgui.KeyGraveAccent);
    (glfw.KeyCapsLock, imgui.KeyCapsLock);
    (glfw.KeyScrollLock, imgui.KeyScrollLock);
    (glfw.KeyNumLock, imgui.KeyNumLock);
    (glfw.KeyPrintScreen, imgui.KeyPrintScreen);
    (glfw.KeyPause, imgui.KeyPause);
    (glfw.KeyKP0, imgui.KeyKeypad0);
    (glfw.KeyKP1, imgui.KeyKeypad1);
    (glfw.KeyKP2, imgui.KeyKeypad2);
    (glfw.KeyKP3, imgui.KeyKeypad3);
    (glfw.KeyKP4, imgui.KeyKeypad4);
    (glfw.KeyKP5, imgui.KeyKeypad5);
    (glfw.KeyKP6, imgui.KeyKeypad6);
    (glfw.KeyKP7, imgui.KeyKeypad7);
    (glfw.KeyKP8, imgui.KeyKeypad8);
    (glfw.KeyKP9, imgui.KeyKeypad9);
    (glfw.KeyKPDecimal, imgui.KeyKeypadDecimal);
    (glfw.KeyKPDivide, imgui.KeyKeypadDivide);
    (glfw.KeyKPMultiply, imgui.KeyKeypadMultiply);
    (glfw.KeyKPSubtract, imgui.KeyKeypadSubtract);
    (glfw.KeyKPAdd, imgui.KeyKeypadAdd);
    (glfw.KeyKPEnter, imgui.KeyKeypadEnter);
    (glfw.KeyKPEqual, imgui.KeyKeypadEqual);
    (glfw.KeyLeftShift, imgui.KeyLeftShift);
    (glfw.KeyLeftControl, imgui.KeyLeftCtrl);
    (glfw.KeyLeftAlt, imgui.KeyLeftAlt);
    (glfw.KeyLeftSuper, imgui.KeyLeftSuper);
    (glfw.KeyRightShift, imgui.KeyRightShift);
    (glfw.KeyRightControl, imgui.KeyRightCtrl);
    (glfw.KeyRightAlt, imgui.KeyRightAlt);
    (glfw.KeyRightSuper, imgui.KeyRightSuper);
    (glfw.KeyMenu, imgui.KeyMenu);
    (glfw.Key0, imgui.Key0);
    (glfw.Key1, imgui.Key1);
    (glfw.Key2, imgui.Key2);
    (glfw.Key3, imgui.Key3);
    (glfw.Key4, imgui.Key4);
    (glfw.Key5, imgui.Key5);
    (glfw.Key6, imgui.Key6);
    (glfw.Key7, imgui.Key7);
    (glfw.Key8, imgui.Key8);
    (glfw.Key9, imgui.Key9);
    (glfw.KeyA, imgui.KeyA);
    (glfw.KeyB, imgui.KeyB);
    (glfw.KeyC, imgui.KeyC);
    (glfw.KeyD, imgui.KeyD);
    (glfw.KeyE, imgui.KeyE);
    (glfw.KeyF, imgui.KeyF);
    (glfw.KeyG, imgui.KeyG);
    (glfw.KeyH, imgui.KeyH);
    (glfw.KeyI, imgui.KeyI);
    (glfw.KeyJ, imgui.KeyJ);
    (glfw.KeyK, imgui.KeyK);
    (glfw.KeyL, imgui.KeyL);
    (glfw.KeyM, imgui.KeyM);
    (glfw.KeyN, imgui.KeyN);
    (glfw.KeyO, imgui.KeyO);
    (glfw.KeyP, imgui.KeyP);
    (glfw.KeyQ, imgui.KeyQ);
    (glfw.KeyR, imgui.KeyR);
    (glfw.KeyS, imgui.KeyS);
    (glfw.KeyT, imgui.KeyT);
    (glfw.KeyU, imgui.KeyU);
    (glfw.KeyV, imgui.KeyV);
    (glfw.KeyW, imgui.KeyW);
    (glfw.KeyX, imgui.KeyX);
    (glfw.KeyY, imgui.KeyY);
    (glfw.KeyZ, imgui.KeyZ);
    (glfw.KeyF1, imgui.KeyF1);
    (glfw.KeyF2, imgui.KeyF2);
    (glfw.KeyF3, imgui.KeyF3);
    (glfw.KeyF4, imgui.KeyF4);
    (glfw.KeyF5, imgui.KeyF5);
    (glfw.KeyF6, imgui.KeyF6);
    (glfw.KeyF7, imgui.KeyF7);
    (glfw.KeyF8, imgui.KeyF8);
    (glfw.KeyF9, imgui.KeyF9);
    (glfw.KeyF10, imgui.KeyF10);
    (glfw.KeyF11, imgui.KeyF11);
    (glfw.KeyF12, imgui.KeyF12);
    (glfw.KeyF13, imgui.KeyF13);
    (glfw.KeyF14, imgui.KeyF14);
    (glfw.KeyF15, imgui.KeyF15);
    (glfw.KeyF16, imgui.KeyF16);
    (glfw.KeyF17, imgui.KeyF17);
    (glfw.KeyF18, imgui.KeyF18);
    (glfw.KeyF19, imgui.KeyF19);
    (glfw.KeyF20, imgui.KeyF20);
    (glfw.KeyF21, imgui.KeyF21);
    (glfw.KeyF22, imgui.KeyF22);
    (glfw.KeyF23, imgui.KeyF23);
    (glfw.KeyF24, imgui.KeyF24) ].

(** [glfwKeyEventToImguiKey]: one switch on the key with a [default]
    case; the scancode parameter is not read. *)
Definition glfwKeyEventToImguiKey (key scancode : Z) : imgui.ImguiKey :=
  match switch key glfw_key_cases with
  | Some k => k
  | None => imgui.KeyNone
  end.

(** ** What both platforms share *)

(** The calls of a platform: on the Go runtime, on its windowing
    library (calls [L]) and on [imgui.IO]. *)
Inductive Call (L : Type) : Type :=
| LockOSThread
| Lib (c : L)
| IO (c : imgui.IOCall).
Arguments LockOSThread {L}.
Arguments Lib {L} c.
Arguments IO {L} c.

Definition runtime_LockOSThread {S L : Type} : Effect.M S (Call L) unit :=
  Effect.call LockOSThread (fun s => s) (fun _ => tt).

(** A call on the platform's [imguiIO]. *)
Definition io {S L : Type} (c : imgui.IOCall) : Effect.M S (Call L) unit :=
  Effect.call (IO c) (fun s => s) (fun _ => tt).

(** [a[i] = v] on an array of booleans indexed from 0. *)
Definition array_set (a : Z -> bool) (i : Z) (v : bool) : Z -> bool :=
  fun j => if j =? i then v else a j.

(** Constants of package [platforms] whose declarations are outside
    the listed sources; the functions below take them as a parameter. *)
Record PackageConstants : Type :=
  { windowWidth : Z;
    windowHeight : Z;
    mouseButtonPrimary : Z;
    mouseButtonSecondary : Z;
    mouseButtonTertiary : Z }.

(** [(mod & mask) != 0]. *)
Definition has_mod (mod_ mask : Z) : bool := negb (Z.land mod_ mask =? 0).

(** ** type SDL *)

Module SDL.

(** [SDLClientAPI] is a string type. *)
Definition SDLClientAPI : Type := string.
Definition SDLClientAPIOpenGL2 : SDLClientAPI := "OpenGL2".
Definition SDLClientAPIOpenGL3 : SDLClientAPI := "OpenGL3".

(** [type SDL struct]; [window] is a pointer, [None] is [nil]. *)
Record t : Type :=
  { imguiIO : imgui.IO;
    window : option sdl.Window;
    shouldStop : bool;
    time : Z;
    buttonsDown : Z -> bool }.

Definition set_window (w : option sdl.Window) (p : t) : t :=
  {| imguiIO := imguiIO p; window := w; shouldStop := shouldStop p;
     time := time p; buttonsDown := buttonsDown p |}.
Definition set_shouldStop (b : bool) (p : t) : t :=
  {| imguiIO := imguiIO p; window := window p; shouldStop := b;
     time := time p; buttonsDown := buttonsDown p |}.
Definition set_time (n : Z) (p : t) : t :=
  {| imguiIO := imguiIO p; window := window p; shouldStop := shouldStop p;
     time := n; buttonsDown := buttonsDown p |}.
Definition set_buttonsDown (a : Z -> bool) (p : t) : t :=
  {| imguiIO := imguiIO p; window := window p; shouldStop := shouldStop p;
     time := time p; buttonsDown := a |}.

(** The handle a method call on [platform.window] passes to SDL;
      a nil pointer is the null handle. *)
Definition window_handle (p : t) : sdl.Window :=
  match window p with
  | Some w => w
  | None => 0
  end.

Definition Eff (A : Type) : Type := Effect.M sdl.Resources (Call sdl.Call) A.
Definition lib {A : Type} (m : sdl.Cmd A) : Eff A := Effect.lift Lib m.

(** [Dispose] cleans up the resources. *)
Definition Dispose (platform : t) : Eff t :=
  platform <- match window platform with
              | Some w => lib (sdl.Destroy w) ;;
                          Effect.ret (set_window None platform)
              | None => Effect.ret platform
              end ;;
  lib sdl.Quit ;;
  Effect.ret platform.

(** [ShouldStop] returns true if the window is to be closed. *)
Definition ShouldStop (platform : t) : bool := shouldStop platform.

Definition sdl2SetImguiModKey (mod_ : Z) : Eff unit :=
  io (imgui.AddKeyEvent imgui.KeyModCtrl (has_mod mod_ sdl.KMOD_CTRL)) ;;
  io (imgui.AddKeyEvent imgui.KeyModShift (has_mod mod_ sdl.KMOD_SHIFT)) ;;
  io (imgui.AddKeyEvent imgui.KeyModAlt (has_mod mod_ sdl.KMOD_ALT)) ;;
  io (imgui.AddKeyEvent imgui.KeyModSuper (has_mod mod_ sdl.KMOD_GUI)).

(** The [var delta float32] of the mouse-wheel case: it starts at 0,
    is incremented when the event's value is positive and
    decremented when it is negative. *)
Definition wheel_delta (v : Z) : float32 :=
  if v >? 0 then f32_incr f32_zero
  else if v <? 0 then f32_decr f32_zero
  else f32_zero.

Section WithConstants.
Variable pkg : PackageConstants.

Definition processEvent (platform : t) (event : sdl.Event) : Eff t :=
  match event with
  | sdl.QuitEvent =>
      Effect.ret (set_shouldStop true platform)
  | sdl.MouseWheelEvent X Y =>
      let deltaX := wheel_delta X in
      let deltaY := wheel_delta Y in
      io (imgui.AddMouseWheelDelta deltaX deltaY) ;;
      Effect.ret platform
  | sdl.MouseButtonDownEvent Button =>
      if Button =? sdl.BUTTON_LEFT then
        Effect.ret (set_buttonsDown
          (array_set (buttonsDown platform) (mouseButtonPrimary pkg) true) platform)
      else if Button =? sdl.BUTTON_RIGHT then
        Effect.ret (set_buttonsDown
          (array_set (buttonsDown platform) (mouseButtonSecondary pkg) true) platform)
      else if Button =? sdl.BUTTON_MIDDLE then
        Effect.ret (set_buttonsDown
          (array_set (buttonsDown platform) (mouseButtonTertiary pkg) true) platform)
      else Effect.ret platform
  | sdl.TextInputEvent Text =>
      io (imgui.AddInputCharacters Text) ;;
      Effect.ret platform
  | sdl.KeyDownEvent Sym Scancode Mod =>
      let k := sdl2KeyEventToImguiKey Sym Scancode in
      io (imgui.AddKeyEvent k true) ;;
      sdl2SetImguiModKey Mod ;;
      Effect.ret platform
  | sdl.KeyUpEvent Sym Scancode Mod =>
      let k := sdl2KeyEventToImguiKey Sym Scancode in
      io (imgui.AddKeyEvent k false) ;;
      sdl2SetImguiModKey Mod ;;
      Effect.ret platform
  | sdl.OtherEvent _ =>
      Effect.ret platform
  end.

(** [ProcessEvents]: poll and process until [PollEvent] returns
    nil.  The loop runs once per pending event; the recursion is
    on the queue as it is when the method is entered. *)
Fixpoint ProcessEvents_loop (queue : list sdl.Event) (platform : t) : Eff t :=
  event <- lib sdl.PollEvent ;;
  match queue, event with
  | _ :: rest, Some ev =>
      platform <- processEvent platform ev ;;
      ProcessEvents_loop rest platform
  | _, _ => Effect.ret platform
  end.

Definition ProcessEvents (platform : t) : Eff t :=
  fun r => ProcessEvents_loop (sdl.events r) platform r.

(** [DisplaySize] and [FramebufferSize]. *)
Definition DisplaySize (answers : sdl.Answers) (platform : t)
  : Eff (float32 * float32) :=
  wh <- lib (sdl.GetSize answers (window_handle platform)) ;;
  Effect.ret (f32_of_Z (fst wh), f32_of_Z (snd wh)).

Definition FramebufferSize (answers : sdl.Answers) (platform : t)
  : Eff (float32 * float32) :=
  wh <- lib (sdl.GLGetDrawableSize answers (window_handle platform)) ;;
  Effect.ret (f32_of_Z (fst wh), f32_of_Z (snd wh)).

(** One round of the button loop of [NewFrame]. *)
Definition NewFrame_button (state : Z) (platform : t) (ib : Z * Z) : Eff t :=
  let i := fst ib in
  let button := snd ib in
  io (imgui.SetMouseButtonDown i
        (buttonsDown platform i || negb (Z.land state (sdl.Button button) =? 0))) ;;
  Effect.ret (set_buttonsDown (array_set (buttonsDown platform) i false) platform).

Fixpoint NewFrame_buttons (state : Z) (l : list (Z * Z)) (platform : t) : Eff t :=
  match l with
  | [] => Effect.ret platform
  | ib :: rest =>
      platform <- NewFrame_button state platform ib ;;
      NewFrame_buttons state rest platform
  end.

(** [NewFrame] forwards the current state to imgui. *)
Definition NewFrame (answers : sdl.Answers) (platform : t) : Eff t :=
  displaySize <- DisplaySize answers platform ;;
  io (imgui.SetDisplaySize
        {| imgui.v2X := fst displaySize; imgui.v2Y := snd displaySize |}) ;;
  frequency <- lib (sdl.GetPerformanceFrequency answers) ;;
  currentTime <- lib (sdl.GetPerformanceCounter answers) ;;
  (if time platform >? 0 then
     io (imgui.SetDeltaTime
           (f32_div (f32_of_Z ((currentTime - time platform) mod 2 ^ 64))
                    (f32_of_Z frequency)))
   else
     io (imgui.SetDeltaTime (f32_div (f32_of_Z 1) (f32_of_Z 60)))) ;;
  let platform := set_time currentTime platform in
  xys <- lib (sdl.GetMouseState answers) ;;
  io (imgui.SetMousePosition
        {| imgui.v2X := f32_of_Z (fst (fst xys));
           imgui.v2Y := f32_of_Z (snd (fst xys)) |}) ;;
  NewFrame_buttons (snd xys)
    [(0, sdl.BUTTON_LEFT); (1, sdl.BUTTON_RIGHT); (2, sdl.BUTTON_MIDDLE)]
    platform.

(** [PostRender] performs a buffer swap. *)
Definition PostRender (platform : t) : Eff unit :=
  lib (sdl.GLSwap (window_handle platform)).

Definition ClipboardText (answers : sdl.Answers) (platform : t)
  : Eff (string * option error) :=
  lib (sdl.GetClipboardText answers).

Definition SetClipboardText (platform : t) (text : string) : Eff unit :=
  lib (sdl.SetClipboardText text).

(** [NewSDL] attempts to initialize an SDL context.  The result is
    Go's pair of a pointer and an error; [None] is [nil]. *)
Definition NewSDL (answers : sdl.Answers) (io_ : imgui.IO) (clientAPI : SDLClientAPI)
  : Eff (option t * option error) :=
  runtime_LockOSThread ;;
  err <- lib (sdl.Init answers sdl.INIT_VIDEO) ;;
  match err with
  | Some err =>
      Effect.ret (None, Some (Errorf "failed to initialize SDL2: %w" err))
  | None =>
  created <- lib (sdl.CreateWindow answers
                    ("ImGui-Go SDL2+" ++ clientAPI ++ " example")%string
                    sdl.WINDOWPOS_CENTERED sdl.WINDOWPOS_CENTERED
                    (windowWidth pkg) (windowHeight pkg) sdl.WINDOW_OPENGL) ;;
  match created with
  | inr err =>
      lib sdl.Quit ;;
      Effect.ret (None, Some (Errorf "failed to create window: %w" err))
  | inl window_ =>
  let platform :=
    {| imguiIO := io_; window := Some window_; shouldStop := false;
       time := 0; buttonsDown := fun _ => false |} in
  supported <-
    (if (clientAPI =? SDLClientAPIOpenGL2)%string then
       lib (sdl.GLSetAttribute sdl.GL_CONTEXT_MAJOR_VERSION 2) ;;
       lib (sdl.GLSetAttribute sdl.GL_CONTEXT_MINOR_VERSION 1) ;;
       Effect.ret true
     else if (clientAPI =? SDLClientAPIOpenGL3)%string then
       lib (sdl.GLSetAttribute sdl.GL_CONTEXT_MAJOR_VERSION 3) ;;
       lib (sdl.GLSetAttribute sdl.GL_CONTEXT_MINOR_VERSION 2) ;;
       lib (sdl.GLSetAttribute sdl.GL_CONTEXT_FLAGS
              sdl.GL_CONTEXT_FORWARD_COMPATIBLE_FLAG) ;;
       lib (sdl.GLSetAttribute sdl.GL_CONTEXT_PROFILE_MASK
              sdl.GL_CONTEXT_PROFILE_CORE) ;;
       Effect.ret true
     else Effect.ret false) ;;
  if negb supported then
    Dispose platform ;;
    Effect.ret (None, Some ErrUnsupportedClientAPI)
  else
  lib (sdl.GLSetAttribute sdl.GL_DOUBLEBUFFER 1) ;;
  lib (sdl.GLSetAttribute sdl.GL_DEPTH_SIZE 24) ;;
  lib (sdl.GLSetAttribute sdl.GL_STENCIL_SIZE 8) ;;
  glContext <- lib (sdl.GLCreateContext answers window_) ;;
  match glContext with
  | inr err =>
      Dispose platform ;;
      Effect.ret (None, Some (Errorf "failed to create OpenGL context: %w" err))
  | inl glContext =>
  err <- lib (sdl.GLMakeCurrent answers window_ glContext) ;;
  match err with
  | Some err =>
      Dispose platform ;;
      Effect.ret (None, Some (Errorf "failed to set current OpenGL context: %w" err))
  | None =>
  lib (sdl.GLSetSwapInterval 1) ;;
  Effect.ret (Some platform, None)
  end end end end.

(** The methods of [*SDL], for sequences of calls on one platform. *)
Inductive Method : Type :=
| CallDispose
| CallShouldStop
| CallProcessEvents
| CallDisplaySize
| CallFramebufferSize
| CallNewFrame
| CallPostRender
| CallClipboardText
| CallSetClipboardText (text : string).

Definition invoke (answers : sdl.Answers) (m : Method) (platform : t) : Eff t :=
  match m with
  | CallDispose => Dispose platform
  | CallShouldStop => Effect.ret platform
  | CallProcessEvents => ProcessEvents platform
  | CallDisplaySize => DisplaySize answers platform ;; Effect.ret platform
  | CallFramebufferSize => FramebufferSize answers platform ;; Effect.ret platform
  | CallNewFrame => NewFrame answers platform
  | CallPostRender => PostRender platform ;; Effect.ret platform
  | CallClipboardText => ClipboardText answers platform ;; Effect.ret platform
  | CallSetClipboardText text => SetClipboardText platform text ;; Effect.ret platform
  end.

(** A step of the program using the platform: the environment
    delivers events and fixes what SDL will answer, then the
    program calls a method. *)
Record Step : Type :=
  { arrived : list sdl.Event;
    answers_of : sdl.Answers;
    method : Method }.

Fixpoint run (steps : list Step) (platform : t) (r : sdl.Resources)
  : t * sdl.Resources :=
  match steps with
  | [] => (platform, r)
  | st :: rest =>
      let r1 := sdl.set_events (sdl.events r ++ arrived st) r in
      let m := invoke (answers_of st) (method st) platform in
      run rest (Effect.value m r1) (Effect.final m r1)
  end.

End WithConstants.

End SDL.

(** ** type GLFW *)

Module GLFW.

Definition GLFWClientAPI : Type := string.
Definition GLFWClientAPIOpenGL2 : GLFWClientAPI := "OpenGL2".
Definition GLFWClientAPIOpenGL3 : GLFWClientAPI := "OpenGL3".

(** [type GLFW struct]. *)
Record t : Type :=
  { imguiIO : imgui.IO;
    window : option glfw.Window;
    time : float64;
    mouseJustPressed : Z -> bool }.

Definition set_mouseJustPressed (a : Z -> bool) (p : t) : t :=
  {| imguiIO := imguiIO p; window := window p; time := time p;
     mouseJustPressed := a |}.

Definition window_handle (p : t) : glfw.Window :=
  match window p with
  | Some w => w
  | None => 0
  end.

Definition Eff (A : Type) : Type := Effect.M glfw.Resources (Call glfw.Call) A.
Definition lib {A : Type} (m : glfw.Cmd A) : Eff A := Effect.lift Lib m.

(** [Dispose] cleans up the resources. *)
Definition Dispose (platform : t) : Eff unit :=
  lib (glfw.Destroy (window_handle platform)) ;;
  lib glfw.Terminate.

Definition installCallbacks (platform : t) : Eff unit :=
  lib (glfw.SetMouseButtonCallback (window_handle platform)) ;;
  lib (glfw.SetScrollCallback (window_handle platform)) ;;
  lib (glfw.SetKeyCallback (window_handle platform)) ;;
  lib (glfw.SetCharCallback (window_handle platform)).

(** [mouseScrollChange]: the scroll callback. *)
Definition mouseScrollChange (platform : t) (x y : float64) : Eff unit :=
  io (imgui.AddMouseWheelDelta (f32_of_f64 x) (f32_of_f64 y)).

Definition glfwSetImguiModKey (mod_ : Z) : Eff unit :=
  io (imgui.AddKeyEvent imgui.KeyModCtrl (has_mod mod_ glfw.ModControl)) ;;
  io (imgui.AddKeyEvent imgui.KeyModShift (has_mod mod_ glfw.ModShift)) ;;
  io (imgui.AddKeyEvent imgui.KeyModAlt (has_mod mod_ glfw.ModAlt)) ;;
  io (imgui.AddKeyEvent imgui.KeyModSuper (has_mod mod_ glfw.ModSuper)).

(** [keyChange]: the key callback. *)
Definition keyChange (platform : t) (key scancode action mods : Z) : Eff unit :=
  let k := glfwKeyEventToImguiKey key scancode in
  Effect.when (action =? glfw.Press) (io (imgui.AddKeyEvent k true)) ;;
  Effect.when (action =? glfw.Release) (io (imgui.AddKeyEvent k false)) ;;
  glfwSetImguiModKey mods.

Section WithConstants.
Variable pkg : PackageConstants.

(** The map [glfwButtonIndexByID]; [None] is an absent key. *)
Definition glfwButtonIndexByID (rawButton : Z) : option Z :=
  switch rawButton
    [ (glfw.MouseButton1, mouseButtonPrimary pkg);
      (glfw.MouseButton2, mouseButtonSecondary pkg);
      (glfw.MouseButton3, mouseButtonTertiary pkg) ].

(** [mouseButtonChange]: the mouse-button callback. *)
Definition mouseButtonChange (platform : t) (rawButton action mods : Z) : t :=
  match glfwButtonIndexByID rawButton with
  | Some buttonIndex =>
      if action =? glfw.Press then
        set_mouseJustPressed
          (array_set (mouseJustPressed platform) buttonIndex true) platform
      else platform
  | None => platform
  end.

(** [NewGLFW] attempts to initialize a GLFW context. *)
Definition NewGLFW (answers : glfw.Answers) (io_ : imgui.IO) (clientAPI : GLFWClientAPI)
  : Eff (option t * option error) :=
  runtime_LockOSThread ;;
  err <- lib (glfw.Init answers) ;;
  match err with
  | Some err =>
      Effect.ret (None, Some (Errorf "failed to initialize glfw: %w" err))
  | None =>
  supported <-
    (if (clientAPI =? GLFWClientAPIOpenGL2)%string then
       lib (glfw.WindowHint glfw.ContextVersionMajor 2) ;;
       lib (glfw.WindowHint glfw.ContextVersionMinor 1) ;;
       Effect.ret true
     else if (clientAPI =? GLFWClientAPIOpenGL3)%string then
       lib (glfw.WindowHint glfw.ContextVersionMajor 3) ;;
       lib (glfw.WindowHint glfw.ContextVersionMinor 2) ;;
       lib (glfw.WindowHint glfw.OpenGLProfile glfw.OpenGLCoreProfile) ;;
       lib (glfw.WindowHint glfw.OpenGLForwardCompatible 1) ;;
       Effect.ret true
     else Effect.ret false) ;;
  if negb supported then
    lib glfw.Terminate ;;
    Effect.ret (None, Some ErrUnsupportedClientAPI)
  else
  created <- lib (glfw.CreateWindow answers (windowWidth pkg) (windowHeight pkg)
                    ("ImGui-Go GLFW+" ++ clientAPI ++ " example")%string) ;;
  match created with
  | inr err =>
      lib glfw.Terminate ;;
      Effect.ret (None, Some (Errorf "failed to create window: %w" err))
  | inl window_ =>
  lib (glfw.MakeContextCurrent window_) ;;
  lib (glfw.SwapInterval 1) ;;
  let platform :=
    {| imguiIO := io_; window := Some window_;
       time := S754_zero false; mouseJustPressed := fun _ => false |} in
  installCallbacks platform ;;
  Effect.ret (Some platform, None)
  end end.

End WithConstants.

End GLFW.

(** The four library calls of [NewSDL] that can fail. *)
Definition sdl_errors (answers : sdl.Answers) : list (option error) :=
  [ sdl.Init_error answers;
    err_of (sdl.CreateWindow_result answers);
    err_of (sdl.GLCreateContext_result answers);
    sdl.GLMakeCurrent_error answers ].

(** The two library calls of [NewGLFW] that can fail. *)
Definition glfw_errors (answers : glfw.Answers) : list (option error) :=
  [ glfw.Init_error answers;
    err_of (glfw.CreateWindow_result answers) ].

(** The calls that release what a failed [NewSDL] acquired after
    [sdl.Init]: the window is destroyed, when one was created, and
    SDL is shut down. *)
Definition sdl_cleanup (answers : sdl.Answers) : list (Call sdl.Call) :=
  match sdl.CreateWindow_result answers with
  | inl w => [Lib (sdl.CallDestroy w); Lib sdl.CallQuit]
  | inr _ => [Lib sdl.CallQuit]
  end.

Definition is_GLDeleteContext (c : Call sdl.Call) : bool :=
  match c with
  | Lib (sdl.CallGLDeleteContext _) => true
  | _ => false
  end.

End platforms.

(* ================================================================== *)
(** * renderers: [internal/renderers/OpenGL3.go] *)
(* ================================================================== *)

Module renderers.

Import Go.
Local Open Scope string_scope.
Local Open Scope list_scope.
Local Open Scope Z_scope.
Local Open Scope effect_scope.

(** The calls of the renderer: on OpenGL, on imgui, and the user
    callbacks of draw commands. *)
Inductive Call : Type :=
| Gl (c : gl.Call)
| Imgui (c : imgui.RendererCall)
| UserCallback (cmd : imgui.DrawCommand) (list : imgui.DrawList).

Module OpenGL3.

(** [type OpenGL3 struct]. *)
Record t : Type :=
  { imguiIO : imgui.IO;
    glslVersion : string;
    fontTexture : Z;
    shaderHandle : Z;
    vertHandle : Z;
    fragHandle : Z;
    attribLocationTex : Z;
    attribLocationProjMtx : Z;
    attribLocationPosition : Z;
    attribLocationUV : Z;
    attribLocationColor : Z;
    vboHandle : Z;
    elementsHandle : Z }.

(** The six handles, for assignments to one of them. *)
Definition with_handles (r : t) (font shader vert frag vbo elements : Z) : t :=
  {| imguiIO := imguiIO r; glslVersion := glslVersion r;
     fontTexture := font; shaderHandle := shader;
     vertHandle := vert; fragHandle := frag;
     attribLocationTex := attribLocationTex r;
     attribLocationProjMtx := attribLocationProjMtx r;
     attribLocationPosition := attribLocationPosition r;
     attribLocationUV := attribLocationUV r;
     attribLocationColor := attribLocationColor r;
     vboHandle := vbo; elementsHandle := elements |}.

Definition set_fontTexture (x : Z) (r : t) : t :=
  with_handles r x (shaderHandle r) (vertHandle r) (fragHandle r)
    (vboHandle r) (elementsHandle r).
Definition set_shaderHandle (x : Z) (r : t) : t :=
  with_handles r (fontTexture r) x (vertHandle r) (fragHandle r)
    (vboHandle r) (elementsHandle r).
Definition set_vertHandle (x : Z) (r : t) : t :=
  with_handles r (fontTexture r) (shaderHandle r) x (fragHandle r)
    (vboHandle r) (elementsHandle r).
Definition set_fragHandle (x : Z) (r : t) : t :=
  with_handles r (fontTexture r) (shaderHandle r) (vertHandle r) x
    (vboHandle r) (elementsHandle r).
Definition set_vboHandle (x : Z) (r : t) : t :=
  with_handles r (fontTexture r) (shaderHandle r) (vertHandle r) (fragHandle r)
    x (elementsHandle r).
Definition set_elementsHandle (x : Z) (r : t) : t :=
  with_handles r (fontTexture r) (shaderHandle r) (vertHandle r) (fragHandle r)
    (vboHandle r) x.

Definition set_locations (tex proj pos uv col : Z) (r : t) : t :=
  {| imguiIO := imguiIO r; glslVersion := glslVersion r;
     fontTexture := fontTexture r; shaderHandle := shaderHandle r;
     vertHandle := vertHandle r; fragHandle := fragHandle r;
     attribLocationTex := tex;
     attribLocationProjMtx := proj;
     attribLocationPosition := pos;
     attribLocationUV := uv;
     attribLocationColor := col;
     vboHandle := vboHandle r; elementsHandle := elementsHandle r |}.

Definition Eff (A : Type) : Type := Effect.M gl.State Call A.
Definition gl_ {A : Type} (m : gl.Cmd A) : Eff A := Effect.lift Gl m.
Definition im (c : imgui.RendererCall) : Eff unit :=
  Effect.call (Imgui c) (fun s => s) (fun _ => tt).

(** [cmd.CallUserCallback(list)] runs the command's callback. *)
Definition CallUserCallback (cmd : imgui.DrawCommand) (list : imgui.DrawList)
  : Eff unit :=
  Effect.call (UserCallback cmd list)
    (fun s => match imgui.UserCallback cmd with
              | Some callback => callback s
              | None => s
              end)
    (fun _ => tt).

(** [uintptr(x)] on a 64-bit platform. *)
Definition uintptr (x : Z) : Z := x mod 2 ^ 64.

(** [invalidateDeviceObjects]. *)
Definition invalidateDeviceObjects (renderer : t) : Eff t :=
  Effect.when (negb (vboHandle renderer =? 0))
    (gl_ (gl.DeleteBuffers 1 (vboHandle renderer))) ;;
  let renderer := set_vboHandle 0 renderer in
  Effect.when (negb (elementsHandle renderer =? 0))
    (gl_ (gl.DeleteBuffers 1 (elementsHandle renderer))) ;;
  let renderer := set_elementsHandle 0 renderer in

  Effect.when (negb (shaderHandle renderer =? 0) && negb (vertHandle renderer =? 0))
    (gl_ (gl.DetachShader (shaderHandle renderer) (vertHandle renderer))) ;;
  Effect.when (negb (vertHandle renderer =? 0))
    (gl_ (gl.DeleteShader (vertHandle renderer))) ;;
  let renderer := set_vertHandle 0 renderer in

  Effect.when (negb (shaderHandle renderer =? 0) && negb (fragHandle renderer =? 0))
    (gl_ (gl.DetachShader (shaderHandle renderer) (fragHandle renderer))) ;;
  Effect.when (negb (fragHandle renderer =? 0))
    (gl_ (gl.DeleteShader (fragHandle renderer))) ;;
  let renderer := set_fragHandle 0 renderer in

  Effect.when (negb (shaderHandle renderer =? 0))
    (gl_ (gl.DeleteProgram (shaderHandle renderer))) ;;
  let renderer := set_shaderHandle 0 renderer in

  if negb (fontTexture renderer =? 0) then
    gl_ (gl.DeleteTextures 1 (fontTexture renderer)) ;;
    im imgui.CallCurrentIO ;;
    im (imgui.CallSetTextureID 0) ;;
    Effect.ret (set_fontTexture 0 renderer)
  else Effect.ret renderer.

(** [Dispose] cleans up the resources. *)
Definition Dispose (renderer : t) : Eff t :=
  invalidateDeviceObjects renderer.

(** [PreRender] clears the framebuffer. *)
Definition PreRender (renderer : t) (clearColor : float32 * float32 * float32)
  : Eff unit :=
  gl_ (gl.ClearColor (fst (fst clearColor)) (snd (fst clearColor)) (snd clearColor)
         (f32_of_Z 1)) ;;
  gl_ (gl.Clear gl.COLOR_BUFFER_BIT).

Section WithLibraries.
Variable driver : gl.Answers.
Variable imgui_ : imgui.Answers.
(** The embedded shader sources ([gl-shader/main.vert] and
    [gl-shader/main.frag]) are outside the listed sources. *)
Variables unversionedVertexShader unversionedFragmentShader : string.

Definition createFontsTexture (renderer : t) : Eff t :=
  im imgui.CallCurrentIO ;;
  im imgui.CallTextureDataAlpha8 ;;
  let image := imgui.TextureDataAlpha8 imgui_ in
  lastTexture <- gl_ (gl.GetInteger gl.TEXTURE_BINDING_2D) ;;
  fontTexture_ <- gl_ (gl.GenTextures 1) ;;
  let renderer := set_fontTexture fontTexture_ renderer in
  gl_ (gl.BindTexture gl.TEXTURE_2D (fontTexture renderer)) ;;
  gl_ (gl.TexParameteri gl.TEXTURE_2D gl.TEXTURE_MIN_FILTER gl.LINEAR) ;;
  gl_ (gl.TexParameteri gl.TEXTURE_2D gl.TEXTURE_MAG_FILTER gl.LINEAR) ;;
  gl_ (gl.PixelStorei gl.UNPACK_ROW_LENGTH 0) ;;
  gl_ (gl.TexImage2D gl.TEXTURE_2D 0 gl.RED
         (int32 (fst (fst image))) (int32 (snd (fst image)))
         0 gl.RED gl.UNSIGNED_BYTE (snd image)) ;;
  im (imgui.CallSetTextureID (fontTexture renderer)) ;;
  gl_ (gl.BindTexture gl.TEXTURE_2D (uint32 lastTexture)) ;;
  Effect.ret renderer.

Definition createDeviceObjects (renderer : t) : Eff t :=
  lastTexture <- gl_ (gl.GetInteger gl.TEXTURE_BINDING_2D) ;;
  lastArrayBuffer <- gl_ (gl.GetInteger gl.ARRAY_BUFFER_BINDING) ;;
  lastVertexArray <- gl_ (gl.GetInteger gl.VERTEX_ARRAY_BINDING) ;;

  let vertexShader :=
    (glslVersion renderer ++ newline ++ unversionedVertexShader)%string in
  let fragmentShader :=
    (glslVersion renderer ++ newline ++ unversionedFragmentShader)%string in

  shader <- gl_ gl.CreateProgram ;;
  let renderer := set_shaderHandle shader renderer in
  vert <- gl_ (gl.CreateShader gl.VERTEX_SHADER) ;;
  let renderer := set_vertHandle vert renderer in
  frag <- gl_ (gl.CreateShader gl.FRAGMENT_SHADER) ;;
  let renderer := set_fragHandle frag renderer in

  gl_ (gl.ShaderSource (vertHandle renderer) vertexShader) ;;
  gl_ (gl.ShaderSource (fragHandle renderer) fragmentShader) ;;
  gl_ (gl.CompileShader (vertHandle renderer)) ;;
  gl_ (gl.CompileShader (fragHandle renderer)) ;;
  gl_ (gl.AttachShader (shaderHandle renderer) (vertHandle renderer)) ;;
  gl_ (gl.AttachShader (shaderHandle renderer) (fragHandle renderer)) ;;
  gl_ (gl.LinkProgram (shaderHandle renderer)) ;;

  tex <- gl_ (gl.GetUniformLocation driver (shaderHandle renderer) "Texture") ;;
  proj <- gl_ (gl.GetUniformLocation driver (shaderHandle renderer) "ProjMtx") ;;
  pos <- gl_ (gl.GetAttribLocation driver (shaderHandle renderer) "Position") ;;
  uv <- gl_ (gl.GetAttribLocation driver (shaderHandle renderer) "UV") ;;
  col <- gl_ (gl.GetAttribLocation driver (shaderHandle renderer) "Color") ;;
  let renderer := set_locations tex proj pos uv col renderer in

  vbo <- gl_ (gl.GenBuffers 1) ;;
  let renderer := set_vboHandle vbo renderer in
  elements <- gl_ (gl.GenBuffers 1) ;;
  let renderer := set_elementsHandle elements renderer in

  renderer <- createFontsTexture renderer ;;

  gl_ (gl.BindTexture gl.TEXTURE_2D (uint32 lastTexture)) ;;
  gl_ (gl.BindBuffer gl.ARRAY_BUFFER (uint32 lastArrayBuffer)) ;;
  gl_ (gl.BindVertexArray (uint32 lastVertexArray)) ;;
  Effect.ret renderer.

(** [NewOpenGL3] attempts to initialize a renderer. *)
Definition NewOpenGL3 (io_ : imgui.IO) : Eff (option t * option error) :=
  err <- gl_ (gl.Init driver) ;;
  match err with
  | Some err =>
      Effect.ret (None, Some (Errorf "failed to initialize OpenGL: %w" err))
  | None =>
  let renderer :=
    {| imguiIO := io_; glslVersion := "#version 150";
       fontTexture := 0; shaderHandle := 0; vertHandle := 0; fragHandle := 0;
       attribLocationTex := 0; attribLocationProjMtx := 0;
       attribLocationPosition := 0; attribLocationUV := 0;
       attribLocationColor := 0; vboHandle := 0; elementsHandle := 0 |} in
  renderer <- createDeviceObjects renderer ;;
  im imgui.CallGetBackendFlags ;;
  im (imgui.CallSetBackendFlags
        (Z.lor (imgui.BackendFlags imgui_) imgui.BackendFlagsRendererHasVtxOffset)) ;;
  Effect.ret (Some renderer, None)
  end.

(** The body of the inner loop of [Render]: one draw command. *)
Definition Render_command (fbHeight : float32) (drawType indexSize : Z)
    (list : imgui.DrawList) (cmd : imgui.DrawCommand) : Eff unit :=
  if imgui.HasUserCallback cmd then
    CallUserCallback cmd list
  else
    gl_ (gl.BindTexture gl.TEXTURE_2D (uint32 (imgui.TextureID cmd))) ;;
    let clipRect := imgui.ClipRect cmd in
    gl_ (gl.Scissor
           (int32_of_f32 (imgui.vX clipRect))
           (int32 (int32_of_f32 fbHeight - int32_of_f32 (imgui.vW clipRect)))
           (int32_of_f32 (f32_sub (imgui.vZ clipRect) (imgui.vX clipRect)))
           (int32_of_f32 (f32_sub (imgui.vW clipRect) (imgui.vY clipRect)))) ;;
    gl_ (gl.DrawElementsBaseVertexWithOffset gl.TRIANGLES
           (int32 (imgui.ElementCount cmd)) (uint32 drawType)
           (uintptr (imgui.IndexOffset cmd * indexSize))
           (int32 (imgui.VertexOffset cmd))).

(** The body of the outer loop of [Render]: one command list. *)
Definition Render_list (renderer : t) (fbHeight : float32) (drawType indexSize : Z)
    (list : imgui.DrawList) : Eff unit :=
  let vertexBuffer := fst (imgui.VertexBuffer list) in
  let vertexBufferSize := snd (imgui.VertexBuffer list) in
  gl_ (gl.BindBuffer gl.ARRAY_BUFFER (vboHandle renderer)) ;;
  gl_ (gl.BufferData gl.ARRAY_BUFFER vertexBufferSize vertexBuffer gl.STREAM_DRAW) ;;

  let indexBuffer := fst (imgui.IndexBuffer list) in
  let indexBufferSize := snd (imgui.IndexBuffer list) in
  gl_ (gl.BindBuffer gl.ELEMENT_ARRAY_BUFFER (elementsHandle renderer)) ;;
  gl_ (gl.BufferData gl.ELEMENT_ARRAY_BUFFER indexBufferSize indexBuffer
         gl.STREAM_DRAW) ;;

  Effect.for_range (imgui.Commands list)
    (Render_command fbHeight drawType indexSize list).

(** [Render] translates the ImGui draw data to OpenGL3 commands. *)
Definition Render (renderer : t) (displaySize framebufferSize : float32 * float32)
    (drawData : imgui.DrawData) : Eff unit :=
  let displayWidth := fst displaySize in
  let displayHeight := snd displaySize in
  let fbWidth := fst framebufferSize in
  let fbHeight := snd framebufferSize in
  if f32_leb fbWidth f32_zero || f32_leb fbHeight f32_zero then Effect.ret tt else
  let scale := {| imgui.v2X := f32_div fbWidth displayWidth;
                  imgui.v2Y := f32_div fbHeight displayHeight |} in
  im (imgui.CallScaleClipRects scale) ;;
  let drawData := imgui.ScaleClipRects scale drawData in

  (* Backup GL state *)
  lastActiveTexture <- gl_ (gl.GetInteger gl.ACTIVE_TEXTURE) ;;
  gl_ (gl.ActiveTexture_ gl.TEXTURE0) ;;
  lastProgram <- gl_ (gl.GetInteger gl.CURRENT_PROGRAM) ;;
  lastTexture <- gl_ (gl.GetInteger gl.TEXTURE_BINDING_2D) ;;
  lastSampler <- gl_ (gl.GetInteger gl.SAMPLER_BINDING) ;;
  lastArrayBuffer <- gl_ (gl.GetInteger gl.ARRAY_BUFFER_BINDING) ;;
  lastElementArrayBuffer <- gl_ (gl.GetInteger gl.ELEMENT_ARRAY_BUFFER_BINDING) ;;
  lastVertexArray <- gl_ (gl.GetInteger gl.VERTEX_ARRAY_BINDING) ;;
  lastPolygonMode <- gl_ (gl.GetIntegerv gl.POLYGON_MODE) ;;
  lastViewport <- gl_ (gl.GetIntegerv gl.VIEWPORT) ;;
  lastScissorBox <- gl_ (gl.GetIntegerv gl.SCISSOR_BOX) ;;
  lastBlendSrcRgb <- gl_ (gl.GetInteger gl.BLEND_SRC_RGB) ;;
  lastBlendDstRgb <- gl_ (gl.GetInteger gl.BLEND_DST_RGB) ;;
  lastBlendSrcAlpha <- gl_ (gl.GetInteger gl.BLEND_SRC_ALPHA) ;;
  lastBlendDstAlpha <- gl_ (gl.GetInteger gl.BLEND_DST_ALPHA) ;;
  lastBlendEquationRgb <- gl_ (gl.GetInteger gl.BLEND_EQUATION_RGB) ;;
  lastBlendEquationAlpha <- gl_ (gl.GetInteger gl.BLEND_EQUATION_ALPHA) ;;
  lastEnableBlend <- gl_ (gl.IsEnabled gl.BLEND) ;;
  lastEnableCullFace <- gl_ (gl.IsEnabled gl.CULL_FACE) ;;
  lastEnableDepthTest <- gl_ (gl.IsEnabled gl.DEPTH_TEST) ;;
  lastEnableScissorTest <- gl_ (gl.IsEnabled gl.SCISSOR_TEST) ;;

  (* Setup render state *)
  gl_ (gl.Enable gl.BLEND) ;;
  gl_ (gl.BlendEquation gl.FUNC_ADD) ;;
  gl_ (gl.BlendFunc gl.SRC_ALPHA gl.ONE_MINUS_SRC_ALPHA) ;;
  gl_ (gl.Disable gl.CULL_FACE) ;;
  gl_ (gl.Disable gl.DEPTH_TEST) ;;
  gl_ (gl.Enable gl.SCISSOR_TEST) ;;
  gl_ (gl.PolygonMode_ gl.FRONT_AND_BACK gl.FILL) ;;

  (* Setup viewport, orthographic projection matrix *)
  gl_ (gl.Viewport 0 0 (int32_of_f32 fbWidth) (int32_of_f32 fbHeight)) ;;
  let orthoProjection :=
    [ f32_div (f32_of_Z 2) displayWidth; f32_zero; f32_zero; f32_zero;
      f32_zero; f32_div (f32_of_Z 2) (f32_neg displayHeight); f32_zero; f32_zero;
      f32_zero; f32_zero; f32_of_Z (-1); f32_zero;
      f32_of_Z (-1); f32_of_Z 1; f32_zero; f32_of_Z 1 ] in
  gl_ (gl.UseProgram (shaderHandle renderer)) ;;
  gl_ (gl.Uniform1i (attribLocationTex renderer) 0) ;;
  gl_ (gl.UniformMatrix4fv (attribLocationProjMtx renderer) 1 false orthoProjection) ;;
  gl_ (gl.BindSampler 0 0) ;;

  (* Recreate the VAO every time *)
  vaoHandle <- gl_ (gl.GenVertexArrays 1) ;;
  gl_ (gl.BindVertexArray vaoHandle) ;;
  gl_ (gl.BindBuffer gl.ARRAY_BUFFER (vboHandle renderer)) ;;
  gl_ (gl.EnableVertexAttribArray (uint32 (attribLocationPosition renderer))) ;;
  gl_ (gl.EnableVertexAttribArray (uint32 (attribLocationUV renderer))) ;;
  gl_ (gl.EnableVertexAttribArray (uint32 (attribLocationColor renderer))) ;;
  let '(vertexSize, vertexOffsetPos, vertexOffsetUv, vertexOffsetCol) :=
    imgui.VertexBufferLayout imgui_ in
  gl_ (gl.VertexAttribPointerWithOffset (uint32 (attribLocationPosition renderer))
         2 gl.FLOAT false (int32 vertexSize) (uintptr vertexOffsetPos)) ;;
  gl_ (gl.VertexAttribPointerWithOffset (uint32 (attribLocationUV renderer))
         2 gl.FLOAT false (int32 vertexSize) (uintptr vertexOffsetUv)) ;;
  gl_ (gl.VertexAttribPointerWithOffset (uint32 (attribLocationColor renderer))
         4 gl.UNSIGNED_BYTE true (int32 vertexSize) (uintptr vertexOffsetCol)) ;;
  let indexSize := imgui.IndexBufferLayout imgui_ in
  let drawType := if indexSize =? 4 then gl.UNSIGNED_INT else gl.UNSIGNED_SHORT in

  (* Draw *)
  Effect.for_range (imgui.CommandLists drawData)
    (Render_list renderer fbHeight drawType indexSize) ;;
  gl_ (gl.DeleteVertexArrays 1 vaoHandle) ;;

  (* Restore modified GL state *)
  gl_ (gl.UseProgram (uint32 lastProgram)) ;;
  gl_ (gl.BindTexture gl.TEXTURE_2D (uint32 lastTexture)) ;;
  gl_ (gl.BindSampler 0 (uint32 lastSampler)) ;;
  gl_ (gl.ActiveTexture_ (uint32 lastActiveTexture)) ;;
  gl_ (gl.BindVertexArray (uint32 lastVertexArray)) ;;
  gl_ (gl.BindBuffer gl.ARRAY_BUFFER (uint32 lastArrayBuffer)) ;;
  gl_ (gl.BindBuffer gl.ELEMENT_ARRAY_BUFFER (uint32 lastElementArrayBuffer)) ;;
  gl_ (gl.BlendEquationSeparate (uint32 lastBlendEquationRgb)
         (uint32 lastBlendEquationAlpha)) ;;
  gl_ (gl.BlendFuncSeparate (uint32 lastBlendSrcRgb) (uint32 lastBlendDstRgb)
         (uint32 lastBlendSrcAlpha) (uint32 lastBlendDstAlpha)) ;;
  (if lastEnableBlend then gl_ (gl.Enable gl.BLEND)
   else gl_ (gl.Disable gl.BLEND)) ;;
  (if lastEnableCullFace then gl_ (gl.Enable gl.CULL_FACE)
   else gl_ (gl.Disable gl.CULL_FACE)) ;;
  (if lastEnableDepthTest then gl_ (gl.Enable gl.DEPTH_TEST)
   else gl_ (gl.Disable gl.DEPTH_TEST)) ;;
  (if lastEnableScissorTest then gl_ (gl.Enable gl.SCISSOR_TEST)
   else gl_ (gl.Disable gl.SCISSOR_TEST)) ;;
  gl_ (gl.PolygonMode_ gl.FRONT_AND_BACK (uint32 (nth 0 lastPolygonMode 0))) ;;
  gl_ (gl.Viewport (nth 0 lastViewport 0) (nth 1 lastViewport 0)
         (nth 2 lastViewport 0) (nth 3 lastViewport 0)) ;;
  gl_ (gl.Scissor (nth 0 lastScissorBox 0) (nth 1 lastScissorBox 0)
         (nth 2 lastScissorBox 0) (nth 3 lastScissorBox 0)).

End WithLibraries.

End OpenGL3.

(** ** What the draw loop is expected to issue

    The calls for one draw command, in the words of the
    specification: a command with a user callback invokes the
    callback; any other command binds its texture, sets its scissor
    rectangle and issues one draw call with its element count, its
    index offset times the index size, and its vertex offset. *)
Definition expected_command_calls (fbHeight : float32) (drawType indexSize : Z)
    (list_ : imgui.DrawList) (cmd : imgui.DrawCommand) : list Call :=
  if imgui.HasUserCallback cmd then
    [ UserCallback cmd list_ ]
  else
    [ Gl (gl.CallBindTexture gl.TEXTURE_2D (imgui.TextureID cmd));
      Gl (gl.CallScissor
            (int32_of_f32 (imgui.vX (imgui.ClipRect cmd)))
            (int32 (int32_of_f32 fbHeight - int32_of_f32 (imgui.vW (imgui.ClipRect cmd))))
            (int32_of_f32 (f32_sub (imgui.vZ (imgui.ClipRect cmd))
                                   (imgui.vX (imgui.ClipRect cmd))))
            (int32_of_f32 (f32_sub (imgui.vW (imgui.ClipRect cmd))
                                   (imgui.vY (imgui.ClipRect cmd)))));
      Gl (gl.CallDrawElementsBaseVertexWithOffset gl.TRIANGLES
            (imgui.ElementCount cmd) drawType
            (imgui.IndexOffset cmd * indexSize) (imgui.VertexOffset cmd)) ].

(** The calls for one command list: its vertex and index buffers are
    uploaded, then its commands are translated in order. *)
Definition expected_list_calls (renderer : OpenGL3.t) (fbHeight : float32)
    (drawType indexSize : Z) (list_ : imgui.DrawList) : list Call :=
  [ Gl (gl.CallBindBuffer gl.ARRAY_BUFFER (OpenGL3.vboHandle renderer));
    Gl (gl.CallBufferData gl.ARRAY_BUFFER (snd (imgui.VertexBuffer list_))
          (fst (imgui.VertexBuffer list_)) gl.STREAM_DRAW);
    Gl (gl.CallBindBuffer gl.ELEMENT_ARRAY_BUFFER (OpenGL3.elementsHandle renderer));
    Gl (gl.CallBufferData gl.ELEMENT_ARRAY_BUFFER (snd (imgui.IndexBuffer list_))
          (fst (imgui.IndexBuffer list_)) gl.STREAM_DRAW) ]
  ++ flat_map (expected_command_calls fbHeight drawType indexSize list_)
       (imgui.Commands list_).

(** A draw call or the invocation of a user callback. *)
Definition is_draw_or_callback (c : Call) : bool :=
  match c with
  | Gl (gl.CallDrawElementsBaseVertexWithOffset _ _ _ _ _) => true
  | UserCallback _ _ => true
  | _ => false
  end.

(** [l] is [middle] between calls that neither draw nor invoke a
    callback. *)
Definition brackets (l middle : list Call) : Prop :=
  exists setup restore,
    l = setup ++ middle ++ restore
    /\ existsb is_draw_or_callback setup = false
    /\ existsb is_draw_or_callback restore = false.

(** The values of a draw command fit the types the renderer converts
    them to: counts and offsets are below [2^31] (imgui's buffers are
    indexed by [int]), texture identifiers are OpenGL names. *)
Definition fits (cmd : imgui.DrawCommand) : Prop :=
  imgui.HasUserCallback cmd = true \/
  (0 <= imgui.ElementCount cmd < 2 ^ 31 /\
   0 <= imgui.IndexOffset cmd < 2 ^ 31 /\
   0 <= imgui.VertexOffset cmd < 2 ^ 31 /\
   is_uint32 (imgui.TextureID cmd)).

Definition draw_data_fits (drawData : imgui.DrawData) : Prop :=
  forall list cmd,
    In list (imgui.CommandLists drawData) -> In cmd (imgui.Commands list) -> fits cmd.

(** The size of an index is a small positive number. *)
Definition index_size_fits (imgui_ : imgui.Answers) : Prop :=
  0 <= imgui.IndexBufferLayout imgui_ < 2 ^ 32.

(** ** What [Render] saves

    The state variables [Render] reads at entry: the texture and
    sampler bindings are read after unit 0 was made active, so they
    are those of unit 0; the element-array-buffer binding is that of
    the vertex array bound at entry. *)
Definition saved_variables (s : gl.State) : list gl.Var :=
  [ gl.ActiveTexture; gl.CurrentProgram;
    gl.TextureBinding2D gl.TEXTURE0; gl.SamplerBinding 0;
    gl.ArrayBufferBinding;
    gl.ElementArrayBufferBinding (s gl.VertexArrayBinding);
    gl.VertexArrayBinding;
    gl.BlendEquationRgb; gl.BlendEquationAlpha;
    gl.BlendSrcRgb; gl.BlendDstRgb; gl.BlendSrcAlpha; gl.BlendDstAlpha;
    gl.Enabled gl.BLEND; gl.Enabled gl.CULL_FACE;
    gl.Enabled gl.DEPTH_TEST; gl.Enabled gl.SCISSOR_TEST;
    gl.PolygonMode;
    gl.ViewportX; gl.ViewportY; gl.ViewportWidth; gl.ViewportHeight;
    gl.ScissorX; gl.ScissorY; gl.ScissorWidth; gl.ScissorHeight ].

(** Every user callback of the draw data returns with the texture
    unit active that was active when it was called. *)
Definition callbacks_keep_active_texture (drawData : imgui.DrawData) : Prop :=
  forall list cmd callback,
    In list (imgui.CommandLists drawData) ->
    In cmd (imgui.Commands list) ->
    imgui.UserCallback cmd = Some callback ->
    forall s, callback s gl.ActiveTexture = s gl.ActiveTexture.

End renderers.

(* ================================================================== *)
(** * Concrete inputs *)
(* ================================================================== *)

Module Examples.

Import Go.
Local Open Scope string_scope.
Local Open Scope list_scope.
Local Open Scope Z_scope.

(** The package constants, with the values of the upstream examples. *)
Definition constants : platforms.PackageConstants :=
  {| platforms.windowWidth := 1280;
     platforms.windowHeight := 720;
     platforms.mouseButtonPrimary := 0;
     platforms.mouseButtonSecondary := 1;
     platforms.mouseButtonTertiary := 2 |}.

(** An SDL that answers every call with success: window 1, context 7. *)
Definition sdl_succeeds : sdl.Answers :=
  {| sdl.Init_error := None;
     sdl.CreateWindow_result := inl 1;
     sdl.GLCreateContext_result := inl 7;
     sdl.GLMakeCurrent_error := None;
     sdl.GetSize_result := (1280, 720);
     sdl.GLGetDrawableSize_result := (1280, 720);
     sdl.PerformanceFrequency := 1000000;
     sdl.PerformanceCounter := 5000000;
     sdl.MouseState := (10, 20, 0);
     sdl.ClipboardText := ("text", None) |}.

(** An SDL that creates window 1 and context 7 and then fails to make
    the context current. *)
Definition sdl_make_current_fails : sdl.Answers :=
  {| sdl.Init_error := None;
     sdl.CreateWindow_result := inl 1;
     sdl.GLCreateContext_result := inl 7;
     sdl.GLMakeCurrent_error := Some (LibraryError 1);
     sdl.GetSize_result := (1280, 720);
     sdl.GLGetDrawableSize_result := (1280, 720);
     sdl.PerformanceFrequency := 1000000;
     sdl.PerformanceCounter := 5000000;
     sdl.MouseState := (10, 20, 0);
     sdl.ClipboardText := ("text", None) |}.

Definition glfw_succeeds : glfw.Answers :=
  {| glfw.Init_error := None;
     glfw.CreateWindow_result := inl 1 |}.

(** A platform as [NewSDL] returns it. *)
Definition sdl_platform : platforms.SDL.t :=
  {| platforms.SDL.imguiIO := 0;
     platforms.SDL.window := Some 1;
     platforms.SDL.shouldStop := false;
     platforms.SDL.time := 0;
     platforms.SDL.buttonsDown := fun _ => false |}.

(** imgui with 16-bit indices and its usual vertex layout. *)
Definition imgui_answers : imgui.Answers :=
  {| imgui.VertexBufferLayout := (20, 0, 8, 16);
     imgui.IndexBufferLayout := 2;
     imgui.TextureDataAlpha8 := (512, 64, 4096);
     imgui.BackendFlags := 0 |}.

(** A renderer as [NewOpenGL3] returns it. *)
Definition renderer : renderers.OpenGL3.t :=
  {| renderers.OpenGL3.imguiIO := 0;
     renderers.OpenGL3.glslVersion := "#version 150";
     renderers.OpenGL3.fontTexture := 6;
     renderers.OpenGL3.shaderHandle := 1;
     renderers.OpenGL3.vertHandle := 2;
     renderers.OpenGL3.fragHandle := 3;
     renderers.OpenGL3.attribLocationTex := 0;
     renderers.OpenGL3.attribLocationProjMtx := 1;
     renderers.OpenGL3.attribLocationPosition := 0;
     renderers.OpenGL3.attribLocationUV := 1;
     renderers.OpenGL3.attribLocationColor := 2;
     renderers.OpenGL3.vboHandle := 4;
     renderers.OpenGL3.elementsHandle := 5 |}.

(** A display and framebuffer of 800 by 600. *)
Definition size_800_600 : float32 * float32 := (f32_of_Z 800, f32_of_Z 600).

Definition full_clip : imgui.Vec4 :=
  {| imgui.vX := f32_of_Z 0; imgui.vY := f32_of_Z 0;
     imgui.vZ := f32_of_Z 800; imgui.vW := f32_of_Z 600 |}.

(** A command that draws 6 elements with texture 7. *)
Definition draw_command : imgui.DrawCommand :=
  {| imgui.ElementCount := 6; imgui.IndexOffset := 0; imgui.VertexOffset := 0;
     imgui.TextureID := 7; imgui.ClipRect := full_clip;
     imgui.UserCallback := None |}.

(** A user callback that makes texture unit 1 active and returns. *)
Definition select_unit_1 : imgui.Callback :=
  fun s => gl.upd s gl.ActiveTexture (gl.TEXTURE0 + 1).

Definition callback_command : imgui.DrawCommand :=
  {| imgui.ElementCount := 0; imgui.IndexOffset := 0; imgui.VertexOffset := 0;
     imgui.TextureID := 0; imgui.ClipRect := full_clip;
     imgui.UserCallback := Some select_unit_1 |}.

(** Draw data of one list of one draw command. *)
Definition draw_data : imgui.DrawData :=
  {| imgui.CommandLists :=
       [ {| imgui.VertexBuffer := (4096, 80); imgui.IndexBuffer := (8192, 12);
            imgui.Commands := [draw_command] |} ] |}.

(** Draw data of one list: the draw command, then the callback. *)
Definition draw_data_with_callback : imgui.DrawData :=
  {| imgui.CommandLists :=
       [ {| imgui.VertexBuffer := (4096, 80); imgui.IndexBuffer := (8192, 12);
            imgui.Commands := [draw_command; callback_command] |} ] |}.

(** A context of 800 by 600 with texture 5 bound in unit 0. *)
Definition context : gl.State :=
  gl.upd (gl.initial 800 600) (gl.TextureBinding2D gl.TEXTURE0) 5.

End Examples.

(* ================================================================== *)
(** * The per-frame methods of the GLFW platform *)
(* ================================================================== *)

Module GLFWFrame.

Import Go platforms.
Local Open Scope Z_scope.
Local Open Scope effect_scope.

(** float64 arithmetic is IEEE 754 binary64. *)
Definition f64_sub : float64 -> float64 -> float64 := SFsub 53 1024.
Definition f64_zero : float64 := S754_zero false.

(** [math.MaxFloat32], [(2 - 2^-23) * 2^127]. *)
Definition MaxFloat32 : float32 := S754_finite false (2 ^ 24 - 1) 104.

(** [glfw.Focused] and the window queries of the frame methods. *)
Inductive Query : Type :=
| QueryGetSize (window : glfw.Window)
| QueryGetTime
| QueryGetAttribFocused (window : glfw.Window)
| QueryGetCursorPos (window : glfw.Window)
| QueryGetMouseButton (window : glfw.Window) (button : Z).

(** What GLFW answers to them. *)
Record Readings : Type :=
  { GetSize_result : Z * Z;
    GetTime_result : float64;
    Focused : Z;
    CursorPos : float64 * float64;
    MouseButton : Z -> Z }.

Definition Eff (A : Type) : Type := Effect.M glfw.Resources (Call Query) A.

Definition query {A : Type} (q : Query) (answer : A) : Eff A :=
  Effect.call (Lib q) (fun r => r) (fun _ => answer).

Definition set_time (x : float64) (p : GLFW.t) : GLFW.t :=
  {| GLFW.imguiIO := GLFW.imguiIO p; GLFW.window := GLFW.window p;
     GLFW.time := x; GLFW.mouseJustPressed := GLFW.mouseJustPressed p |}.

Section WithConstants.
Variable pkg : PackageConstants.
Variable readings : Readings.

(** The map [glfwButtonIDByIndex]; indexing a Go map with an absent
    key gives the zero value, [glfw.MouseButton1]. *)
Definition glfwButtonIDByIndex (index : Z) : Z :=
  match switch index
          [ (mouseButtonPrimary pkg, glfw.MouseButton1);
            (mouseButtonSecondary pkg, glfw.MouseButton2);
            (mouseButtonTertiary pkg, glfw.MouseButton3) ] with
  | Some button => button
  | None => 0
  end.

(** [DisplaySize] returns the dimension of the display. *)
Definition DisplaySize (platform : GLFW.t) : Eff (float32 * float32) :=
  wh <- query (QueryGetSize (GLFW.window_handle platform)) (GetSize_result readings) ;;
  Effect.ret (f32_of_Z (fst wh), f32_of_Z (snd wh)).

(** One round of the button loop of [NewFrame].  The right operand of
    [||] is evaluated, and the button queried, only when the button was
    not just pressed. *)
Definition NewFrame_button (platform : GLFW.t) (i : Z) : Eff GLFW.t :=
  down <- (if GLFW.mouseJustPressed platform i then Effect.ret true
           else
             state <- query (QueryGetMouseButton (GLFW.window_handle platform)
                               (glfwButtonIDByIndex i))
                            (MouseButton readings (glfwButtonIDByIndex i)) ;;
             Effect.ret (state =? glfw.Press)) ;;
  io (imgui.SetMouseButtonDown i down) ;;
  Effect.ret (GLFW.set_mouseJustPressed
                (array_set (GLFW.mouseJustPressed platform) i false) platform).

Fixpoint NewFrame_buttons (indices : list Z) (platform : GLFW.t) : Eff GLFW.t :=
  match indices with
  | [] => Effect.ret platform
  | i :: rest =>
      platform <- NewFrame_button platform i ;;
      NewFrame_buttons rest platform
  end.

(** [NewFrame] forwards the current state to imgui IO. *)
Definition NewFrame (platform : GLFW.t) : Eff GLFW.t :=
  displaySize <- DisplaySize platform ;;
  io (imgui.SetDisplaySize
        {| imgui.v2X := fst displaySize; imgui.v2Y := snd displaySize |}) ;;
  currentTime <- query QueryGetTime (GetTime_result readings) ;;
  Effect.when (SFltb f64_zero (GLFW.time platform))
    (io (imgui.SetDeltaTime (f32_of_f64 (f64_sub currentTime (GLFW.time platform))))) ;;
  let platform := set_time currentTime platform in
  focused <- query (QueryGetAttribFocused (GLFW.window_handle platform))
                   (Focused readings) ;;
  (if negb (focused =? 0) then
     xy <- query (QueryGetCursorPos (GLFW.window_handle platform)) (CursorPos readings) ;;
     io (imgui.SetMousePosition
           {| imgui.v2X := f32_of_f64 (fst xy); imgui.v2Y := f32_of_f64 (snd xy) |})
   else
     io (imgui.SetMousePosition
           {| imgui.v2X := f32_neg MaxFloat32; imgui.v2Y := f32_neg MaxFloat32 |})) ;;
  NewFrame_buttons [0; 1; 2] platform.

End WithConstants.

End GLFWFrame.

(* ================================================================== *)
(** * What traces and events are asked about *)
(* ================================================================== *)

Module Observe.

Import Go platforms.
Local Open Scope Z_scope.

Definition is_quit (event : sdl.Event) : bool :=
  match event with
  | sdl.QuitEvent => true
  | _ => false
  end.

(** The package constants index the three buttons as 0, 1 and 2, the
    indices [NewFrame] loops over. *)
Definition buttons_indexed (pkg : PackageConstants) : Prop :=
  mouseButtonPrimary pkg = 0 /\ mouseButtonSecondary pkg = 1 /\
  mouseButtonTertiary pkg = 2.

(** The button index the SDL platform latches for a pressed button. *)
Definition sdl_button_index (button : Z) : option Z :=
  switch button [ (sdl.BUTTON_LEFT, 0); (sdl.BUTTON_RIGHT, 1); (sdl.BUTTON_MIDDLE, 2) ].

(** The calls on [SetMouseButtonDown] in a trace, in order. *)
Definition button_reports {L : Type} (trace : list (Call L)) : list (Z * bool) :=
  flat_map (fun c => match c with
                     | IO (imgui.SetMouseButtonDown i down) => [(i, down)]
                     | _ => []
                     end) trace.

(** The calls on [SetDeltaTime] in a trace, in order. *)
Definition delta_reports {L : Type} (trace : list (Call L)) : list float32 :=
  flat_map (fun c => match c with
                     | IO (imgui.SetDeltaTime dt) => [dt]
                     | _ => []
                     end) trace.

(** The four modifier events both platforms send after a key event. *)
Definition modifier_events {L : Type} (ctrl shift alt super : bool) : list (Call L) :=
  [ IO (imgui.AddKeyEvent imgui.KeyModCtrl ctrl);
    IO (imgui.AddKeyEvent imgui.KeyModShift shift);
    IO (imgui.AddKeyEvent imgui.KeyModAlt alt);
    IO (imgui.AddKeyEvent imgui.KeyModSuper super) ].

Definition is_CreateWindow (c : Call glfw.Call) : bool :=
  match c with
  | Lib (glfw.CallCreateWindow _ _ _) => true
  | _ => false
  end.

Definition supported (clientAPI : string) : Prop :=
  clientAPI = "OpenGL2"%string \/ clientAPI = "OpenGL3"%string.

(** A constructor's result is an object and a nil error, or a nil
    object and an error. *)
Definition object_or_error {A : Type} (result : option A * option error) : Prop :=
  match result with
  | (Some _, None) | (None, Some _) => True
  | _ => False
  end.

(** The buttons whose state a trace asks GLFW for, in order. *)
Definition button_queries (trace : list (Call GLFWFrame.Query)) : list Z :=
  flat_map (fun c => match c with
                     | Lib (GLFWFrame.QueryGetMouseButton _ button) => [button]
                     | _ => []
                     end) trace.

(** The calls on [SetMousePosition] in a trace, in order. *)
Definition position_reports {L : Type} (trace : list (Call L)) : list imgui.Vec2 :=
  flat_map (fun c => match c with
                     | IO (imgui.SetMousePosition p) => [p]
                     | _ => []
                     end) trace.

Definition is_GetCursorPos (c : Call GLFWFrame.Query) : bool :=
  match c with
  | Lib (GLFWFrame.QueryGetCursorPos _) => true
  | _ => false
  end.

(** Equality of imgui keys is decidable. *)
Definition ImguiKey_eq_dec (a b : imgui.ImguiKey) : {a = b} + {a <> b}.
Proof. decide equality. Defined.

(** The pairs of distinct case constants of a switch whose cases
    return the same key. *)
Definition confused (cases : list (Z * imgui.ImguiKey)) : list (Z * Z) :=
  flat_map
    (fun a =>
       flat_map
         (fun b =>
            if negb (fst a =? fst b)
               && (if ImguiKey_eq_dec (snd a) (snd b) then true else false)
            then [(fst a, fst b)] else [])
         cases)
    cases.

End Observe.

(** What is asked about the renderer's calls and the context. *)
Module ObserveGL.

Import Go renderers.
Local Open Scope Z_scope.

Definition is_scissor (v : gl.Var) : bool :=
  match v with
  | gl.ScissorX | gl.ScissorY | gl.ScissorWidth | gl.ScissorHeight => true
  | _ => false
  end.

(** Every user callback of the draw data returns with the context as
    it found it. *)
Definition callbacks_keep_the_context (drawData : imgui.DrawData) : Prop :=
  forall l cmd callback,
    In l (imgui.CommandLists drawData) -> In cmd (imgui.Commands l) ->
    imgui.UserCallback cmd = Some callback ->
    forall s v, callback s v = s v.

(** The variables the draw loop writes when it runs in context [s]:
    the array buffer binding, the element array buffer binding of the
    bound vertex array, the texture binding of the active unit and the
    scissor box. *)
Definition written_by_draw_loop (s : gl.State) (v : gl.Var) : bool :=
  gl.Var_eqb v gl.ArrayBufferBinding
  || gl.Var_eqb v (gl.ElementArrayBufferBinding (s gl.VertexArrayBinding))
  || gl.Var_eqb v (gl.TextureBinding2D (s gl.ActiveTexture))
  || is_scissor v.

(** The calls on vertex array objects. *)
Definition is_vertex_array_call (c : Call) : bool :=
  match c with
  | Gl (gl.CallGenVertexArrays _)
  | Gl (gl.CallBindVertexArray _)
  | Gl (gl.CallDeleteVertexArrays _ _) => true
  | _ => false
  end.

(** The calls that delete the six objects [createDeviceObjects]
    creates when the first name it is given is [n], in the order of
    [invalidateDeviceObjects]. *)
Definition deletes_of (n : Z) : list Call :=
  [ Gl (gl.CallDeleteBuffers 1 (n + 3));
    Gl (gl.CallDeleteBuffers 1 (n + 4));
    Gl (gl.CallDetachShader n (n + 1));
    Gl (gl.CallDeleteShader (n + 1));
    Gl (gl.CallDetachShader n (n + 2));
    Gl (gl.CallDeleteShader (n + 2));
    Gl (gl.CallDeleteProgram n);
    Gl (gl.CallDeleteTextures 1 (n + 5));
    Imgui imgui.CallCurrentIO;
    Imgui (imgui.CallSetTextureID 0) ].

End ObserveGL.

(** More concrete inputs. *)
Module FrameExamples.

Import Go platforms.
Local Open Scope string_scope.
Local Open Scope list_scope.
Local Open Scope Z_scope.

(** A platform as [NewGLFW] returns it. *)
Definition glfw_platform : GLFW.t :=
  {| GLFW.imguiIO := 0; GLFW.window := Some 1;
     GLFW.time := S754_zero false; GLFW.mouseJustPressed := fun _ => false |}.

(** Two seconds on GLFW's clock. *)
Definition two_seconds : float64 := S754_finite false (2 ^ 52) (-51).

(** A window without focus, no button held. *)
Definition glfw_unfocused : GLFWFrame.Readings :=
  {| GLFWFrame.GetSize_result := (1280, 720);
     GLFWFrame.GetTime_result := two_seconds;
     GLFWFrame.Focused := 0;
     GLFWFrame.CursorPos := (S754_zero false, S754_zero false);
     GLFWFrame.MouseButton := fun _ => glfw.Release |}.

(** A GLFW that initialises and then fails to create the window. *)
Definition glfw_create_window_fails : glfw.Answers :=
  {| glfw.Init_error := None;
     glfw.CreateWindow_result := inr (LibraryError 65543) |}.

(** A driver that initialises and locates the uniforms and attributes
    of the shader where [Examples.renderer] has them. *)
Definition gl_driver : gl.Answers :=
  {| gl.Init_error := None;
     gl.UniformLocation := fun _ name => if (name =? "ProjMtx")%string then 1 else 0;
     gl.AttribLocation :=
       fun _ name => if (name =? "UV")%string then 1
                     else if (name =? "Color")%string then 2 else 0 |}.

(** A clip rectangle from (3e9, -3e9) to (5e9, 2^31): all four
    coordinates are floats, none an int32. *)
Definition far_clip : imgui.Vec4 :=
  {| imgui.vX := f32_of_Z 3000000000; imgui.vY := f32_of_Z (-3000000000);
     imgui.vZ := f32_of_Z 5000000000; imgui.vW := f32_of_Z (2 ^ 31) |}.

(** A command that draws 6 elements with texture 7, clipped to it. *)
Definition far_command : imgui.DrawCommand :=
  {| imgui.ElementCount := 6; imgui.IndexOffset := 0; imgui.VertexOffset := 0;
     imgui.TextureID := 7; imgui.ClipRect := far_clip;
     imgui.UserCallback := None |}.

(** A loader that fails to initialise. *)
Definition gl_loader_fails : gl.Answers :=
  {| gl.Init_error := Some (LibraryError 2);
     gl.UniformLocation := fun _ _ => 0;
     gl.AttribLocation := fun _ _ => 0 |}.

(** The context of [Examples.context] after the application has set
    an unpack row length of 256. *)
Definition context_with_row_length : gl.State :=
  gl.upd Examples.context gl.UnpackRowLength 256.

End FrameExamples.

(* ================================================================== *)
(** * Facts about the Go layer *)
(* ================================================================== *)

Module GoFacts.

Import Go.

Lemma uint32_int32 (x : Z) : is_uint32 x -> uint32 (int32 x) = x.
Proof.
  unfold is_uint32, uint32, int32. intros H.
  rewrite Zminus_mod_idemp_l.
  replace (x + 2 ^ 31 - 2 ^ 31) with x by lia.
  apply Z.mod_small. exact H.
Qed.

Lemma int32_id (x : Z) : is_int32 x -> int32 x = x.
Proof.
  unfold is_int32, int32. intros H.
  rewrite Z.mod_small; lia.
Qed.

Lemma uint32_id (x : Z) : is_uint32 x -> uint32 x = x.
Proof. unfold is_uint32, uint32. intros H. now apply Z.mod_small. Qed.

(** Falling out of a switch is having a tag none of the cases names. *)
Lemma switch_None {A : Type} (tag : Z) (cases : list (Z * A)) :
  switch tag cases = None <-> ~ In tag (case_constants cases).
Proof.
  induction cases as [|[c body] rest IH]; simpl.
  - tauto.
  - destruct (Z.eqb_spec tag c) as [->|Hne].
    + split; [discriminate | intros H; exfalso; apply H; now left].
    + rewrite IH. split.
      * intros H [Heq|Hin]; [congruence | tauto].
      * intros H Hin. apply H. now right.
Qed.

Lemma switch_Some {A : Type} (tag : Z) (cases : list (Z * A)) :
  In tag (case_constants cases) -> exists body, switch tag cases = Some body.
Proof.
  intros Hin. destruct (switch tag cases) as [body|] eqn:E.
  - now exists body.
  - apply switch_None in E. contradiction.
Qed.

(** Membership of a constant in a list of constants, decided. *)
Lemma In_existsb (x : Z) (l : list Z) :
  In x l <-> existsb (Z.eqb x) l = true.
Proof.
  rewrite existsb_exists. split.
  - intros H. exists x. split; [exact H | apply Z.eqb_refl].
  - intros [y [Hy Heq]]. apply Z.eqb_eq in Heq. now subst.
Qed.

Lemma not_In_existsb (x : Z) (l : list Z) :
  existsb (Z.eqb x) l = false -> ~ In x l.
Proof. intros H Hin. apply In_existsb in Hin. congruence. Qed.

(** [x++] and [x--] from zero give 1 and -1. *)
Lemma incr_zero : f32_incr f32_zero = f32_of_Z 1.
Proof. reflexivity. Qed.

Lemma decr_zero : f32_decr f32_zero = f32_of_Z (-1).
Proof. reflexivity. Qed.

(** Conversions of floats to integers discard the fraction. *)
Example int32_of_800 : int32_of_f32 (f32_of_Z 800) = 800.
Proof. reflexivity. Qed.

Example int32_of_minus_three_and_a_half :
  int32_of_f32 (f32_div (f32_of_Z (-7)) (f32_of_Z 2)) = -3.
Proof. reflexivity. Qed.

Example int32_wraps : int32 (2 ^ 31) = - 2 ^ 31 /\ uint32 (-1) = 2 ^ 32 - 1.
Proof. split; reflexivity. Qed.

(** A float that int32 cannot represent converts to [-2^31]. *)
Example int32_of_out_of_range :
  int32_of_f32 (f32_of_Z 3000000000) = - 2 ^ 31
  /\ int32_of_f32 (f32_of_Z (-3000000000)) = - 2 ^ 31
  /\ int32_of_f32 (S754_infinity false) = - 2 ^ 31
  /\ int32_of_f32 S754_nan = - 2 ^ 31.
Proof. repeat split. Qed.

(** A value that is strictly positive is not [<= 0]. *)
Lemma positive_not_le_zero (x : float32) :
  f32_ltb f32_zero x = true -> f32_leb x f32_zero = false.
Proof.
  unfold f32_ltb, f32_leb, f32_zero, SFltb, SFleb.
  destruct x as [s|s| |s m e]; simpl; try discriminate;
    destruct s; simpl; try discriminate; reflexivity.
Qed.

End GoFacts.

(* ================================================================== *)
(** * Key translation *)
(* ================================================================== *)

Module KeyFacts.

Import Go platforms.

(** The switches are well-formed Go: no constant occurs twice. *)
Lemma sdl2_keycode_cases_distinct :
  distinct (case_constants sdl2_keycode_cases) = true.
Proof. vm_compute. reflexivity. Qed.

Lemma sdl2_scancode_cases_distinct :
  distinct (case_constants sdl2_scancode_cases) = true.
Proof. vm_compute. reflexivity. Qed.

Lemma glfw_key_cases_distinct :
  distinct (case_constants glfw_key_cases) = true.
Proof. vm_compute. reflexivity. Qed.

(** A switch none of whose cases returns [KeyNone] never gives it. *)
Lemma switch_never_KeyNone (cases : list (Z * imgui.ImguiKey)) (tag : Z) (k : imgui.ImguiKey) :
  existsb is_KeyNone (map snd cases) = false ->
  switch tag cases = Some k -> k <> imgui.KeyNone.
Proof.
  induction cases as [|[c body] rest IH]; simpl; [discriminate|].
  intros Hex. apply orb_false_iff in Hex as [Hb Hrest].
  destruct (tag =? c).
  - intros [= <-] ->. discriminate.
  - now apply IH.
Qed.

(** The translation at some keys of a US keyboard. *)
Example sdl2_tab : sdl2KeyEventToImguiKey sdl.K_TAB 43 = imgui.KeyTab.
Proof. reflexivity. Qed.

Example sdl2_f1 : sdl.K_F1 = 1073741882 /\ sdl2KeyEventToImguiKey 1073741882 58 = imgui.KeyF1.
Proof. split; reflexivity. Qed.

Example sdl2_left_bracket :
  sdl2KeyEventToImguiKey 91 sdl.SCANCODE_LEFTBRACKET = imgui.KeyLeftBracket.
Proof. reflexivity. Qed.

Example glfw_left_bracket : glfwKeyEventToImguiKey glfw.KeyLeftBracket 0 = imgui.KeyLeftBracket.
Proof. reflexivity. Qed.

Example glfw_f25 : glfwKeyEventToImguiKey 314 0 = imgui.KeyNone.
Proof. reflexivity. Qed.

(** C1. A key event whose key code is none of the key codes the
    translation function enumerates (and, for SDL, whose scancode is
    none of the scancodes of the fallback switch) translates to
    [imgui.KeyNone], for [sdl2KeyEventToImguiKey] and for
    [glfwKeyEventToImguiKey]. *)
Theorem unmapped_key_translates_to_KeyNone :
  (forall keycode scancode : Z,
      ~ In keycode (case_constants sdl2_keycode_cases) ->
      ~ In scancode (case_constants sdl2_scancode_cases) ->
      sdl2KeyEventToImguiKey keycode scancode = imgui.KeyNone)
  /\
  (forall key scancode : Z,
      ~ In key (case_constants glfw_key_cases) ->
      glfwKeyEventToImguiKey key scancode = imgui.KeyNone).
Proof.
  split.
  - intros keycode scancode Hk Hs. unfold sdl2KeyEventToImguiKey.
    apply GoFacts.switch_None in Hk. apply GoFacts.switch_None in Hs.
    now rewrite Hk, Hs.
  - intros key scancode Hk. unfold glfwKeyEventToImguiKey.
    apply GoFacts.switch_None in Hk. now rewrite Hk.
Qed.

(** The theorem at the SDL event of keycode [K_SLASH] with scancode 0
    (unknown) and at the GLFW key [KeyUnknown]. *)
Lemma unmapped_key_translates_to_KeyNone_witness :
  (~ In sdl.K_SLASH (case_constants sdl2_keycode_cases) /\
   ~ In 0 (case_constants sdl2_scancode_cases) /\
   sdl2KeyEventToImguiKey sdl.K_SLASH 0 = imgui.KeyNone)
  /\
  (~ In glfw.KeyUnknown (case_constants glfw_key_cases) /\
   glfwKeyEventToImguiKey glfw.KeyUnknown 0 = imgui.KeyNone).
Proof.
  assert (H1 : ~ In sdl.K_SLASH (case_constants sdl2_keycode_cases))
    by (apply GoFacts.not_In_existsb; vm_compute; reflexivity).
  assert (H2 : ~ In 0 (case_constants sdl2_scancode_cases))
    by (apply GoFacts.not_In_existsb; vm_compute; reflexivity).
  assert (H3 : ~ In glfw.KeyUnknown (case_constants glfw_key_cases))
    by (apply GoFacts.not_In_existsb; vm_compute; reflexivity).
  split.
  - split; [exact H1 | split; [exact H2 |]].
    exact (proj1 unmapped_key_translates_to_KeyNone sdl.K_SLASH 0 H1 H2).
  - split; [exact H3 |].
    exact (proj2 unmapped_key_translates_to_KeyNone glfw.KeyUnknown 0 H3).
Defined.

(** The converse: a key event that translates to [KeyNone] is unmapped. *)
Lemma KeyNone_only_for_unmapped_keys (keycode scancode : Z) :
  sdl2KeyEventToImguiKey keycode scancode = imgui.KeyNone ->
  ~ In keycode (case_constants sdl2_keycode_cases) /\
  ~ In scancode (case_constants sdl2_scancode_cases).
Proof.
  unfold sdl2KeyEventToImguiKey.
  destruct (switch keycode sdl2_keycode_cases) as [k|] eqn:Ek.
  - intros ->.
    pose proof (switch_never_KeyNone sdl2_keycode_cases keycode _ eq_refl Ek).
    congruence.
  - destruct (switch scancode sdl2_scancode_cases) as [k|] eqn:Es.
    + intros ->.
      pose proof (switch_never_KeyNone sdl2_scancode_cases scancode _ eq_refl Es).
      congruence.
    + intros _. split; now apply GoFacts.switch_None.
Qed.

(** C4, as stated, fails for SDL: two key events with the keycode of
    the minus character, one with the scancode of the US keyboard's
    minus key and one with the scancode of its slash key (where a
    German keyboard has minus), translate to different keys. *)
Lemma sdl2_translation_reads_the_scancode :
  sdl2KeyEventToImguiKey sdl.K_MINUS sdl.SCANCODE_MINUS = imgui.KeyMinus /\
  sdl2KeyEventToImguiKey sdl.K_MINUS sdl.SCANCODE_SLASH = imgui.KeySlash /\
  sdl2KeyEventToImguiKey sdl.K_MINUS sdl.SCANCODE_MINUS <>
  sdl2KeyEventToImguiKey sdl.K_MINUS sdl.SCANCODE_SLASH.
Proof. repeat split. vm_compute. discriminate. Qed.

(** C4, amended. For GLFW the translation is a function of the key
    code alone.  For SDL it is a function of the keycode alone for
    the keycodes the keycode switch enumerates; for every other
    keycode the result is what the scancode switch gives for the
    event's scancode. *)
Theorem translation_by_key_code :
  (forall key scancode1 scancode2 : Z,
      glfwKeyEventToImguiKey key scancode1 = glfwKeyEventToImguiKey key scancode2)
  /\
  (forall keycode scancode1 scancode2 : Z,
      In keycode (case_constants sdl2_keycode_cases) ->
      sdl2KeyEventToImguiKey keycode scancode1 =
      sdl2KeyEventToImguiKey keycode scancode2)
  /\
  (forall keycode scancode : Z,
      ~ In keycode (case_constants sdl2_keycode_cases) ->
      sdl2KeyEventToImguiKey keycode scancode = scancode_fallback scancode).
Proof.
  split; [reflexivity | split].
  - intros keycode s1 s2 Hin. unfold sdl2KeyEventToImguiKey.
    destruct (GoFacts.switch_Some keycode sdl2_keycode_cases Hin) as [k ->].
    reflexivity.
  - intros keycode s Hk. unfold sdl2KeyEventToImguiKey, scancode_fallback.
    apply GoFacts.switch_None in Hk. now rewrite Hk.
Qed.

(** The theorem at the keycode of Tab (mapped) and at the keycode of
    the minus character (not mapped). *)
Lemma translation_by_key_code_witness :
  (In sdl.K_TAB (case_constants sdl2_keycode_cases) /\
   sdl2KeyEventToImguiKey sdl.K_TAB 43 = sdl2KeyEventToImguiKey sdl.K_TAB 0)
  /\
  (~ In sdl.K_MINUS (case_constants sdl2_keycode_cases) /\
   sdl2KeyEventToImguiKey sdl.K_MINUS sdl.SCANCODE_MINUS =
   scancode_fallback sdl.SCANCODE_MINUS).
Proof.
  assert (H1 : In sdl.K_TAB (case_constants sdl2_keycode_cases))
    by (apply GoFacts.In_existsb; vm_compute; reflexivity).
  assert (H2 : ~ In sdl.K_MINUS (case_constants sdl2_keycode_cases))
    by (apply GoFacts.not_In_existsb; vm_compute; reflexivity).
  split.
  - split; [exact H1 |].
    exact (proj1 (proj2 translation_by_key_code) sdl.K_TAB 43 0 H1).
  - split; [exact H2 |].
    exact (proj2 (proj2 translation_by_key_code) sdl.K_MINUS sdl.SCANCODE_MINUS H2).
Defined.

End KeyFacts.

(* ================================================================== *)
(** * Facts about computations and traces *)
(* ================================================================== *)

Module EffectFacts.

Import Go.

Lemma ends_with_refl {A : Type} (l : list A) : ends_with l l.
Proof. now exists []. Qed.

Lemma ends_with_cons {A : Type} (x : A) (l suffix : list A) :
  ends_with l suffix -> ends_with (x :: l) suffix.
Proof. intros [pre ->]. now exists (x :: pre). Qed.

Section Laws.
Context {S E : Type}.

Lemma value_bind {A B : Type} (m : Effect.M S E A) (f : A -> Effect.M S E B) (s : S) :
  Effect.value (Effect.bind m f) s =
  Effect.value (f (Effect.value m s)) (Effect.final m s).
Proof. reflexivity. Qed.

Lemma final_bind {A B : Type} (m : Effect.M S E A) (f : A -> Effect.M S E B) (s : S) :
  Effect.final (Effect.bind m f) s =
  Effect.final (f (Effect.value m s)) (Effect.final m s).
Proof. reflexivity. Qed.

Lemma trace_bind {A B : Type} (m : Effect.M S E A) (f : A -> Effect.M S E B) (s : S) :
  Effect.trace (Effect.bind m f) s =
  Effect.trace m s ++ Effect.trace (f (Effect.value m s)) (Effect.final m s).
Proof. reflexivity. Qed.

(** A function that returns its argument and leaves the state alone
    does so however often it is applied, and the trace of the
    applications is made of the traces of single ones. *)
Lemma times_fixpoint {A : Type} (f : A -> Effect.M S E A) (a : A) (P : E -> Prop) :
  (forall s, Effect.value (f a) s = a) ->
  (forall s, Forall P (Effect.trace (f a) s)) ->
  forall n s,
    Effect.value (Effect.times n f a) s = a /\
    Forall P (Effect.trace (Effect.times n f a) s).
Proof.
  intros Hv Ht. induction n as [|n IH]; intros s.
  - split; [reflexivity | constructor].
  - simpl. rewrite value_bind, trace_bind, Hv. split.
    + apply IH.
    + apply Forall_app. split; [apply Ht | apply IH].
Qed.

(** If moreover it issues no call and leaves the state alone, so do
    its repetitions. *)
Lemma times_silent {A : Type} (f : A -> Effect.M S E A) (a : A) :
  (forall s, f a s = ((a, s), [])) ->
  forall n s, Effect.times n f a s = ((a, s), []).
Proof.
  intros H. induction n as [|n IH]; intros s.
  - reflexivity.
  - simpl. unfold Effect.bind. rewrite H. simpl. now rewrite IH.
Qed.
End Laws.

End EffectFacts.

(* ================================================================== *)
(** * The platforms *)
(* ================================================================== *)

Module PlatformFacts.

Import Go platforms.
Local Open Scope string_scope.
Local Open Scope list_scope.
Local Open Scope Z_scope.

(** ** Mouse wheel *)

(** The SDL wheel delta is the sign of the event's value. *)
Lemma wheel_delta_sign (v : Z) : SDL.wheel_delta v = f32_of_Z (Z.sgn v).
Proof. destruct v; reflexivity. Qed.

(** C5, as stated, fails for SDL: the wheel event with deltas 3 and -2
    reaches [AddMouseWheelDelta] as 1 and -1. *)
Lemma sdl_wheel_forwards_the_sign_only :
  Effect.trace
    (SDL.processEvent Examples.constants Examples.sdl_platform
       (sdl.MouseWheelEvent 3 (-2))) sdl.no_resources
  = [IO (imgui.AddMouseWheelDelta (f32_of_Z 1) (f32_of_Z (-1)))]
  /\ f32_of_Z 1 <> f32_of_Z 3
  /\ f32_of_Z (-1) <> f32_of_Z (-2).
Proof. repeat split; vm_compute; discriminate. Qed.

(** C5, amended. For every scroll event the GLFW platform forwards
    the two offsets, converted from float64 to float32, to
    [AddMouseWheelDelta]; for every mouse-wheel event the SDL platform
    forwards the sign of each delta (1, 0 or -1), not the delta. *)
Theorem mouse_wheel_forwarding :
  (forall (platform : GLFW.t) (x y : float64) (r : glfw.Resources),
      Effect.trace (GLFW.mouseScrollChange platform x y) r
      = [IO (imgui.AddMouseWheelDelta (f32_of_f64 x) (f32_of_f64 y))])
  /\
  (forall (pkg : PackageConstants) (platform : SDL.t) (X Y : Z) (r : sdl.Resources),
      Effect.trace (SDL.processEvent pkg platform (sdl.MouseWheelEvent X Y)) r
      = [IO (imgui.AddMouseWheelDelta (f32_of_Z (Z.sgn X)) (f32_of_Z (Z.sgn Y)))]).
Proof.
  split.
  - reflexivity.
  - intros pkg platform X Y r. cbn.
    now rewrite !wheel_delta_sign.
Qed.

(** ** The stop flag of the SDL platform *)

Section ShouldStop.
Variable pkg : PackageConstants.

Lemma processEvent_keeps_shouldStop (platform : SDL.t) (event : sdl.Event)
    (r : sdl.Resources) :
  SDL.shouldStop platform = true ->
  SDL.shouldStop (Effect.value (SDL.processEvent pkg platform event) r) = true.
Proof.
  intros H. destruct event; try exact H; cbn.
  - reflexivity.
  - destruct (Button =? sdl.BUTTON_LEFT); [exact H|].
    destruct (Button =? sdl.BUTTON_RIGHT); [exact H|].
    destruct (Button =? sdl.BUTTON_MIDDLE); exact H.
Qed.

Lemma ProcessEvents_loop_keeps_shouldStop (queue : list sdl.Event) :
  forall (platform : SDL.t) (r : sdl.Resources),
    SDL.shouldStop platform = true ->
    SDL.shouldStop (Effect.value (SDL.ProcessEvents_loop pkg queue platform) r) = true.
Proof.
  induction queue as [|ev rest IH]; intros platform r H.
  - exact H.
  - cbn [SDL.ProcessEvents_loop]. rewrite EffectFacts.value_bind.
    destruct (Effect.value (SDL.lib sdl.PollEvent) r) as [ev'|]; [|exact H].
    rewrite EffectFacts.value_bind. apply IH.
    now apply processEvent_keeps_shouldStop.
Qed.

Lemma NewFrame_buttons_keeps_shouldStop (state : Z) (l : list (Z * Z)) :
  forall (platform : SDL.t) (r : sdl.Resources),
    SDL.shouldStop platform = true ->
    SDL.shouldStop (Effect.value (SDL.NewFrame_buttons state l platform) r) = true.
Proof.
  induction l as [|ib rest IH]; intros platform r H.
  - exact H.
  - cbn [SDL.NewFrame_buttons]. rewrite EffectFacts.value_bind. apply IH. exact H.
Qed.

Lemma Dispose_keeps_shouldStop (platform : SDL.t) (r : sdl.Resources) :
  SDL.shouldStop platform = true ->
  SDL.shouldStop (Effect.value (SDL.Dispose platform) r) = true.
Proof.
  intros H. unfold SDL.Dispose. destruct (SDL.window platform); exact H.
Qed.

(** No method of the platform clears the flag. *)
Lemma invoke_keeps_shouldStop (answers : sdl.Answers) (m : SDL.Method)
    (platform : SDL.t) (r : sdl.Resources) :
  SDL.shouldStop platform = true ->
  SDL.shouldStop (Effect.value (SDL.invoke pkg answers m platform) r) = true.
Proof.
  intros H. destruct m; try exact H.
  - now apply Dispose_keeps_shouldStop.
  - now apply ProcessEvents_loop_keeps_shouldStop.
Qed.

Lemma run_keeps_shouldStop (steps : list SDL.Step) :
  forall (platform : SDL.t) (r : sdl.Resources),
    SDL.shouldStop platform = true ->
    SDL.shouldStop (fst (SDL.run pkg steps platform r)) = true.
Proof.
  induction steps as [|st rest IH]; intros platform r H.
  - exact H.
  - cbn [SDL.run]. apply IH. now apply invoke_keeps_shouldStop.
Qed.

(** [processEvent] makes no call on SDL. *)
Lemma processEvent_final (platform : SDL.t) (event : sdl.Event) (r : sdl.Resources) :
  Effect.final (SDL.processEvent pkg platform event) r = r.
Proof.
  destruct event; try reflexivity. cbn.
  destruct (Button =? sdl.BUTTON_LEFT); [reflexivity|].
  destruct (Button =? sdl.BUTTON_RIGHT); [reflexivity|].
  destruct (Button =? sdl.BUTTON_MIDDLE); reflexivity.
Qed.

Lemma ProcessEvents_loop_sets_shouldStop (queue : list sdl.Event) :
  forall (platform : SDL.t) (r : sdl.Resources),
    sdl.events r = queue ->
    In sdl.QuitEvent queue ->
    SDL.shouldStop (Effect.value (SDL.ProcessEvents_loop pkg queue platform) r) = true.
Proof.
  induction queue as [|ev rest IH]; intros platform r Hq Hin.
  - destruct Hin.
  - cbn [SDL.ProcessEvents_loop]. rewrite EffectFacts.value_bind.
    assert (Hpoll : Effect.value (SDL.lib sdl.PollEvent) r = Some ev).
    { cbn. now rewrite Hq. }
    rewrite Hpoll, EffectFacts.value_bind.
    destruct Hin as [->|Hin].
    + apply ProcessEvents_loop_keeps_shouldStop. reflexivity.
    + apply IH; [|exact Hin].
      rewrite processEvent_final. cbn. now rewrite Hq.
Qed.

(** A pending QUIT event sets the flag when [ProcessEvents] drains
    the queue. *)
Lemma ProcessEvents_sets_shouldStop (platform : SDL.t) (r : sdl.Resources) :
  In sdl.QuitEvent (sdl.events r) ->
  SDL.shouldStop (Effect.value (SDL.ProcessEvents pkg platform) r) = true.
Proof.
  intros Hin. now apply (ProcessEvents_loop_sets_shouldStop (sdl.events r)).
Qed.

End ShouldStop.

(** C9. Once the SDL platform has processed a QUIT event,
    [ShouldStop] returns true after every later sequence of method
    calls, whatever events arrive and whatever SDL answers: no method
    resets the flag. *)
Theorem ShouldStop_stays_true_after_QUIT :
  forall (pkg : PackageConstants) (platform : SDL.t) (r r' : sdl.Resources)
         (steps : list SDL.Step),
    SDL.ShouldStop (Effect.value (SDL.processEvent pkg platform sdl.QuitEvent) r) = true
    /\
    SDL.ShouldStop
      (fst (SDL.run pkg steps
              (Effect.value (SDL.processEvent pkg platform sdl.QuitEvent) r) r')) = true.
Proof.
  intros pkg platform r r' steps. split.
  - reflexivity.
  - apply run_keeps_shouldStop. reflexivity.
Qed.

(** ** Construction *)

Ltac by_client_api clientAPI :=
  destruct (String.eqb_spec clientAPI "OpenGL2") as [->|?];
  [| destruct (String.eqb_spec clientAPI "OpenGL3") as [->|?] ].

Lemma NewSDL_outcome (pkg : PackageConstants) (answers : sdl.Answers)
    (io_ : imgui.IO) (clientAPI : SDL.SDLClientAPI) (r : sdl.Resources) :
  Outcome (sdl_errors answers)
    (clientAPI <> SDL.SDLClientAPIOpenGL2 /\ clientAPI <> SDL.SDLClientAPIOpenGL3)
    (Effect.value (SDL.NewSDL pkg answers io_ clientAPI) r).
Proof.
  destruct answers as [ie cw cc mc gs gd pf pc ms ct].
  unfold sdl_errors, SDL.NewSDL, SDL.SDLClientAPIOpenGL2, SDL.SDLClientAPIOpenGL3.
  cbn [sdl.Init_error sdl.CreateWindow_result sdl.GLCreateContext_result
       sdl.GLMakeCurrent_error].
  destruct ie as [e|].
  { apply LibraryFailure. now left. }
  destruct cw as [w|e]; cycle 1.
  { apply LibraryFailure. right. now left. }
  by_client_api clientAPI; cycle 2.
  { cbn. now apply Unsupported. }
  all: destruct cc as [c|e];
    [ destruct mc as [e|];
      [ apply LibraryFailure; cbn; tauto | apply Constructed ]
    | apply LibraryFailure; cbn; tauto ].
Qed.

Lemma NewGLFW_outcome (pkg : PackageConstants) (answers : glfw.Answers)
    (io_ : imgui.IO) (clientAPI : GLFW.GLFWClientAPI) (r : glfw.Resources) :
  Outcome (glfw_errors answers)
    (clientAPI <> GLFW.GLFWClientAPIOpenGL2 /\ clientAPI <> GLFW.GLFWClientAPIOpenGL3)
    (Effect.value (GLFW.NewGLFW pkg answers io_ clientAPI) r).
Proof.
  destruct answers as [ie cw].
  unfold glfw_errors, GLFW.NewGLFW, GLFW.GLFWClientAPIOpenGL2, GLFW.GLFWClientAPIOpenGL3.
  cbn [glfw.Init_error glfw.CreateWindow_result].
  destruct ie as [e|].
  { apply LibraryFailure. now left. }
  by_client_api clientAPI; cycle 2.
  { cbn. now apply Unsupported. }
  all: destruct cw as [w|e];
    [ apply Constructed | apply LibraryFailure; cbn; tauto ].
Qed.

(** [NewSDL] where every SDL call succeeds. *)
Example NewSDL_succeeds :
  Effect.value
    (SDL.NewSDL Examples.constants Examples.sdl_succeeds 0 SDL.SDLClientAPIOpenGL2)
    sdl.no_resources
  = (Some Examples.sdl_platform, None)
  /\
  Effect.trace
    (SDL.NewSDL Examples.constants Examples.sdl_succeeds 0 SDL.SDLClientAPIOpenGL2)
    sdl.no_resources
  = [ LockOSThread;
      Lib (sdl.CallInit sdl.INIT_VIDEO);
      Lib (sdl.CallCreateWindow "ImGui-Go SDL2+OpenGL2 example"
             sdl.WINDOWPOS_CENTERED sdl.WINDOWPOS_CENTERED 1280 720 sdl.WINDOW_OPENGL);
      Lib (sdl.CallGLSetAttribute sdl.GL_CONTEXT_MAJOR_VERSION 2);
      Lib (sdl.CallGLSetAttribute sdl.GL_CONTEXT_MINOR_VERSION 1);
      Lib (sdl.CallGLSetAttribute sdl.GL_DOUBLEBUFFER 1);
      Lib (sdl.CallGLSetAttribute sdl.GL_DEPTH_SIZE 24);
      Lib (sdl.CallGLSetAttribute sdl.GL_STENCIL_SIZE 8);
      Lib (sdl.CallGLCreateContext 1);
      Lib (sdl.CallGLMakeCurrent 1 7);
      Lib (sdl.CallGLSetSwapInterval 1) ].
Proof. split; reflexivity. Qed.

Ltac trace_ends :=
  repeat first [ apply EffectFacts.ends_with_refl | apply EffectFacts.ends_with_cons ].

(** C7, as stated, fails when making the context current fails: the
    window is destroyed and SDL is shut down, but the OpenGL context
    that was created (7) is still held, and no call deletes it. *)
Lemma NewSDL_keeps_the_context_when_make_current_fails :
  Effect.value
    (SDL.NewSDL Examples.constants Examples.sdl_make_current_fails 0
       SDL.SDLClientAPIOpenGL3) sdl.no_resources
  = (None, Some (Errorf "failed to set current OpenGL context: %w" (LibraryError 1)))
  /\
  sdl.glContexts
    (Effect.final
       (SDL.NewSDL Examples.constants Examples.sdl_make_current_fails 0
          SDL.SDLClientAPIOpenGL3) sdl.no_resources)
  = [7]
  /\
  existsb is_GLDeleteContext
    (Effect.trace
       (SDL.NewSDL Examples.constants Examples.sdl_make_current_fails 0
          SDL.SDLClientAPIOpenGL3) sdl.no_resources)
  = false.
Proof. repeat split. Qed.

(** C7, amended. Whenever [NewSDL] fails after SDL has been
    initialized (window creation fails, the client API is
    unsupported, context creation fails, or making the context
    current fails), the last calls before it returns destroy the
    created window, if there is one, and shut SDL down; afterwards
    SDL is not initialised and holds no window.  An OpenGL context
    that was created is not deleted: [NewSDL] never calls
    [GLDeleteContext]. *)
Theorem NewSDL_failure_releases_window_and_SDL :
  forall (pkg : PackageConstants) (answers : sdl.Answers) (io_ : imgui.IO)
         (clientAPI : SDL.SDLClientAPI) (r : sdl.Resources),
    sdl.Init_error answers = None ->
    fst (Effect.value (SDL.NewSDL pkg answers io_ clientAPI) r) = None ->
    ends_with (Effect.trace (SDL.NewSDL pkg answers io_ clientAPI) r)
              (sdl_cleanup answers)
    /\ sdl.initialized (Effect.final (SDL.NewSDL pkg answers io_ clientAPI) r) = false
    /\ sdl.windows (Effect.final (SDL.NewSDL pkg answers io_ clientAPI) r) = []
    /\ existsb is_GLDeleteContext
         (Effect.trace (SDL.NewSDL pkg answers io_ clientAPI) r) = false.
Proof.
  intros pkg answers io_ clientAPI r.
  destruct answers as [ie cw cc mc gs gd pf pc ms ct].
  unfold sdl_cleanup, SDL.NewSDL, SDL.SDLClientAPIOpenGL2, SDL.SDLClientAPIOpenGL3.
  cbn [sdl.Init_error sdl.CreateWindow_result sdl.GLCreateContext_result
       sdl.GLMakeCurrent_error].
  intros -> Hfail.
  destruct cw as [w|e]; cycle 1.
  { cbn. repeat split. trace_ends. }
  by_client_api clientAPI; cycle 2.
  { cbn. repeat split. trace_ends. }
  all: destruct cc as [c|e];
    [ destruct mc as [e|]; [| discriminate Hfail ] |];
    cbn; repeat split; trace_ends.
Qed.

(** The theorem at an SDL that fails to make the context current. *)
Lemma NewSDL_failure_releases_window_and_SDL_witness :
  ends_with
    (Effect.trace
       (SDL.NewSDL Examples.constants Examples.sdl_make_current_fails 0
          SDL.SDLClientAPIOpenGL3) sdl.no_resources)
    [Lib (sdl.CallDestroy 1); Lib sdl.CallQuit]
  /\ sdl.initialized
       (Effect.final
          (SDL.NewSDL Examples.constants Examples.sdl_make_current_fails 0
             SDL.SDLClientAPIOpenGL3) sdl.no_resources) = false
  /\ sdl.windows
       (Effect.final
          (SDL.NewSDL Examples.constants Examples.sdl_make_current_fails 0
             SDL.SDLClientAPIOpenGL3) sdl.no_resources) = []
  /\ existsb is_GLDeleteContext
       (Effect.trace
          (SDL.NewSDL Examples.constants Examples.sdl_make_current_fails 0
             SDL.SDLClientAPIOpenGL3) sdl.no_resources) = false.
Proof.
  apply (NewSDL_failure_releases_window_and_SDL
           Examples.constants Examples.sdl_make_current_fails 0
           SDL.SDLClientAPIOpenGL3 sdl.no_resources);
    reflexivity.
Defined.

(** ** Disposal of the SDL platform *)

Lemma SDL_Dispose_clears_window (platform : SDL.t) (r : sdl.Resources) :
  SDL.window (Effect.value (SDL.Dispose platform) r) = None.
Proof. unfold SDL.Dispose. now destruct (SDL.window platform) eqn:E. Qed.

Lemma SDL_Dispose_destroys_window (platform : SDL.t) (r : sdl.Resources) (w : sdl.Window) :
  SDL.window platform = Some w ->
  Effect.trace (SDL.Dispose platform) r = [Lib (sdl.CallDestroy w); Lib sdl.CallQuit].
Proof. intros H. unfold SDL.Dispose. now rewrite H. Qed.

(** Without a window, [Dispose] calls [sdl.Quit] and nothing else,
    and leaves the platform as it is. *)
Lemma SDL_Dispose_without_window (platform : SDL.t) (r : sdl.Resources) :
  SDL.window platform = None ->
  Effect.value (SDL.Dispose platform) r = platform /\
  Effect.trace (SDL.Dispose platform) r = [Lib sdl.CallQuit].
Proof. intros H. unfold SDL.Dispose. now rewrite H. Qed.

End PlatformFacts.

(* ================================================================== *)
(** * The renderer *)
(* ================================================================== *)

Module RendererFacts.

Import Go renderers.
Local Open Scope Z_scope.

(** ** Construction *)

Lemma NewOpenGL3_outcome (driver : gl.Answers) (imgui_ : imgui.Answers)
    (vert frag : string) (io_ : imgui.IO) (s : gl.State) :
  Outcome [gl.Init_error driver] False
    (Effect.value (OpenGL3.NewOpenGL3 driver imgui_ vert frag io_) s).
Proof.
  destruct driver as [ie ul al]. unfold OpenGL3.NewOpenGL3.
  cbn [gl.Init_error].
  destruct ie as [e|].
  - apply LibraryFailure. now left.
  - apply Constructed.
Qed.

(** ** Disposal *)

(** The calls of [invalidateDeviceObjects], handle by handle. *)
Lemma invalidateDeviceObjects_trace (r : OpenGL3.t) (s : gl.State) :
  Effect.trace (OpenGL3.invalidateDeviceObjects r) s =
  (if OpenGL3.vboHandle r =? 0 then []
   else [Gl (gl.CallDeleteBuffers 1 (OpenGL3.vboHandle r))]) ++
  (if OpenGL3.elementsHandle r =? 0 then []
   else [Gl (gl.CallDeleteBuffers 1 (OpenGL3.elementsHandle r))]) ++
  (if (OpenGL3.shaderHandle r =? 0) || (OpenGL3.vertHandle r =? 0) then []
   else [Gl (gl.CallDetachShader (OpenGL3.shaderHandle r) (OpenGL3.vertHandle r))]) ++
  (if OpenGL3.vertHandle r =? 0 then []
   else [Gl (gl.CallDeleteShader (OpenGL3.vertHandle r))]) ++
  (if (OpenGL3.shaderHandle r =? 0) || (OpenGL3.fragHandle r =? 0) then []
   else [Gl (gl.CallDetachShader (OpenGL3.shaderHandle r) (OpenGL3.fragHandle r))]) ++
  (if OpenGL3.fragHandle r =? 0 then []
   else [Gl (gl.CallDeleteShader (OpenGL3.fragHandle r))]) ++
  (if OpenGL3.shaderHandle r =? 0 then []
   else [Gl (gl.CallDeleteProgram (OpenGL3.shaderHandle r))]) ++
  (if OpenGL3.fontTexture r =? 0 then []
   else [Gl (gl.CallDeleteTextures 1 (OpenGL3.fontTexture r));
         Imgui imgui.CallCurrentIO; Imgui (imgui.CallSetTextureID 0)]).
Proof.
  destruct r as [io_ ver font shader vert frag lt lp lpos luv lcol vbo elements].
  unfold OpenGL3.invalidateDeviceObjects.
  cbn [OpenGL3.vboHandle OpenGL3.elementsHandle OpenGL3.shaderHandle
       OpenGL3.vertHandle OpenGL3.fragHandle OpenGL3.fontTexture
       OpenGL3.set_vboHandle OpenGL3.set_elementsHandle OpenGL3.set_shaderHandle
       OpenGL3.set_vertHandle OpenGL3.set_fragHandle OpenGL3.set_fontTexture
       OpenGL3.with_handles].
  destruct (vbo =? 0), (elements =? 0), (shader =? 0), (vert =? 0), (frag =? 0),
    (font =? 0); reflexivity.
Qed.

(** After [invalidateDeviceObjects] the six handles are zero and
    nothing else of the renderer has changed. *)
Lemma invalidateDeviceObjects_value (r : OpenGL3.t) (s : gl.State) :
  Effect.value (OpenGL3.invalidateDeviceObjects r) s = OpenGL3.with_handles r 0 0 0 0 0 0.
Proof.
  destruct r as [io_ ver font shader vert frag lt lp lpos luv lcol vbo elements].
  unfold OpenGL3.invalidateDeviceObjects.
  cbn [OpenGL3.vboHandle OpenGL3.elementsHandle OpenGL3.shaderHandle
       OpenGL3.vertHandle OpenGL3.fragHandle OpenGL3.fontTexture
       OpenGL3.set_vboHandle OpenGL3.set_elementsHandle OpenGL3.set_shaderHandle
       OpenGL3.set_vertHandle OpenGL3.set_fragHandle OpenGL3.set_fontTexture
       OpenGL3.with_handles].
  destruct (Z.eqb_spec font 0) as [->|Hf]; reflexivity.
Qed.

(** With all handles zero, [invalidateDeviceObjects] does nothing. *)
Lemma invalidateDeviceObjects_released (r : OpenGL3.t) (s : gl.State) :
  OpenGL3.invalidateDeviceObjects (OpenGL3.with_handles r 0 0 0 0 0 0) s
  = ((OpenGL3.with_handles r 0 0 0 0 0 0, s), []).
Proof. reflexivity. Qed.

(** ** The draw loop *)

Lemma scale_command_fits (scale : imgui.Vec2) (cmd : imgui.DrawCommand) :
  fits cmd -> fits (imgui.scale_command scale cmd).
Proof. intros H. exact H. Qed.

Lemma ScaleClipRects_fits (scale : imgui.Vec2) (drawData : imgui.DrawData) :
  draw_data_fits drawData -> draw_data_fits (imgui.ScaleClipRects scale drawData).
Proof.
  intros H l cmd Hl Hc. cbn in Hl.
  apply in_map_iff in Hl as [l0 [<- Hl0]]. cbn in Hc.
  apply in_map_iff in Hc as [c0 [<- Hc0]].
  apply scale_command_fits. exact (H l0 c0 Hl0 Hc0).
Qed.

Section DrawLoop.
Variable renderer : OpenGL3.t.
Variable fbHeight : float32.
Variables drawType indexSize : Z.
Hypothesis drawType_fits : uint32 drawType = drawType.
Hypothesis indexSize_fits : 0 <= indexSize < 2 ^ 32.

(** One command issues what is expected of it, in any context. *)
Lemma Render_command_trace (l : imgui.DrawList) (cmd : imgui.DrawCommand) (s : gl.State) :
  fits cmd ->
  Effect.trace (OpenGL3.Render_command fbHeight drawType indexSize l cmd) s
  = expected_command_calls fbHeight drawType indexSize l cmd.
Proof.
  intros Hfit. unfold OpenGL3.Render_command, expected_command_calls.
  destruct (imgui.HasUserCallback cmd) eqn:Hcb; [reflexivity|].
  destruct Hfit as [Hcb'|(Hcount & Hidx & Hvtx & Htex)]; [congruence|].
  cbn. rewrite drawType_fits.
  rewrite (GoFacts.uint32_id _ Htex).
  rewrite (GoFacts.int32_id (imgui.ElementCount cmd)) by (unfold is_int32; lia).
  rewrite (GoFacts.int32_id (imgui.VertexOffset cmd)) by (unfold is_int32; lia).
  unfold OpenGL3.uintptr. rewrite Z.mod_small by nia.
  reflexivity.
Qed.

Lemma Render_commands_trace (l : imgui.DrawList) (cmds : list imgui.DrawCommand) :
  (forall cmd, In cmd cmds -> fits cmd) ->
  forall s,
    Effect.trace
      (Effect.for_range cmds (OpenGL3.Render_command fbHeight drawType indexSize l)) s
    = flat_map (expected_command_calls fbHeight drawType indexSize l) cmds.
Proof.
  induction cmds as [|cmd rest IH]; intros Hfit s.
  - reflexivity.
  - cbn [Effect.for_range flat_map]. rewrite EffectFacts.trace_bind.
    rewrite Render_command_trace by (apply Hfit; now left).
    rewrite IH by (intros c Hc; apply Hfit; now right).
    reflexivity.
Qed.

Lemma Render_list_trace (l : imgui.DrawList) (s : gl.State) :
  (forall cmd, In cmd (imgui.Commands l) -> fits cmd) ->
  Effect.trace (OpenGL3.Render_list renderer fbHeight drawType indexSize l) s
  = expected_list_calls renderer fbHeight drawType indexSize l.
Proof.
  intros Hfit. unfold OpenGL3.Render_list, expected_list_calls.
  rewrite !EffectFacts.trace_bind.
  rewrite Render_commands_trace by exact Hfit.
  reflexivity.
Qed.

Lemma Render_lists_trace (lists : list imgui.DrawList) :
  (forall l cmd, In l lists -> In cmd (imgui.Commands l) -> fits cmd) ->
  forall s,
    Effect.trace
      (Effect.for_range lists
         (OpenGL3.Render_list renderer fbHeight drawType indexSize)) s
    = flat_map (expected_list_calls renderer fbHeight drawType indexSize) lists.
Proof.
  induction lists as [|l rest IH]; intros Hfit s.
  - reflexivity.
  - cbn [Effect.for_range flat_map]. rewrite EffectFacts.trace_bind.
    rewrite Render_list_trace by (intros c Hc; apply (Hfit l c); [now left | exact Hc]).
    rewrite IH by (intros l' c Hl Hc; apply (Hfit l' c); [now right | exact Hc]).
    reflexivity.
Qed.
End DrawLoop.

(** ** Calls around the draw loop *)

Lemma brackets_bind {A B : Type} (m : OpenGL3.Eff A) (f : A -> OpenGL3.Eff B)
    (s : gl.State) (middle : list Call) :
  existsb is_draw_or_callback (Effect.trace m s) = false ->
  brackets (Effect.trace (f (Effect.value m s)) (Effect.final m s)) middle ->
  brackets (Effect.trace (Effect.bind m f) s) middle.
Proof.
  intros Hm (setup & restore & E & Hs & Hr).
  exists (Effect.trace m s ++ setup), restore.
  rewrite EffectFacts.trace_bind, E, <- app_assoc.
  repeat split; [| exact Hr].
  rewrite existsb_app, Hm, Hs. reflexivity.
Qed.

Lemma brackets_loop {B : Type} (m : OpenGL3.Eff unit) (f : unit -> OpenGL3.Eff B)
    (s : gl.State) (middle : list Call) :
  Effect.trace m s = middle ->
  existsb is_draw_or_callback
    (Effect.trace (f (Effect.value m s)) (Effect.final m s)) = false ->
  brackets (Effect.trace (Effect.bind m f) s) middle.
Proof.
  intros Hm Hf. exists [], (Effect.trace (f (Effect.value m s)) (Effect.final m s)).
  rewrite EffectFacts.trace_bind, Hm. repeat split. exact Hf.
Qed.

Lemma quiet_bind {A B : Type} (m : OpenGL3.Eff A) (f : A -> OpenGL3.Eff B) (s : gl.State) :
  existsb is_draw_or_callback (Effect.trace m s) = false ->
  existsb is_draw_or_callback
    (Effect.trace (f (Effect.value m s)) (Effect.final m s)) = false ->
  existsb is_draw_or_callback (Effect.trace (Effect.bind m f) s) = false.
Proof.
  intros Hm Hf. rewrite EffectFacts.trace_bind, existsb_app, Hm, Hf. reflexivity.
Qed.

(** A conditional both of whose branches are one call that is
    neither a draw nor a callback. *)
Ltac quiet_step :=
  first [ reflexivity
        | match goal with
          | |- context [if ?b then _ else _] => destruct b; reflexivity
          end ].

Ltac quiet := repeat (apply quiet_bind; [quiet_step|]); quiet_step.

(** C6. For every draw data passed to [Render] with a framebuffer of
    strictly positive width and height, the calls [Render] issues are
    the translation of the command lists, in order, between calls
    that neither draw nor invoke a callback: for each list its
    buffers are uploaded, then each of its commands in order either
    invokes its user callback and draws nothing, or binds its
    texture, sets its scissor rectangle and issues exactly one
    [DrawElements] call with its element count, its index offset
    times the index size, and its vertex offset as base vertex. *)
Theorem Render_translates_commands_in_order :
  forall (imgui_ : imgui.Answers) (renderer : OpenGL3.t)
         (displaySize framebufferSize : float32 * float32)
         (drawData : imgui.DrawData) (s : gl.State),
    f32_ltb f32_zero (fst framebufferSize) = true ->
    f32_ltb f32_zero (snd framebufferSize) = true ->
    index_size_fits imgui_ ->
    draw_data_fits drawData ->
    brackets
      (Effect.trace
         (OpenGL3.Render imgui_ renderer displaySize framebufferSize drawData) s)
      (flat_map
         (expected_list_calls renderer (snd framebufferSize)
            (if imgui.IndexBufferLayout imgui_ =? 4
             then gl.UNSIGNED_INT else gl.UNSIGNED_SHORT)
            (imgui.IndexBufferLayout imgui_))
         (imgui.CommandLists
            (imgui.ScaleClipRects
               {| imgui.v2X := f32_div (fst framebufferSize) (fst displaySize);
                  imgui.v2Y := f32_div (snd framebufferSize) (snd displaySize) |}
               drawData))).
Proof.
  intros imgui_ renderer displaySize framebufferSize drawData s Hw Hh Hidx Hfit.
  unfold OpenGL3.Render.
  rewrite (GoFacts.positive_not_le_zero _ Hw), (GoFacts.positive_not_le_zero _ Hh).
  cbv beta iota zeta delta [orb].
  destruct (imgui.VertexBufferLayout imgui_) as [[[vs vp] vu] vc].
  repeat (apply brackets_bind; [reflexivity|]; cbv beta).
  apply brackets_loop.
  - apply Render_lists_trace.
    + now destruct (imgui.IndexBufferLayout imgui_ =? 4).
    + exact Hidx.
    + apply ScaleClipRects_fits. exact Hfit.
  - quiet.
Qed.

(** [Render] on draw data of one draw command issues one draw call. *)
Example Render_draws_once :
  filter is_draw_or_callback
    (Effect.trace
       (OpenGL3.Render Examples.imgui_answers Examples.renderer
          Examples.size_800_600 Examples.size_800_600 Examples.draw_data)
       Examples.context)
  = [ Gl (gl.CallDrawElementsBaseVertexWithOffset gl.TRIANGLES 6 gl.UNSIGNED_SHORT 0 0) ].
Proof. vm_compute. reflexivity. Qed.

(** The scissor rectangle of a command whose clip rectangle is far
    outside the range of int32, with a framebuffer 600 high: the
    coordinates that int32 cannot represent convert to [-2^31], the
    width of 2e9 converts exactly, and the subtraction for the lower
    edge wraps. *)
Example Scissor_of_a_far_clip_rectangle :
  Effect.trace
    (OpenGL3.Render_command (f32_of_Z 600) gl.UNSIGNED_SHORT 2
       {| imgui.VertexBuffer := (4096, 80); imgui.IndexBuffer := (8192, 12);
          imgui.Commands := [FrameExamples.far_command] |}
       FrameExamples.far_command)
    Examples.context
  = [ Gl (gl.CallBindTexture gl.TEXTURE_2D 7);
      Gl (gl.CallScissor (- 2 ^ 31) (600 - 2 ^ 31) 2000000000 (- 2 ^ 31));
      Gl (gl.CallDrawElementsBaseVertexWithOffset gl.TRIANGLES 6 gl.UNSIGNED_SHORT 0 0) ].
Proof. vm_compute. reflexivity. Qed.

Lemma draw_data_fits_example : draw_data_fits Examples.draw_data.
Proof.
  intros l cmd Hl Hc.
  destruct Hl as [<-|[]]. destruct Hc as [<-|[]].
  right. unfold is_uint32. cbn. lia.
Qed.

(** The theorem at a framebuffer of 800 by 600 and draw data of one
    list with one draw command. *)
Lemma Render_translates_commands_in_order_witness :
  brackets
    (Effect.trace
       (OpenGL3.Render Examples.imgui_answers Examples.renderer
          Examples.size_800_600 Examples.size_800_600 Examples.draw_data)
       Examples.context)
    (flat_map
       (expected_list_calls Examples.renderer (snd Examples.size_800_600)
          gl.UNSIGNED_SHORT 2)
       (imgui.CommandLists
          (imgui.ScaleClipRects
             {| imgui.v2X := f32_div (f32_of_Z 800) (f32_of_Z 800);
                imgui.v2Y := f32_div (f32_of_Z 600) (f32_of_Z 600) |}
             Examples.draw_data))).
Proof.
  apply (Render_translates_commands_in_order Examples.imgui_answers Examples.renderer
           Examples.size_800_600 Examples.size_800_600 Examples.draw_data
           Examples.context).
  - reflexivity.
  - reflexivity.
  - unfold index_size_fits. cbn. lia.
  - exact draw_data_fits_example.
Defined.

End RendererFacts.

(* ================================================================== *)
(** * Saving and restoring the OpenGL context *)
(* ================================================================== *)

Module ContextFacts.

Import Go renderers.
Local Open Scope Z_scope.

(** ** The state as a store *)

Lemma Cap_code_inj (a b : gl.Cap) : gl.Cap_code a = gl.Cap_code b -> a = b.
Proof. destruct a, b; simpl; intros H; try reflexivity; discriminate H. Qed.

Lemma code_inj (a b : gl.Var) : gl.code a = gl.code b -> a = b.
Proof.
  destruct a, b; simpl; intros H; try reflexivity; try discriminate H;
    injection H as H; try (apply Cap_code_inj in H); now subst.
Qed.

Lemma Var_eqb_refl (v : gl.Var) : gl.Var_eqb v v = true.
Proof. unfold gl.Var_eqb. now rewrite !Z.eqb_refl. Qed.

Lemma Var_eqb_eq (a b : gl.Var) : gl.Var_eqb a b = true -> a = b.
Proof.
  unfold gl.Var_eqb. intros H. apply andb_true_iff in H as [H1 H2].
  apply Z.eqb_eq in H1, H2. apply code_inj.
  destruct (gl.code a), (gl.code b). simpl in *. now subst.
Qed.

Lemma upd_same (s : gl.State) (k : gl.Var) (x : Z) : gl.upd s k x k = x.
Proof. unfold gl.upd. now rewrite Var_eqb_refl. Qed.

Lemma upd_other (s : gl.State) (k : gl.Var) (x : Z) (v : gl.Var) :
  gl.Var_eqb v k = false -> gl.upd s k x v = s v.
Proof. unfold gl.upd. now intros ->. Qed.

(** Looking a variable up through a chain of updates. *)
Ltac lookup :=
  repeat match goal with
  | |- context [gl.upd ?st ?k ?x ?v] =>
      first [ rewrite (upd_same st k x)
            | rewrite (upd_other st k x v) by reflexivity ]
  end.

Lemma wf_upd (s : gl.State) (k : gl.Var) (x : Z) :
  gl.wf s -> gl.in_range k x -> gl.wf (gl.upd s k x).
Proof.
  intros Hs Hx v. unfold gl.upd.
  destruct (gl.Var_eqb v k) eqn:E.
  - apply Var_eqb_eq in E. now subst.
  - apply Hs.
Qed.

Lemma wf_initial (w h : Z) : is_int32 w -> is_int32 h -> gl.wf (gl.initial w h).
Proof.
  intros Hw Hh v. destruct v; simpl; try assumption;
    unfold is_uint32, is_int32, gl.TEXTURE0, gl.FILL, gl.FUNC_ADD; lia.
Qed.

Lemma wf_context : gl.wf Examples.context.
Proof.
  apply wf_upd.
  - apply wf_initial; unfold is_int32; lia.
  - unfold gl.in_range, is_uint32. lia.
Qed.

(** ** The draw loop and the active texture unit *)

Lemma final_enable_if (b : bool) (c : gl.Cap) (s : gl.State) :
  Effect.final (if b then OpenGL3.gl_ (gl.Enable c) else OpenGL3.gl_ (gl.Disable c)) s
  = gl.upd s (gl.Enabled c) (if b then 1 else 0).
Proof. now destruct b. Qed.

Lemma DeleteVertexArrays_keeps_active_texture (n array : Z) (s : gl.State) :
  Effect.final (OpenGL3.gl_ (gl.DeleteVertexArrays n array)) s gl.ActiveTexture
  = s gl.ActiveTexture.
Proof. cbn. destruct (s gl.VertexArrayBinding =? array); reflexivity. Qed.

Section DrawLoop.
Variable renderer : OpenGL3.t.
Variable fbHeight : float32.
Variables drawType indexSize : Z.

Lemma Render_command_keeps_active_texture
    (l : imgui.DrawList) (cmd : imgui.DrawCommand) (s : gl.State) :
  (forall callback, imgui.UserCallback cmd = Some callback ->
                    forall s, callback s gl.ActiveTexture = s gl.ActiveTexture) ->
  Effect.final (OpenGL3.Render_command fbHeight drawType indexSize l cmd) s
    gl.ActiveTexture
  = s gl.ActiveTexture.
Proof.
  intros Hcb. unfold OpenGL3.Render_command, imgui.HasUserCallback.
  destruct (imgui.UserCallback cmd) as [callback|] eqn:E.
  - cbn. rewrite E. now apply Hcb.
  - reflexivity.
Qed.

Lemma Render_commands_keep_active_texture
    (l : imgui.DrawList) (cmds : list imgui.DrawCommand) :
  (forall cmd callback,
      In cmd cmds -> imgui.UserCallback cmd = Some callback ->
      forall s, callback s gl.ActiveTexture = s gl.ActiveTexture) ->
  forall s,
    Effect.final
      (Effect.for_range cmds (OpenGL3.Render_command fbHeight drawType indexSize l)) s
      gl.ActiveTexture
    = s gl.ActiveTexture.
Proof.
  induction cmds as [|cmd rest IH]; intros Hcb s.
  - reflexivity.
  - cbn [Effect.for_range]. rewrite EffectFacts.final_bind.
    rewrite IH by (intros c cb Hc; apply (Hcb c cb); now right).
    apply Render_command_keeps_active_texture.
    intros cb. apply (Hcb cmd cb). now left.
Qed.

Lemma Render_list_keeps_active_texture (l : imgui.DrawList) (s : gl.State) :
  (forall cmd callback,
      In cmd (imgui.Commands l) -> imgui.UserCallback cmd = Some callback ->
      forall s, callback s gl.ActiveTexture = s gl.ActiveTexture) ->
  Effect.final (OpenGL3.Render_list renderer fbHeight drawType indexSize l) s
    gl.ActiveTexture
  = s gl.ActiveTexture.
Proof.
  intros Hcb. unfold OpenGL3.Render_list.
  repeat (rewrite EffectFacts.final_bind; cbv beta).
  rewrite Render_commands_keep_active_texture by exact Hcb.
  reflexivity.
Qed.

Lemma Render_lists_keep_active_texture (lists : list imgui.DrawList) :
  (forall l cmd callback,
      In l lists -> In cmd (imgui.Commands l) ->
      imgui.UserCallback cmd = Some callback ->
      forall s, callback s gl.ActiveTexture = s gl.ActiveTexture) ->
  forall s,
    Effect.final
      (Effect.for_range lists
         (OpenGL3.Render_list renderer fbHeight drawType indexSize)) s
      gl.ActiveTexture
    = s gl.ActiveTexture.
Proof.
  induction lists as [|l rest IH]; intros Hcb s.
  - reflexivity.
  - cbn [Effect.for_range]. rewrite EffectFacts.final_bind.
    rewrite IH by (intros l' c cb Hl; apply (Hcb l' c cb); now right).
    apply Render_list_keeps_active_texture.
    intros c cb. apply (Hcb l c cb). now left.
Qed.
End DrawLoop.

Lemma ScaleClipRects_keeps_callbacks (scale : imgui.Vec2) (drawData : imgui.DrawData) :
  callbacks_keep_active_texture drawData ->
  callbacks_keep_active_texture (imgui.ScaleClipRects scale drawData).
Proof.
  intros H l cmd cb Hl Hc Hcb. cbn in Hl.
  apply in_map_iff in Hl as [l0 [<- Hl0]]. cbn in Hc.
  apply in_map_iff in Hc as [c0 [<- Hc0]].
  exact (H l0 c0 cb Hl0 Hc0 Hcb).
Qed.

(** ** [Render] *)



Lemma draw_data_without_callbacks :
  callbacks_keep_active_texture Examples.draw_data.
Proof.
  intros l cmd cb Hl Hc Hcb.
  destruct Hl as [<-|[]]. destruct Hc as [<-|[]]. discriminate Hcb.
Qed.


End ContextFacts.

(* ================================================================== *)
(** * Construction and disposal *)
(* ================================================================== *)

Module LifecycleFacts.

Import Go platforms renderers.
Local Open Scope string_scope.
Local Open Scope list_scope.
Local Open Scope Z_scope.

(** C3, as stated, fails for an unsupported client API: every SDL
    call succeeds, and [NewSDL] returns the sentinel
    [ErrUnsupportedClientAPI], which wraps no error. *)
Lemma NewSDL_returns_the_sentinel_unwrapped :
  Effect.value
    (SDL.NewSDL Examples.constants Examples.sdl_succeeds 0 "Vulkan") sdl.no_resources
  = (None, Some ErrUnsupportedClientAPI)
  /\ Unwrap ErrUnsupportedClientAPI = None
  /\ sdl_errors Examples.sdl_succeeds = [None; None; None; None].
Proof. repeat split. Qed.

(** C3, amended. [NewSDL], [NewGLFW] and [NewOpenGL3] return either
    an object and a nil error, or a nil object and an error; they
    never return an object together with an error.  When a library
    call fails, the error returned wraps the error of that call
    inside the message of that call: for [NewSDL] "failed to
    initialize SDL2", "failed to create window", "failed to create
    OpenGL context" or "failed to set current OpenGL context"; for
    [NewGLFW] "failed to initialize glfw" or "failed to create
    window"; for [NewOpenGL3] "failed to initialize OpenGL".  The
    exception: [NewSDL] and [NewGLFW], given a client API that is
    neither OpenGL2 nor OpenGL3, return the sentinel
    [ErrUnsupportedClientAPI] as it is, which wraps nothing;
    [NewSDL] does so after the window was created, [NewGLFW] as soon
    as GLFW is initialised.  When every call succeeds and the client
    API is supported, the object is returned with a nil error. *)
Theorem constructors_return_object_or_error :
  (forall (pkg : PackageConstants) (answers : sdl.Answers) (io_ : imgui.IO)
          (clientAPI : SDL.SDLClientAPI) (r : sdl.Resources),
      Observe.object_or_error (Effect.value (SDL.NewSDL pkg answers io_ clientAPI) r)
      /\ (forall e,
            sdl.Init_error answers = Some e ->
            Effect.value (SDL.NewSDL pkg answers io_ clientAPI) r
            = (None, Some (Errorf "failed to initialize SDL2: %w" e)))
      /\ (forall e,
            sdl.Init_error answers = None ->
            sdl.CreateWindow_result answers = inr e ->
            Effect.value (SDL.NewSDL pkg answers io_ clientAPI) r
            = (None, Some (Errorf "failed to create window: %w" e)))
      /\ (forall w,
            sdl.Init_error answers = None ->
            sdl.CreateWindow_result answers = inl w ->
            ~ Observe.supported clientAPI ->
            Effect.value (SDL.NewSDL pkg answers io_ clientAPI) r
            = (None, Some ErrUnsupportedClientAPI))
      /\ (forall w e,
            sdl.Init_error answers = None ->
            sdl.CreateWindow_result answers = inl w ->
            Observe.supported clientAPI ->
            sdl.GLCreateContext_result answers = inr e ->
            Effect.value (SDL.NewSDL pkg answers io_ clientAPI) r
            = (None, Some (Errorf "failed to create OpenGL context: %w" e)))
      /\ (forall w c e,
            sdl.Init_error answers = None ->
            sdl.CreateWindow_result answers = inl w ->
            Observe.supported clientAPI ->
            sdl.GLCreateContext_result answers = inl c ->
            sdl.GLMakeCurrent_error answers = Some e ->
            Effect.value (SDL.NewSDL pkg answers io_ clientAPI) r
            = (None, Some (Errorf "failed to set current OpenGL context: %w" e)))
      /\ (forall w c,
            sdl.Init_error answers = None ->
            sdl.CreateWindow_result answers = inl w ->
            Observe.supported clientAPI ->
            sdl.GLCreateContext_result answers = inl c ->
            sdl.GLMakeCurrent_error answers = None ->
            Effect.value (SDL.NewSDL pkg answers io_ clientAPI) r
            = (Some {| SDL.imguiIO := io_; SDL.window := Some w;
                       SDL.shouldStop := false; SDL.time := 0;
                       SDL.buttonsDown := fun _ => false |}, None)))
  /\
  (forall (pkg : PackageConstants) (answers : glfw.Answers) (io_ : imgui.IO)
          (clientAPI : GLFW.GLFWClientAPI) (r : glfw.Resources),
      Observe.object_or_error (Effect.value (GLFW.NewGLFW pkg answers io_ clientAPI) r)
      /\ (forall e,
            glfw.Init_error answers = Some e ->
            Effect.value (GLFW.NewGLFW pkg answers io_ clientAPI) r
            = (None, Some (Errorf "failed to initialize glfw: %w" e)))
      /\ (glfw.Init_error answers = None ->
          ~ Observe.supported clientAPI ->
          Effect.value (GLFW.NewGLFW pkg answers io_ clientAPI) r
          = (None, Some ErrUnsupportedClientAPI))
      /\ (forall e,
            glfw.Init_error answers = None ->
            Observe.supported clientAPI ->
            glfw.CreateWindow_result answers = inr e ->
            Effect.value (GLFW.NewGLFW pkg answers io_ clientAPI) r
            = (None, Some (Errorf "failed to create window: %w" e)))
      /\ (forall w,
            glfw.Init_error answers = None ->
            Observe.supported clientAPI ->
            glfw.CreateWindow_result answers = inl w ->
            Effect.value (GLFW.NewGLFW pkg answers io_ clientAPI) r
            = (Some {| GLFW.imguiIO := io_; GLFW.window := Some w;
                       GLFW.time := S754_zero false;
                       GLFW.mouseJustPressed := fun _ => false |}, None)))
  /\
  (forall (driver : gl.Answers) (imgui_ : imgui.Answers) (vert frag : string)
          (io_ : imgui.IO) (s : gl.State),
      Observe.object_or_error
        (Effect.value (OpenGL3.NewOpenGL3 driver imgui_ vert frag io_) s)
      /\ (forall e,
            gl.Init_error driver = Some e ->
            Effect.value (OpenGL3.NewOpenGL3 driver imgui_ vert frag io_) s
            = (None, Some (Errorf "failed to initialize OpenGL: %w" e)))
      /\ (gl.Init_error driver = None ->
          exists renderer,
            Effect.value (OpenGL3.NewOpenGL3 driver imgui_ vert frag io_) s
            = (Some renderer, None)))
  /\
  (forall (msg : string) (e : error), Unwrap (Errorf msg e) = Some e)
  /\ Unwrap ErrUnsupportedClientAPI = None.
Proof.
  split; [|split; [|split; [|split; reflexivity]]].
  - intros pkg answers io_ clientAPI r.
    destruct answers as [ie cw cc mc gs gd pf pc ms ct].
    unfold SDL.NewSDL, SDL.SDLClientAPIOpenGL2, SDL.SDLClientAPIOpenGL3,
      Observe.supported.
    cbn [sdl.Init_error sdl.CreateWindow_result sdl.GLCreateContext_result
         sdl.GLMakeCurrent_error].
    destruct ie as [e0|].
    { repeat split; try discriminate. now intros e [= ->]. }
    destruct cw as [w0|e0]; cycle 1.
    { repeat split; try discriminate. now intros e _ [= ->]. }
    PlatformFacts.by_client_api clientAPI; cycle 2.
    { cbn. repeat split; try reflexivity; try discriminate; intros; tauto. }
    all: destruct cc as [c0|e0];
      [ destruct mc as [e0|] |];
      cbn; repeat split; try discriminate; try tauto;
      intros; repeat match goal with
                     | H : inl _ = inl _ |- _ => injection H as ->
                     | H : inr _ = inr _ |- _ => injection H as ->
                     | H : Some _ = Some _ |- _ => injection H as ->
                     end; try reflexivity; try discriminate; tauto.
  - intros pkg answers io_ clientAPI r.
    destruct answers as [ie cw].
    unfold GLFW.NewGLFW, GLFW.GLFWClientAPIOpenGL2, GLFW.GLFWClientAPIOpenGL3,
      Observe.supported.
    cbn [glfw.Init_error glfw.CreateWindow_result].
    destruct ie as [e0|].
    { repeat split; try discriminate. now intros e [= ->]. }
    PlatformFacts.by_client_api clientAPI; cycle 2.
    { cbn. repeat split; try reflexivity; try discriminate; intros; tauto. }
    all: destruct cw as [w0|e0];
      cbn; repeat split; try discriminate; try tauto;
      intros; repeat match goal with
                     | H : inl _ = inl _ |- _ => injection H as ->
                     | H : inr _ = inr _ |- _ => injection H as ->
                     end; try reflexivity; try discriminate; tauto.
  - intros driver imgui_ vert frag io_ s.
    destruct driver as [ie ul al]. unfold OpenGL3.NewOpenGL3.
    cbn [gl.Init_error].
    destruct ie as [e0|].
    + repeat split; try discriminate. now intros e [= ->].
    + repeat split; try discriminate. intros _. eexists. reflexivity.
Qed.

(** The theorem at an SDL that fails to make the context current, at
    a GLFW that fails to create the window, and at a loader that
    fails to initialise. *)
Lemma constructors_return_object_or_error_witness :
  Effect.value
    (SDL.NewSDL Examples.constants Examples.sdl_make_current_fails 0
       SDL.SDLClientAPIOpenGL3) sdl.no_resources
  = (None, Some (Errorf "failed to set current OpenGL context: %w" (LibraryError 1)))
  /\
  Effect.value
    (GLFW.NewGLFW Examples.constants FrameExamples.glfw_create_window_fails 0
       GLFW.GLFWClientAPIOpenGL2) glfw.no_resources
  = (None, Some (Errorf "failed to create window: %w" (LibraryError 65543)))
  /\
  Effect.value
    (OpenGL3.NewOpenGL3 FrameExamples.gl_loader_fails Examples.imgui_answers
       EmptyString EmptyString 0) Examples.context
  = (None, Some (Errorf "failed to initialize OpenGL: %w" (LibraryError 2))).
Proof.
  destruct constructors_return_object_or_error as (Hsdl & Hglfw & Hgl & _).
  split; [|split].
  - apply (proj1 (proj2 (proj2 (proj2 (proj2 (proj2
             (Hsdl Examples.constants Examples.sdl_make_current_fails 0
                SDL.SDLClientAPIOpenGL3 sdl.no_resources)))))) 1 7 (LibraryError 1)).
    + reflexivity.
    + reflexivity.
    + right. reflexivity.
    + reflexivity.
    + reflexivity.
  - apply (proj1 (proj2 (proj2 (proj2
             (Hglfw Examples.constants FrameExamples.glfw_create_window_fails 0
                GLFW.GLFWClientAPIOpenGL2 glfw.no_resources)))) (LibraryError 65543)).
    + reflexivity.
    + left. reflexivity.
    + reflexivity.
  - apply (proj1 (proj2
             (Hgl FrameExamples.gl_loader_fails Examples.imgui_answers
                EmptyString EmptyString 0 Examples.context)) (LibraryError 2)).
    reflexivity.
Defined.

(** C8. [Dispose] is idempotent for the SDL platform and for the
    OpenGL3 renderer.  The first call destroys the window, deletes
    the buffers, the shaders, the program and the font texture that
    the stored handles name, and sets the handles to nil or zero.
    Every later call leaves the object as it is and issues no destroy
    or delete call: for the renderer no call at all, for the platform
    [sdl.Quit] only. *)
Theorem Dispose_is_idempotent :
  (forall (platform : SDL.t) (r : sdl.Resources),
      SDL.window (Effect.value (SDL.Dispose platform) r) = None
      /\ (forall w, SDL.window platform = Some w ->
                    In (Lib (sdl.CallDestroy w)) (Effect.trace (SDL.Dispose platform) r))
      /\ (forall (n : nat) (r' : sdl.Resources),
             Effect.value
               (Effect.times n SDL.Dispose (Effect.value (SDL.Dispose platform) r)) r'
             = Effect.value (SDL.Dispose platform) r
             /\ Forall (fun c => c = Lib sdl.CallQuit)
                  (Effect.trace
                     (Effect.times n SDL.Dispose
                        (Effect.value (SDL.Dispose platform) r)) r')))
  /\
  (forall (renderer : OpenGL3.t) (s : gl.State),
      Effect.value (OpenGL3.Dispose renderer) s
      = OpenGL3.with_handles renderer 0 0 0 0 0 0
      /\ (OpenGL3.vboHandle renderer <> 0 ->
          In (Gl (gl.CallDeleteBuffers 1 (OpenGL3.vboHandle renderer)))
             (Effect.trace (OpenGL3.Dispose renderer) s))
      /\ (OpenGL3.elementsHandle renderer <> 0 ->
          In (Gl (gl.CallDeleteBuffers 1 (OpenGL3.elementsHandle renderer)))
             (Effect.trace (OpenGL3.Dispose renderer) s))
      /\ (OpenGL3.vertHandle renderer <> 0 ->
          In (Gl (gl.CallDeleteShader (OpenGL3.vertHandle renderer)))
             (Effect.trace (OpenGL3.Dispose renderer) s))
      /\ (OpenGL3.fragHandle renderer <> 0 ->
          In (Gl (gl.CallDeleteShader (OpenGL3.fragHandle renderer)))
             (Effect.trace (OpenGL3.Dispose renderer) s))
      /\ (OpenGL3.shaderHandle renderer <> 0 ->
          In (Gl (gl.CallDeleteProgram (OpenGL3.shaderHandle renderer)))
             (Effect.trace (OpenGL3.Dispose renderer) s))
      /\ (OpenGL3.fontTexture renderer <> 0 ->
          In (Gl (gl.CallDeleteTextures 1 (OpenGL3.fontTexture renderer)))
             (Effect.trace (OpenGL3.Dispose renderer) s))
      /\ (forall (n : nat) (s' : gl.State),
             Effect.times n OpenGL3.Dispose (Effect.value (OpenGL3.Dispose renderer) s) s'
             = ((Effect.value (OpenGL3.Dispose renderer) s, s'), []))).
Proof.
  split.
  - intros platform r. split; [apply PlatformFacts.SDL_Dispose_clears_window|]. split.
    + intros w Hw. rewrite (PlatformFacts.SDL_Dispose_destroys_window _ _ _ Hw).
      now left.
    + intros n r'.
      apply EffectFacts.times_fixpoint.
      * intros q. apply PlatformFacts.SDL_Dispose_without_window.
        apply PlatformFacts.SDL_Dispose_clears_window.
      * intros q.
        destruct (PlatformFacts.SDL_Dispose_without_window
                    (Effect.value (SDL.Dispose platform) r) q
                    (PlatformFacts.SDL_Dispose_clears_window platform r)) as [_ ->].
        now constructor.
  - intros renderer s. unfold OpenGL3.Dispose.
    rewrite RendererFacts.invalidateDeviceObjects_value.
    rewrite RendererFacts.invalidateDeviceObjects_trace.
    split; [reflexivity|].
    repeat split.
    1-6: intros H; apply Z.eqb_neq in H; rewrite H;
      repeat first [ now left
                   | apply in_or_app; left; now left
                   | apply in_or_app; right ].
    intros n s'. apply EffectFacts.times_silent.
    intros q. apply RendererFacts.invalidateDeviceObjects_released.
Qed.

(** The theorem at a platform with window 1 and at a renderer all of
    whose handles are set. *)
Lemma Dispose_is_idempotent_witness :
  In (Lib (sdl.CallDestroy 1))
     (Effect.trace (SDL.Dispose Examples.sdl_platform) sdl.no_resources)
  /\ In (Gl (gl.CallDeleteBuffers 1 4))
        (Effect.trace (OpenGL3.Dispose Examples.renderer) Examples.context)
  /\ In (Gl (gl.CallDeleteBuffers 1 5))
        (Effect.trace (OpenGL3.Dispose Examples.renderer) Examples.context)
  /\ In (Gl (gl.CallDeleteShader 2))
        (Effect.trace (OpenGL3.Dispose Examples.renderer) Examples.context)
  /\ In (Gl (gl.CallDeleteShader 3))
        (Effect.trace (OpenGL3.Dispose Examples.renderer) Examples.context)
  /\ In (Gl (gl.CallDeleteProgram 1))
        (Effect.trace (OpenGL3.Dispose Examples.renderer) Examples.context)
  /\ In (Gl (gl.CallDeleteTextures 1 6))
        (Effect.trace (OpenGL3.Dispose Examples.renderer) Examples.context).
Proof.
  destruct Dispose_is_idempotent as [Hsdl Hgl].
  destruct (Hsdl Examples.sdl_platform sdl.no_resources) as (_ & Hw & _).
  destruct (Hgl Examples.renderer Examples.context)
    as (_ & H1 & H2 & H3 & H4 & H5 & H6 & _).
  split; [apply (Hw 1); reflexivity|].
  split; [apply H1; discriminate|].
  split; [apply H2; discriminate|].
  split; [apply H3; discriminate|].
  split; [apply H4; discriminate|].
  split; [apply H5; discriminate|].
  apply H6; discriminate.
Defined.

End LifecycleFacts.

(* ================================================================== *)
(** * Events and input of the SDL platform *)
(* ================================================================== *)

Module SDLFrameFacts.

Import Go platforms.
Local Open Scope Z_scope.

(** ** The event loop *)

Section Events.
Variable pkg : PackageConstants.

(** What [processEvent] returns and issues depends on the platform and
    the event, not on the state of SDL. *)
Lemma processEvent_value_indep (platform : SDL.t) (event : sdl.Event)
    (r r' : sdl.Resources) :
  Effect.value (SDL.processEvent pkg platform event) r
  = Effect.value (SDL.processEvent pkg platform event) r'.
Proof.
  destruct event; try reflexivity. cbn.
  destruct (Button =? sdl.BUTTON_LEFT); [reflexivity|].
  destruct (Button =? sdl.BUTTON_RIGHT); [reflexivity|].
  destruct (Button =? sdl.BUTTON_MIDDLE); reflexivity.
Qed.

Lemma processEvent_trace_indep (platform platform' : SDL.t) (event : sdl.Event)
    (r r' : sdl.Resources) :
  Effect.trace (SDL.processEvent pkg platform event) r
  = Effect.trace (SDL.processEvent pkg platform' event) r'.
Proof.
  destruct event; try reflexivity. cbn.
  destruct (Button =? sdl.BUTTON_LEFT); [reflexivity|].
  destruct (Button =? sdl.BUTTON_RIGHT); [reflexivity|].
  destruct (Button =? sdl.BUTTON_MIDDLE); reflexivity.
Qed.

Lemma ProcessEvents_loop_spec (queue : list sdl.Event) :
  forall (platform platform0 : SDL.t) (r r0 : sdl.Resources),
    sdl.events r = queue ->
    sdl.events (Effect.final (SDL.ProcessEvents_loop pkg queue platform) r) = []
    /\ Effect.value (SDL.ProcessEvents_loop pkg queue platform) r
       = fold_left (fun p e => Effect.value (SDL.processEvent pkg p e) r0) queue platform
    /\ Effect.trace (SDL.ProcessEvents_loop pkg queue platform) r
       = flat_map (fun e => Lib sdl.CallPollEvent
                              :: Effect.trace (SDL.processEvent pkg platform0 e) r0) queue
         ++ [Lib sdl.CallPollEvent].
Proof.
  induction queue as [|ev rest IH]; intros platform platform0 r r0 Hq.
  - cbn. rewrite Hq. repeat split.
  - cbn [SDL.ProcessEvents_loop fold_left flat_map].
    rewrite EffectFacts.final_bind, EffectFacts.value_bind, EffectFacts.trace_bind.
    assert (Hpoll : Effect.value (SDL.lib sdl.PollEvent) r = Some ev)
      by (cbn; now rewrite Hq).
    rewrite Hpoll.
    rewrite EffectFacts.final_bind, EffectFacts.value_bind, EffectFacts.trace_bind.
    rewrite PlatformFacts.processEvent_final.
    set (r1 := Effect.final (SDL.lib sdl.PollEvent) r).
    assert (Hr1 : sdl.events r1 = rest) by (subst r1; cbn; now rewrite Hq).
    destruct (IH (Effect.value (SDL.processEvent pkg platform ev) r1) platform0 r1 r0 Hr1)
      as (H1 & H2 & H3).
    rewrite H1, H2, H3.
    rewrite (processEvent_value_indep platform ev r1 r0).
    rewrite (processEvent_trace_indep platform platform0 ev r1 r0).
    repeat split. cbn. now rewrite <- app_assoc.
Qed.

Lemma processEvent_shouldStop (platform : SDL.t) (event : sdl.Event) (r : sdl.Resources) :
  SDL.shouldStop (Effect.value (SDL.processEvent pkg platform event) r)
  = SDL.shouldStop platform || Observe.is_quit event.
Proof.
  destruct event; cbn; rewrite ?orb_false_r, ?orb_true_r; try reflexivity.
  destruct (Button =? sdl.BUTTON_LEFT); [reflexivity|].
  destruct (Button =? sdl.BUTTON_RIGHT); [reflexivity|].
  destruct (Button =? sdl.BUTTON_MIDDLE); reflexivity.
Qed.

End Events.

(** X1. [ProcessEvents] handles every pending event once, in the order
    of the queue, polling before each and once more at the end, and
    leaves the queue empty. *)
Theorem ProcessEvents_drains_the_queue :
  forall (pkg : PackageConstants) (platform : SDL.t) (r : sdl.Resources),
    sdl.events (Effect.final (SDL.ProcessEvents pkg platform) r) = []
    /\ Effect.value (SDL.ProcessEvents pkg platform) r
       = fold_left (fun p e => Effect.value (SDL.processEvent pkg p e) r)
           (sdl.events r) platform
    /\ Effect.trace (SDL.ProcessEvents pkg platform) r
       = flat_map (fun e => Lib sdl.CallPollEvent
                              :: Effect.trace (SDL.processEvent pkg platform e) r)
           (sdl.events r)
         ++ [Lib sdl.CallPollEvent].
Proof.
  intros pkg platform r.
  exact (ProcessEvents_loop_spec pkg (sdl.events r) platform platform r r eq_refl).
Qed.

(** X2. After [ProcessEvents], [ShouldStop] is true exactly when it was
    true before or a QUIT event was pending: no other event sets the
    flag, and none clears it. *)
Theorem ShouldStop_after_ProcessEvents :
  forall (pkg : PackageConstants) (platform : SDL.t) (r : sdl.Resources),
    SDL.ShouldStop (Effect.value (SDL.ProcessEvents pkg platform) r)
    = SDL.ShouldStop platform || existsb Observe.is_quit (sdl.events r).
Proof.
  intros pkg platform r. unfold SDL.ShouldStop.
  destruct (ProcessEvents_loop_spec pkg (sdl.events r) platform platform r r eq_refl)
    as [_ [H _]].
  change (Effect.value (SDL.ProcessEvents pkg platform) r)
    with (Effect.value (SDL.ProcessEvents_loop pkg (sdl.events r) platform) r).
  rewrite H. clear H.
  generalize (sdl.events r) as queue. intros queue. revert platform.
  induction queue as [|ev rest IH]; intros platform; cbn [fold_left existsb].
  - now rewrite orb_false_r.
  - rewrite IH, processEvent_shouldStop. now rewrite orb_assoc.
Qed.

(** ** Modifier masks as bits *)

Lemma land_pow2_testbit (m i : Z) :
  0 <= i -> (Z.land m (2 ^ i) =? 0) = negb (Z.testbit m i).
Proof.
  intros Hi. destruct (Z.testbit m i) eqn:E; cbn.
  - apply Z.eqb_neq. intros H0.
    assert (Hb : Z.testbit (Z.land m (2 ^ i)) i = true)
      by (rewrite Z.land_spec, E, Z.pow2_bits_true by exact Hi; reflexivity).
    rewrite H0, Z.bits_0 in Hb. discriminate.
  - apply Z.eqb_eq. apply Z.bits_inj'. intros n Hn.
    rewrite Z.land_spec, Z.bits_0, Z.pow2_bits_eqb by exact Hi.
    destruct (Z.eqb_spec i n) as [->|_]; [now rewrite E | apply andb_false_r].
Qed.

Lemma has_mod_bit (m i : Z) : 0 <= i -> has_mod m (2 ^ i) = Z.testbit m i.
Proof.
  intros Hi. unfold has_mod. rewrite land_pow2_testbit by exact Hi.
  apply negb_involutive.
Qed.

Lemma has_mod_lor (m a b : Z) : has_mod m (Z.lor a b) = has_mod m a || has_mod m b.
Proof.
  unfold has_mod. rewrite Z.land_lor_distr_r.
  destruct (Z.eqb_spec (Z.land m a) 0) as [Ha|Ha], (Z.eqb_spec (Z.land m b) 0) as [Hb|Hb];
    cbn; [ now rewrite Ha, Hb | | | ];
    apply negb_true_iff, Z.eqb_neq; intros H; apply Z.lor_eq_0_iff in H; tauto.
Qed.

Lemma sdl2SetImguiModKey_trace (m : Z) (r : sdl.Resources) :
  Effect.trace (SDL.sdl2SetImguiModKey m) r
  = Observe.modifier_events
      (Z.testbit m 6 || Z.testbit m 7) (Z.testbit m 0 || Z.testbit m 1)
      (Z.testbit m 8 || Z.testbit m 9) (Z.testbit m 10 || Z.testbit m 11).
Proof.
  cbn -[has_mod Z.lor Z.testbit].
  unfold sdl.KMOD_CTRL, sdl.KMOD_SHIFT, sdl.KMOD_ALT, sdl.KMOD_GUI.
  rewrite !has_mod_lor.
  rewrite <- (has_mod_bit m 6), <- (has_mod_bit m 7), <- (has_mod_bit m 0),
    <- (has_mod_bit m 1), <- (has_mod_bit m 8), <- (has_mod_bit m 9),
    <- (has_mod_bit m 10), <- (has_mod_bit m 11) by lia.
  reflexivity.
Qed.

(** X3. A key-down or key-up event is forwarded as one key event with
    the translated key, down or up, followed by the four modifier
    events, which tell whether the left or the right modifier key is
    held: control from bits 6 and 7 of the event's modifier state,
    shift from bits 0 and 1, alt from bits 8 and 9, super from bits 10
    and 11.  The platform itself is left as it is. *)
Theorem sdl_key_event_forwards_key_and_modifiers :
  forall (pkg : PackageConstants) (platform : SDL.t) (sym scancode mod_ : Z)
         (r : sdl.Resources),
    Effect.trace (SDL.processEvent pkg platform (sdl.KeyDownEvent sym scancode mod_)) r
    = IO (imgui.AddKeyEvent (sdl2KeyEventToImguiKey sym scancode) true)
      :: Observe.modifier_events
           (Z.testbit mod_ 6 || Z.testbit mod_ 7) (Z.testbit mod_ 0 || Z.testbit mod_ 1)
           (Z.testbit mod_ 8 || Z.testbit mod_ 9) (Z.testbit mod_ 10 || Z.testbit mod_ 11)
    /\ Effect.trace (SDL.processEvent pkg platform (sdl.KeyUpEvent sym scancode mod_)) r
       = IO (imgui.AddKeyEvent (sdl2KeyEventToImguiKey sym scancode) false)
         :: Observe.modifier_events
              (Z.testbit mod_ 6 || Z.testbit mod_ 7) (Z.testbit mod_ 0 || Z.testbit mod_ 1)
              (Z.testbit mod_ 8 || Z.testbit mod_ 9) (Z.testbit mod_ 10 || Z.testbit mod_ 11)
    /\ Effect.value (SDL.processEvent pkg platform (sdl.KeyDownEvent sym scancode mod_)) r
       = platform
    /\ Effect.value (SDL.processEvent pkg platform (sdl.KeyUpEvent sym scancode mod_)) r
       = platform.
Proof.
  intros pkg platform sym scancode mod_ r.
  pose proof (sdl2SetImguiModKey_trace mod_ r) as H.
  repeat split.
  - cbn [SDL.processEvent]. rewrite !EffectFacts.trace_bind.
    change (Effect.final _ r) with r. rewrite H. reflexivity.
  - cbn [SDL.processEvent]. rewrite !EffectFacts.trace_bind.
    change (Effect.final _ r) with r. rewrite H. reflexivity.
Qed.

(** ** Mouse buttons *)

(** [NewFrame] reports the three buttons, each as latched or held in
    SDL's mouse state: [SDL_BUTTON(x)] is bit [x - 1]. *)
Lemma NewFrame_button_reports (answers : sdl.Answers) (platform : SDL.t)
    (r : sdl.Resources) :
  Observe.button_reports (Effect.trace (SDL.NewFrame answers platform) r)
  = [ (0, SDL.buttonsDown platform 0 || Z.testbit (snd (sdl.MouseState answers)) 0);
      (1, SDL.buttonsDown platform 1 || Z.testbit (snd (sdl.MouseState answers)) 2);
      (2, SDL.buttonsDown platform 2 || Z.testbit (snd (sdl.MouseState answers)) 1) ].
Proof.
  rewrite <- (has_mod_bit _ 0), <- (has_mod_bit _ 1), <- (has_mod_bit _ 2) by lia.
  unfold SDL.NewFrame.
  destruct (SDL.time platform >? 0); reflexivity.
Qed.

Lemma NewFrame_clears_buttonsDown (answers : sdl.Answers) (platform : SDL.t)
    (r : sdl.Resources) :
  SDL.buttonsDown (Effect.value (SDL.NewFrame answers platform) r) 0 = false
  /\ SDL.buttonsDown (Effect.value (SDL.NewFrame answers platform) r) 1 = false
  /\ SDL.buttonsDown (Effect.value (SDL.NewFrame answers platform) r) 2 = false.
Proof.
  unfold SDL.NewFrame. destruct (SDL.time platform >? 0); repeat split.
Qed.

(** X4. A mouse-button press that arrived as an event is reported to
    imgui as held in the next frame, whatever the mouse state SDL
    reports in that frame, and in that frame only: the frame after
    reports the three buttons from SDL's mouse state alone (left from
    bit 0, right from bit 2, middle from bit 1). *)
Theorem sdl_click_is_held_for_one_frame :
  forall (pkg : PackageConstants) (answers1 answers2 : sdl.Answers)
         (platform : SDL.t) (r : sdl.Resources) (button index : Z),
    Observe.buttons_indexed pkg ->
    Observe.sdl_button_index button = Some index ->
    In (index, true)
       (Observe.button_reports
          (Effect.trace
             (SDL.NewFrame answers1
                (Effect.value
                   (SDL.processEvent pkg platform (sdl.MouseButtonDownEvent button)) r))
             r))
    /\ Observe.button_reports
         (Effect.trace
            (SDL.NewFrame answers2
               (Effect.value
                  (SDL.NewFrame answers1
                     (Effect.value
                        (SDL.processEvent pkg platform (sdl.MouseButtonDownEvent button))
                        r)) r)) r)
       = [ (0, Z.testbit (snd (sdl.MouseState answers2)) 0);
           (1, Z.testbit (snd (sdl.MouseState answers2)) 2);
           (2, Z.testbit (snd (sdl.MouseState answers2)) 1) ].
Proof.
  intros pkg answers1 answers2 platform r button index (Hp & Hs & Ht) Hb.
  rewrite !NewFrame_button_reports.
  split.
  - unfold Observe.sdl_button_index in Hb. cbn [switch] in Hb. cbn [SDL.processEvent].
    destruct (button =? sdl.BUTTON_LEFT).
    { injection Hb as <-. cbn. rewrite Hp. cbn. now left. }
    destruct (button =? sdl.BUTTON_RIGHT).
    { injection Hb as <-. cbn. rewrite Hs. cbn. right. now left. }
    destruct (button =? sdl.BUTTON_MIDDLE); [|discriminate Hb].
    injection Hb as <-. cbn. rewrite Ht. cbn. right. right. now left.
  - destruct (NewFrame_clears_buttonsDown answers1
                (Effect.value
                   (SDL.processEvent pkg platform (sdl.MouseButtonDownEvent button)) r) r)
      as (-> & -> & ->).
    reflexivity.
Qed.

(** The theorem at a press of the left button, with a mouse state in
    which no button is held. *)
Lemma sdl_click_is_held_for_one_frame_witness :
  In (0, true)
     (Observe.button_reports
        (Effect.trace
           (SDL.NewFrame Examples.sdl_succeeds
              (Effect.value
                 (SDL.processEvent Examples.constants Examples.sdl_platform
                    (sdl.MouseButtonDownEvent sdl.BUTTON_LEFT)) sdl.no_resources))
           sdl.no_resources))
  /\ Observe.button_reports
       (Effect.trace
          (SDL.NewFrame Examples.sdl_succeeds
             (Effect.value
                (SDL.NewFrame Examples.sdl_succeeds
                   (Effect.value
                      (SDL.processEvent Examples.constants Examples.sdl_platform
                         (sdl.MouseButtonDownEvent sdl.BUTTON_LEFT)) sdl.no_resources))
                sdl.no_resources)) sdl.no_resources)
     = [ (0, false); (1, false); (2, false) ].
Proof.
  apply (sdl_click_is_held_for_one_frame Examples.constants Examples.sdl_succeeds
           Examples.sdl_succeeds Examples.sdl_platform sdl.no_resources
           sdl.BUTTON_LEFT 0).
  - repeat split.
  - reflexivity.
Defined.

(** X5. A press of a button other than the left, the right and the
    middle one (an extra button of the mouse) is dropped: the platform
    is unchanged and nothing is forwarded. *)
Theorem sdl_press_of_another_button_is_dropped :
  forall (pkg : PackageConstants) (platform : SDL.t) (r : sdl.Resources) (button : Z),
    Observe.sdl_button_index button = None ->
    SDL.processEvent pkg platform (sdl.MouseButtonDownEvent button) r
    = ((platform, r), []).
Proof.
  intros pkg platform r button Hb.
  unfold Observe.sdl_button_index in Hb. cbn [switch] in Hb. cbn [SDL.processEvent].
  destruct (button =? sdl.BUTTON_LEFT); [discriminate Hb|].
  destruct (button =? sdl.BUTTON_RIGHT); [discriminate Hb|].
  destruct (button =? sdl.BUTTON_MIDDLE); [discriminate Hb|].
  reflexivity.
Qed.

(** The theorem at button 4, the first extra button. *)
Lemma sdl_press_of_another_button_is_dropped_witness :
  SDL.processEvent Examples.constants Examples.sdl_platform
    (sdl.MouseButtonDownEvent 4) sdl.no_resources
  = ((Examples.sdl_platform, sdl.no_resources), []).
Proof.
  apply (sdl_press_of_another_button_is_dropped Examples.constants Examples.sdl_platform
           sdl.no_resources 4).
  reflexivity.
Defined.

End SDLFrameFacts.

(* ================================================================== *)
(** * What the constructors leave behind *)
(* ================================================================== *)

Module ConstructionFacts.

Import Go platforms.
Local Open Scope string_scope.
Local Open Scope list_scope.
Local Open Scope Z_scope.

Lemma NewSDL_constructed (pkg : PackageConstants) (answers : sdl.Answers)
    (io_ : imgui.IO) (clientAPI : SDL.SDLClientAPI) (r : sdl.Resources)
    (platform : SDL.t) :
  Effect.value (SDL.NewSDL pkg answers io_ clientAPI) r = (Some platform, None) ->
  exists window_ context,
    sdl.Init_error answers = None
    /\ sdl.CreateWindow_result answers = inl window_
    /\ sdl.GLCreateContext_result answers = inl context
    /\ sdl.GLMakeCurrent_error answers = None
    /\ Observe.supported clientAPI
    /\ platform = {| SDL.imguiIO := io_; SDL.window := Some window_;
                     SDL.shouldStop := false; SDL.time := 0;
                     SDL.buttonsDown := fun _ => false |}
    /\ Effect.final (SDL.NewSDL pkg answers io_ clientAPI) r
       = {| sdl.initialized := true; sdl.windows := window_ :: sdl.windows r;
            sdl.glContexts := context :: sdl.glContexts r;
            sdl.currentContext := Some context; sdl.currentWindow := Some window_;
            sdl.events := sdl.events r |}.
Proof.
  destruct answers as [ie cw cc mc gs gd pf pc ms ct].
  unfold SDL.NewSDL, SDL.SDLClientAPIOpenGL2, SDL.SDLClientAPIOpenGL3, Observe.supported.
  cbn [sdl.Init_error sdl.CreateWindow_result sdl.GLCreateContext_result
       sdl.GLMakeCurrent_error].
  destruct ie as [e|]; [discriminate|].
  destruct cw as [w|e]; [|discriminate].
  PlatformFacts.by_client_api clientAPI; cycle 2.
  { cbn. discriminate. }
  all: destruct cc as [c|e]; [|discriminate];
    destruct mc as [e|]; [discriminate|];
    cbn; intros H; injection H as <-; exists w, c; repeat split; auto.
Qed.

Lemma NewGLFW_constructed (pkg : PackageConstants) (answers : glfw.Answers)
    (io_ : imgui.IO) (clientAPI : GLFW.GLFWClientAPI) (r : glfw.Resources)
    (platform : GLFW.t) :
  Effect.value (GLFW.NewGLFW pkg answers io_ clientAPI) r = (Some platform, None) ->
  exists window_,
    glfw.Init_error answers = None
    /\ glfw.CreateWindow_result answers = inl window_
    /\ Observe.supported clientAPI
    /\ platform = {| GLFW.imguiIO := io_; GLFW.window := Some window_;
                     GLFW.time := S754_zero false;
                     GLFW.mouseJustPressed := fun _ => false |}
    /\ Effect.final (GLFW.NewGLFW pkg answers io_ clientAPI) r
       = {| glfw.initialized := true; glfw.windows := window_ :: glfw.windows r |}
    /\ ends_with (Effect.trace (GLFW.NewGLFW pkg answers io_ clientAPI) r)
         [ Lib (glfw.CallMakeContextCurrent window_);
           Lib (glfw.CallSwapInterval 1);
           Lib (glfw.CallSetMouseButtonCallback window_);
           Lib (glfw.CallSetScrollCallback window_);
           Lib (glfw.CallSetKeyCallback window_);
           Lib (glfw.CallSetCharCallback window_) ].
Proof.
  destruct answers as [ie cw].
  unfold GLFW.NewGLFW, GLFW.GLFWClientAPIOpenGL2, GLFW.GLFWClientAPIOpenGL3,
    Observe.supported.
  cbn [glfw.Init_error glfw.CreateWindow_result].
  destruct ie as [e|]; [discriminate|].
  PlatformFacts.by_client_api clientAPI; cycle 2.
  { cbn. discriminate. }
  all: destruct cw as [w|e]; [|discriminate];
    cbn; intros H; injection H as <-; exists w; repeat split; auto;
    PlatformFacts.trace_ends.
Qed.

(** X6. [NewSDL] returns a platform exactly when the client API is
    OpenGL2 or OpenGL3 and the four fallible SDL calls succeed.  The
    platform then holds the created window, is not stopping, has no
    time recorded and no button latched; SDL is initialised, holds the
    new window and the new OpenGL context, and that context is
    current in that window. *)
Theorem NewSDL_succeeds_exactly_when_all_calls_do :
  forall (pkg : PackageConstants) (answers : sdl.Answers) (io_ : imgui.IO)
         (clientAPI : SDL.SDLClientAPI) (r : sdl.Resources),
    (forall platform,
        Effect.value (SDL.NewSDL pkg answers io_ clientAPI) r = (Some platform, None) ->
        exists window_ context,
          sdl.Init_error answers = None
          /\ sdl.CreateWindow_result answers = inl window_
          /\ sdl.GLCreateContext_result answers = inl context
          /\ sdl.GLMakeCurrent_error answers = None
          /\ Observe.supported clientAPI
          /\ platform = {| SDL.imguiIO := io_; SDL.window := Some window_;
                           SDL.shouldStop := false; SDL.time := 0;
                           SDL.buttonsDown := fun _ => false |}
          /\ Effect.final (SDL.NewSDL pkg answers io_ clientAPI) r
             = {| sdl.initialized := true; sdl.windows := window_ :: sdl.windows r;
                  sdl.glContexts := context :: sdl.glContexts r;
                  sdl.currentContext := Some context;
                  sdl.currentWindow := Some window_;
                  sdl.events := sdl.events r |})
    /\ (sdl_errors answers = [None; None; None; None] ->
        Observe.supported clientAPI ->
        exists platform,
          Effect.value (SDL.NewSDL pkg answers io_ clientAPI) r = (Some platform, None)).
Proof.
  intros pkg answers io_ clientAPI r. split.
  - intros platform. apply NewSDL_constructed.
  - destruct answers as [ie cw cc mc gs gd pf pc ms ct].
    unfold sdl_errors, SDL.NewSDL, SDL.SDLClientAPIOpenGL2, SDL.SDLClientAPIOpenGL3.
    cbn [sdl.Init_error sdl.CreateWindow_result sdl.GLCreateContext_result
         sdl.GLMakeCurrent_error].
    intros He Hs. injection He as -> Hw Hc ->.
    destruct cw as [w|e]; [|discriminate Hw].
    destruct cc as [c|e]; [|discriminate Hc].
    destruct Hs as [-> | ->]; eexists; reflexivity.
Qed.

(** The theorem at an SDL all of whose calls succeed, for OpenGL3. *)
Lemma NewSDL_succeeds_exactly_when_all_calls_do_witness :
  exists platform,
    Effect.value
      (SDL.NewSDL Examples.constants Examples.sdl_succeeds 0 SDL.SDLClientAPIOpenGL3)
      sdl.no_resources
    = (Some platform, None).
Proof.
  apply (proj2 (NewSDL_succeeds_exactly_when_all_calls_do Examples.constants
                  Examples.sdl_succeeds 0 SDL.SDLClientAPIOpenGL3 sdl.no_resources)).
  - reflexivity.
  - right. reflexivity.
Defined.

(** X7. The first frame of a platform that [NewSDL] returned reports
    the fallback time step of 1/60 s, as no time is recorded yet.  If
    the performance counter read in that frame is positive, the frame
    after reports the counter's advance, modulo 2^64, divided by the
    frequency read in that frame. *)
Theorem sdl_first_frame_reports_the_fallback_delta :
  forall (pkg : PackageConstants) (answers : sdl.Answers) (io_ : imgui.IO)
         (clientAPI : SDL.SDLClientAPI) (r0 r : sdl.Resources) (platform : SDL.t)
         (first second : sdl.Answers),
    Effect.value (SDL.NewSDL pkg answers io_ clientAPI) r0 = (Some platform, None) ->
    Observe.delta_reports (Effect.trace (SDL.NewFrame first platform) r)
    = [f32_div (f32_of_Z 1) (f32_of_Z 60)]
    /\ (0 < sdl.PerformanceCounter first ->
        Observe.delta_reports
          (Effect.trace
             (SDL.NewFrame second (Effect.value (SDL.NewFrame first platform) r)) r)
        = [f32_div
             (f32_of_Z ((sdl.PerformanceCounter second - sdl.PerformanceCounter first)
                        mod 2 ^ 64))
             (f32_of_Z (sdl.PerformanceFrequency second))]).
Proof.
  intros pkg answers io_ clientAPI r0 r platform first second H.
  apply NewSDL_constructed in H as (w & c & _ & _ & _ & _ & _ & -> & _).
  split; [reflexivity|].
  intros Hpos. apply Z.gtb_lt in Hpos.
  unfold SDL.NewFrame at 1.
  cbn [SDL.time]. cbn -[f32_div f32_of_Z Z.sub Z.modulo Z.pow Z.gtb].
  rewrite Hpos. reflexivity.
Qed.

(** The theorem at two frames in which the counter reads 5000000. *)
Lemma sdl_first_frame_reports_the_fallback_delta_witness :
  Observe.delta_reports
    (Effect.trace (SDL.NewFrame Examples.sdl_succeeds Examples.sdl_platform)
       sdl.no_resources)
  = [f32_div (f32_of_Z 1) (f32_of_Z 60)]
  /\ Observe.delta_reports
       (Effect.trace
          (SDL.NewFrame Examples.sdl_succeeds
             (Effect.value (SDL.NewFrame Examples.sdl_succeeds Examples.sdl_platform)
                sdl.no_resources)) sdl.no_resources)
     = [f32_div (f32_of_Z ((5000000 - 5000000) mod 2 ^ 64)) (f32_of_Z 1000000)].
Proof.
  destruct (sdl_first_frame_reports_the_fallback_delta Examples.constants
              Examples.sdl_succeeds 0 SDL.SDLClientAPIOpenGL2 sdl.no_resources
              sdl.no_resources Examples.sdl_platform Examples.sdl_succeeds
              Examples.sdl_succeeds) as (H1 & H2).
  - reflexivity.
  - split; [exact H1 | apply H2; reflexivity].
Defined.

(** X8. [NewGLFW] returns a platform exactly when the client API is
    OpenGL2 or OpenGL3 and both fallible GLFW calls succeed.  The
    platform then holds the created window, has no time recorded and
    no button latched; GLFW is initialised and holds the window; and
    the last calls made the window's context current, set the swap
    interval to 1 and installed the four input callbacks on it. *)
Theorem NewGLFW_succeeds_exactly_when_all_calls_do :
  forall (pkg : PackageConstants) (answers : glfw.Answers) (io_ : imgui.IO)
         (clientAPI : GLFW.GLFWClientAPI) (r : glfw.Resources),
    (forall platform,
        Effect.value (GLFW.NewGLFW pkg answers io_ clientAPI) r = (Some platform, None) ->
        exists window_,
          glfw.Init_error answers = None
          /\ glfw.CreateWindow_result answers = inl window_
          /\ Observe.supported clientAPI
          /\ platform = {| GLFW.imguiIO := io_; GLFW.window := Some window_;
                           GLFW.time := S754_zero false;
                           GLFW.mouseJustPressed := fun _ => false |}
          /\ Effect.final (GLFW.NewGLFW pkg answers io_ clientAPI) r
             = {| glfw.initialized := true; glfw.windows := window_ :: glfw.windows r |}
          /\ ends_with (Effect.trace (GLFW.NewGLFW pkg answers io_ clientAPI) r)
               [ Lib (glfw.CallMakeContextCurrent window_);
                 Lib (glfw.CallSwapInterval 1);
                 Lib (glfw.CallSetMouseButtonCallback window_);
                 Lib (glfw.CallSetScrollCallback window_);
                 Lib (glfw.CallSetKeyCallback window_);
                 Lib (glfw.CallSetCharCallback window_) ])
    /\ (glfw_errors answers = [None; None] ->
        Observe.supported clientAPI ->
        exists platform,
          Effect.value (GLFW.NewGLFW pkg answers io_ clientAPI) r = (Some platform, None)).
Proof.
  intros pkg answers io_ clientAPI r. split.
  - intros platform. apply NewGLFW_constructed.
  - destruct answers as [ie cw].
    unfold glfw_errors, GLFW.NewGLFW, GLFW.GLFWClientAPIOpenGL2, GLFW.GLFWClientAPIOpenGL3.
    cbn [glfw.Init_error glfw.CreateWindow_result].
    intros He Hs. injection He as -> Hw.
    destruct cw as [w|e]; [|discriminate Hw].
    destruct Hs as [-> | ->]; eexists; reflexivity.
Qed.

(** The theorem at a GLFW both of whose calls succeed, for OpenGL3. *)
Lemma NewGLFW_succeeds_exactly_when_all_calls_do_witness :
  exists platform,
    Effect.value
      (GLFW.NewGLFW Examples.constants Examples.glfw_succeeds 0 GLFW.GLFWClientAPIOpenGL3)
      glfw.no_resources
    = (Some platform, None).
Proof.
  apply (proj2 (NewGLFW_succeeds_exactly_when_all_calls_do Examples.constants
                  Examples.glfw_succeeds 0 GLFW.GLFWClientAPIOpenGL3 glfw.no_resources)).
  - reflexivity.
  - right. reflexivity.
Defined.

(** X9. Whenever [NewGLFW] fails after GLFW has been initialised, its
    last call is [glfw.Terminate]; afterwards GLFW is not initialised
    and holds no window.  With a client API that is not supported it
    fails before a window is created: no call creates one. *)
Theorem NewGLFW_failure_terminates_glfw :
  forall (pkg : PackageConstants) (answers : glfw.Answers) (io_ : imgui.IO)
         (clientAPI : GLFW.GLFWClientAPI) (r : glfw.Resources),
    glfw.Init_error answers = None ->
    fst (Effect.value (GLFW.NewGLFW pkg answers io_ clientAPI) r) = None ->
    ends_with (Effect.trace (GLFW.NewGLFW pkg answers io_ clientAPI) r)
      [Lib glfw.CallTerminate]
    /\ Effect.final (GLFW.NewGLFW pkg answers io_ clientAPI) r = glfw.no_resources
    /\ (~ Observe.supported clientAPI ->
        existsb Observe.is_CreateWindow
          (Effect.trace (GLFW.NewGLFW pkg answers io_ clientAPI) r) = false).
Proof.
  intros pkg answers io_ clientAPI r.
  destruct answers as [ie cw].
  unfold GLFW.NewGLFW, GLFW.GLFWClientAPIOpenGL2, GLFW.GLFWClientAPIOpenGL3,
    Observe.supported.
  cbn [glfw.Init_error glfw.CreateWindow_result].
  intros -> Hfail.
  PlatformFacts.by_client_api clientAPI; cycle 2.
  { cbn. repeat split. PlatformFacts.trace_ends. }
  all: destruct cw as [w|e]; [discriminate Hfail|];
    cbn; repeat split;
    [ PlatformFacts.trace_ends | intros H; exfalso; apply H; auto ].
Qed.

(** The theorem at a GLFW that fails to create the window. *)
Lemma NewGLFW_failure_terminates_glfw_witness :
  ends_with
    (Effect.trace
       (GLFW.NewGLFW Examples.constants FrameExamples.glfw_create_window_fails 0
          GLFW.GLFWClientAPIOpenGL3) glfw.no_resources)
    [Lib glfw.CallTerminate]
  /\ Effect.final
       (GLFW.NewGLFW Examples.constants FrameExamples.glfw_create_window_fails 0
          GLFW.GLFWClientAPIOpenGL3) glfw.no_resources
     = glfw.no_resources.
Proof.
  destruct (NewGLFW_failure_terminates_glfw Examples.constants
              FrameExamples.glfw_create_window_fails 0 GLFW.GLFWClientAPIOpenGL3
              glfw.no_resources) as (H1 & H2 & _).
  - reflexivity.
  - reflexivity.
  - split; [exact H1 | exact H2].
Defined.

(** X10. [Dispose] on a platform a constructor returned releases what
    the constructor acquired.  For GLFW it destroys the window and
    terminates the library, which then holds nothing.  For SDL it
    destroys the window and shuts SDL down, which then holds no
    window and has no context current; the OpenGL context [NewSDL]
    created is still held, as [Dispose] does not delete it. *)
Theorem Dispose_releases_what_the_constructor_acquired :
  (forall (pkg : PackageConstants) (answers : sdl.Answers) (io_ : imgui.IO)
          (clientAPI : SDL.SDLClientAPI) (r : sdl.Resources) (platform : SDL.t),
      Effect.value (SDL.NewSDL pkg answers io_ clientAPI) r = (Some platform, None) ->
      exists window_ context,
        Effect.trace (SDL.Dispose platform)
          (Effect.final (SDL.NewSDL pkg answers io_ clientAPI) r)
        = [Lib (sdl.CallDestroy window_); Lib sdl.CallQuit]
        /\ Effect.final (SDL.Dispose platform)
             (Effect.final (SDL.NewSDL pkg answers io_ clientAPI) r)
           = {| sdl.initialized := false; sdl.windows := [];
                sdl.glContexts := context :: sdl.glContexts r;
                sdl.currentContext := None; sdl.currentWindow := None;
                sdl.events := sdl.events r |})
  /\
  (forall (pkg : PackageConstants) (answers : glfw.Answers) (io_ : imgui.IO)
          (clientAPI : GLFW.GLFWClientAPI) (r : glfw.Resources) (platform : GLFW.t),
      Effect.value (GLFW.NewGLFW pkg answers io_ clientAPI) r = (Some platform, None) ->
      exists window_,
        Effect.trace (GLFW.Dispose platform)
          (Effect.final (GLFW.NewGLFW pkg answers io_ clientAPI) r)
        = [Lib (glfw.CallDestroy window_); Lib glfw.CallTerminate]
        /\ Effect.final (GLFW.Dispose platform)
             (Effect.final (GLFW.NewGLFW pkg answers io_ clientAPI) r)
           = glfw.no_resources).
Proof.
  split.
  - intros pkg answers io_ clientAPI r platform H.
    apply NewSDL_constructed in H as (w & c & _ & _ & _ & _ & _ & -> & ->).
    exists w, c. split; [reflexivity|].
    unfold SDL.Dispose. cbn. unfold sdl.is_current_window. cbn.
    rewrite Z.eqb_refl. reflexivity.
  - intros pkg answers io_ clientAPI r platform H.
    apply NewGLFW_constructed in H as (w & _ & _ & _ & -> & -> & _).
    exists w. split; reflexivity.
Qed.

(** The theorem at the platforms of an SDL and a GLFW all of whose
    calls succeed: window 1 is destroyed, context 7 is still held and
    no longer current. *)
Lemma Dispose_releases_what_the_constructor_acquired_witness :
  (exists window_ context,
      Effect.trace (SDL.Dispose Examples.sdl_platform)
        (Effect.final
           (SDL.NewSDL Examples.constants Examples.sdl_succeeds 0
              SDL.SDLClientAPIOpenGL2) sdl.no_resources)
      = [Lib (sdl.CallDestroy window_); Lib sdl.CallQuit]
      /\ Effect.final (SDL.Dispose Examples.sdl_platform)
           (Effect.final
              (SDL.NewSDL Examples.constants Examples.sdl_succeeds 0
                 SDL.SDLClientAPIOpenGL2) sdl.no_resources)
         = {| sdl.initialized := false; sdl.windows := [];
              sdl.glContexts := [context];
              sdl.currentContext := None; sdl.currentWindow := None;
              sdl.events := [] |})
  /\
  (exists window_,
      Effect.trace (GLFW.Dispose FrameExamples.glfw_platform)
        (Effect.final
           (GLFW.NewGLFW Examples.constants Examples.glfw_succeeds 0
              GLFW.GLFWClientAPIOpenGL2) glfw.no_resources)
      = [Lib (glfw.CallDestroy window_); Lib glfw.CallTerminate]
      /\ Effect.final (GLFW.Dispose FrameExamples.glfw_platform)
           (Effect.final
              (GLFW.NewGLFW Examples.constants Examples.glfw_succeeds 0
                 GLFW.GLFWClientAPIOpenGL2) glfw.no_resources)
         = glfw.no_resources).
Proof.
  split.
  - apply (proj1 Dispose_releases_what_the_constructor_acquired Examples.constants
             Examples.sdl_succeeds 0 SDL.SDLClientAPIOpenGL2 sdl.no_resources
             Examples.sdl_platform).
    reflexivity.
  - apply (proj2 Dispose_releases_what_the_constructor_acquired Examples.constants
             Examples.glfw_succeeds 0 GLFW.GLFWClientAPIOpenGL2 glfw.no_resources
             FrameExamples.glfw_platform).
    reflexivity.
Defined.

End ConstructionFacts.

(* ================================================================== *)
(** * Callbacks and frames of the GLFW platform *)
(* ================================================================== *)

Module GLFWFrameFacts.

Import Go platforms.
Local Open Scope Z_scope.

(** ** The callbacks *)

Lemma glfwSetImguiModKey_trace (m : Z) (r : glfw.Resources) :
  Effect.trace (GLFW.glfwSetImguiModKey m) r
  = Observe.modifier_events
      (Z.testbit m 1) (Z.testbit m 0) (Z.testbit m 2) (Z.testbit m 3).
Proof.
  rewrite <- (SDLFrameFacts.has_mod_bit m 0), <- (SDLFrameFacts.has_mod_bit m 1),
    <- (SDLFrameFacts.has_mod_bit m 2), <- (SDLFrameFacts.has_mod_bit m 3) by lia.
  reflexivity.
Qed.

(** X11. The key callback forwards a press as a key-down event and a
    release as a key-up event of the translated key; for any other
    action (a repeat) it forwards no key event.  In every case the
    four modifier events follow: control from bit 1 of the modifier
    flags, shift from bit 0, alt from bit 2, super from bit 3. *)
Theorem glfw_key_callback_forwards_key_and_modifiers :
  forall (platform : GLFW.t) (key scancode action mods : Z) (r : glfw.Resources),
    Effect.trace (GLFW.keyChange platform key scancode action mods) r
    = (if action =? glfw.Press
       then [IO (imgui.AddKeyEvent (glfwKeyEventToImguiKey key scancode) true)]
       else if action =? glfw.Release
       then [IO (imgui.AddKeyEvent (glfwKeyEventToImguiKey key scancode) false)]
       else [])
      ++ Observe.modifier_events
           (Z.testbit mods 1) (Z.testbit mods 0) (Z.testbit mods 2) (Z.testbit mods 3).
Proof.
  intros platform key scancode action mods r.
  unfold GLFW.keyChange. rewrite !EffectFacts.trace_bind.
  rewrite glfwSetImguiModKey_trace.
  destruct (Z.eqb_spec action glfw.Press) as [->|H1]; [reflexivity|].
  destruct (action =? glfw.Release); reflexivity.
Qed.

(** X12. The mouse-button callback latches presses of the three known
    buttons and nothing else: a release, a repeat, or any action on
    another button leaves the platform as it is. *)
Theorem glfw_mouse_callback_latches_presses_only :
  forall (pkg : PackageConstants) (platform : GLFW.t) (rawButton action mods : Z),
    action <> glfw.Press \/ GLFW.glfwButtonIndexByID pkg rawButton = None ->
    GLFW.mouseButtonChange pkg platform rawButton action mods = platform.
Proof.
  intros pkg platform rawButton action mods H. unfold GLFW.mouseButtonChange.
  destruct H as [H|H].
  - apply Z.eqb_neq in H. rewrite H.
    now destruct (GLFW.glfwButtonIndexByID pkg rawButton).
  - now rewrite H.
Qed.

(** The theorem at the release of the first button. *)
Lemma glfw_mouse_callback_latches_presses_only_witness :
  GLFW.mouseButtonChange Examples.constants FrameExamples.glfw_platform
    glfw.MouseButton1 glfw.Release 0
  = FrameExamples.glfw_platform.
Proof.
  apply (glfw_mouse_callback_latches_presses_only Examples.constants
           FrameExamples.glfw_platform glfw.MouseButton1 glfw.Release 0).
  left. discriminate.
Defined.

(** ** [NewFrame] *)

Section Frame.
Variable pkg : PackageConstants.

Ltac by_frame_cases readings platform :=
  unfold GLFWFrame.NewFrame;
  let Et := fresh "Et" in
  let Ef := fresh "Ef" in
  destruct (SFltb GLFWFrame.f64_zero (GLFW.time platform)) eqn:Et,
    (GLFWFrame.Focused readings =? 0) eqn:Ef;
  cbn -[GLFWFrame.glfwButtonIDByIndex SFltb f32_of_f64 f32_of_Z GLFWFrame.f64_sub
        f32_neg GLFWFrame.MaxFloat32 In];
  rewrite ?Et, ?Ef;
  cbn -[GLFWFrame.glfwButtonIDByIndex SFltb f32_of_f64 f32_of_Z GLFWFrame.f64_sub
        f32_neg GLFWFrame.MaxFloat32 In];
  destruct (GLFW.mouseJustPressed platform 0), (GLFW.mouseJustPressed platform 1),
    (GLFW.mouseJustPressed platform 2);
  cbn -[GLFWFrame.glfwButtonIDByIndex SFltb f32_of_f64 f32_of_Z GLFWFrame.f64_sub
        f32_neg GLFWFrame.MaxFloat32 In].

Lemma glfw_NewFrame_button_reports (readings : GLFWFrame.Readings) (platform : GLFW.t)
    (r : glfw.Resources) :
  Observe.button_reports (Effect.trace (GLFWFrame.NewFrame pkg readings platform) r)
  = map (fun i =>
           (i, GLFW.mouseJustPressed platform i
               || (GLFWFrame.MouseButton readings (GLFWFrame.glfwButtonIDByIndex pkg i)
                   =? glfw.Press)))
        [0; 1; 2].
Proof. by_frame_cases readings platform; reflexivity. Qed.

Lemma glfw_NewFrame_button_queries (readings : GLFWFrame.Readings) (platform : GLFW.t)
    (r : glfw.Resources) :
  Observe.button_queries (Effect.trace (GLFWFrame.NewFrame pkg readings platform) r)
  = flat_map (fun i => if GLFW.mouseJustPressed platform i then []
                       else [GLFWFrame.glfwButtonIDByIndex pkg i])
      [0; 1; 2].
Proof. by_frame_cases readings platform; reflexivity. Qed.

Lemma glfw_NewFrame_value (readings : GLFWFrame.Readings) (platform : GLFW.t)
    (r : glfw.Resources) :
  GLFW.time (Effect.value (GLFWFrame.NewFrame pkg readings platform) r)
  = GLFWFrame.GetTime_result readings
  /\ GLFW.window (Effect.value (GLFWFrame.NewFrame pkg readings platform) r)
     = GLFW.window platform
  /\ forall i, In i [0; 1; 2] ->
       GLFW.mouseJustPressed (Effect.value (GLFWFrame.NewFrame pkg readings platform) r) i
       = false.
Proof.
  by_frame_cases readings platform;
    repeat split; intros i [<-|[<-|[<-|[]]]]; reflexivity.
Qed.

Lemma glfw_NewFrame_delta_reports (readings : GLFWFrame.Readings) (platform : GLFW.t)
    (r : glfw.Resources) :
  Observe.delta_reports (Effect.trace (GLFWFrame.NewFrame pkg readings platform) r)
  = if SFltb GLFWFrame.f64_zero (GLFW.time platform)
    then [f32_of_f64 (GLFWFrame.f64_sub (GLFWFrame.GetTime_result readings)
                        (GLFW.time platform))]
    else [].
Proof. by_frame_cases readings platform; reflexivity. Qed.

Lemma glfw_NewFrame_position (readings : GLFWFrame.Readings) (platform : GLFW.t)
    (r : glfw.Resources) :
  Observe.position_reports (Effect.trace (GLFWFrame.NewFrame pkg readings platform) r)
  = [ if GLFWFrame.Focused readings =? 0
      then {| imgui.v2X := f32_neg GLFWFrame.MaxFloat32;
              imgui.v2Y := f32_neg GLFWFrame.MaxFloat32 |}
      else {| imgui.v2X := f32_of_f64 (fst (GLFWFrame.CursorPos readings));
              imgui.v2Y := f32_of_f64 (snd (GLFWFrame.CursorPos readings)) |} ]
  /\ existsb Observe.is_GetCursorPos
       (Effect.trace (GLFWFrame.NewFrame pkg readings platform) r)
     = negb (GLFWFrame.Focused readings =? 0).
Proof. by_frame_cases readings platform; split; reflexivity. Qed.

Lemma glfwButtonIDByIndex_indexed :
  Observe.buttons_indexed pkg ->
  GLFWFrame.glfwButtonIDByIndex pkg 0 = 0
  /\ GLFWFrame.glfwButtonIDByIndex pkg 1 = 1
  /\ GLFWFrame.glfwButtonIDByIndex pkg 2 = 2.
Proof.
  intros (Hp & Hs & Ht). unfold GLFWFrame.glfwButtonIDByIndex.
  rewrite Hp, Hs, Ht. repeat split.
Qed.

End Frame.

(** X13. A press delivered to the mouse-button callback is reported as
    held in the next frame without asking GLFW for the state of that
    button, and in that frame only: the frame after reports the three
    buttons as GLFW gives their state. *)
Theorem glfw_click_is_held_without_query :
  forall (pkg : PackageConstants) (first second : GLFWFrame.Readings)
         (platform : GLFW.t) (r : glfw.Resources) (rawButton index mods : Z),
    Observe.buttons_indexed pkg ->
    GLFW.glfwButtonIndexByID pkg rawButton = Some index ->
    In (index, true)
       (Observe.button_reports
          (Effect.trace
             (GLFWFrame.NewFrame pkg first
                (GLFW.mouseButtonChange pkg platform rawButton glfw.Press mods)) r))
    /\ ~ In rawButton
         (Observe.button_queries
            (Effect.trace
               (GLFWFrame.NewFrame pkg first
                  (GLFW.mouseButtonChange pkg platform rawButton glfw.Press mods)) r))
    /\ Observe.button_reports
         (Effect.trace
            (GLFWFrame.NewFrame pkg second
               (Effect.value
                  (GLFWFrame.NewFrame pkg first
                     (GLFW.mouseButtonChange pkg platform rawButton glfw.Press mods)) r))
            r)
       = [ (0, GLFWFrame.MouseButton second glfw.MouseButton1 =? glfw.Press);
           (1, GLFWFrame.MouseButton second glfw.MouseButton2 =? glfw.Press);
           (2, GLFWFrame.MouseButton second glfw.MouseButton3 =? glfw.Press) ].
Proof.
  intros pkg first second platform r rawButton index mods Hidx Hb.
  rewrite !glfw_NewFrame_button_reports, glfw_NewFrame_button_queries.
  destruct (glfwButtonIDByIndex_indexed pkg Hidx) as (I0 & I1 & I2).
  set (pressed := GLFW.mouseButtonChange pkg platform rawButton glfw.Press mods).
  destruct (glfw_NewFrame_value pkg first pressed r) as (_ & _ & Hclear).
  assert (Hl : GLFW.mouseJustPressed pressed index = true).
  { subst pressed. unfold GLFW.mouseButtonChange. rewrite Hb. cbn.
    unfold array_set. now rewrite Z.eqb_refl. }
  assert (Hcase : (rawButton = 0 /\ index = 0) \/ (rawButton = 1 /\ index = 1)
                  \/ (rawButton = 2 /\ index = 2)).
  { destruct Hidx as (Hp & Hs & Ht).
    unfold GLFW.glfwButtonIndexByID in Hb. cbn [switch] in Hb.
    rewrite Hp, Hs, Ht in Hb.
    destruct (Z.eqb_spec rawButton glfw.MouseButton1); [injection Hb as <-; auto|].
    destruct (Z.eqb_spec rawButton glfw.MouseButton2); [injection Hb as <-; auto|].
    destruct (Z.eqb_spec rawButton glfw.MouseButton3); [injection Hb as <-; auto|].
    discriminate Hb. }
  repeat split.
  - cbn [map]. destruct Hcase as [[_ ->]|[[_ ->]|[_ ->]]]; rewrite Hl; cbn; auto.
  - cbn [flat_map]. rewrite I0, I1, I2.
    destruct Hcase as [[-> ->]|[[-> ->]|[-> ->]]]; rewrite Hl;
      destruct (GLFW.mouseJustPressed pressed 0), (GLFW.mouseJustPressed pressed 1),
        (GLFW.mouseJustPressed pressed 2); cbn; intuition discriminate.
  - cbn [map]. rewrite I0, I1, I2.
    rewrite (Hclear 0), (Hclear 1), (Hclear 2) by (cbn; auto).
    reflexivity.
Qed.

(** The theorem at a press of the first button. *)
Lemma glfw_click_is_held_without_query_witness :
  In (0, true)
     (Observe.button_reports
        (Effect.trace
           (GLFWFrame.NewFrame Examples.constants FrameExamples.glfw_unfocused
              (GLFW.mouseButtonChange Examples.constants FrameExamples.glfw_platform
                 glfw.MouseButton1 glfw.Press 0)) glfw.no_resources))
  /\ ~ In glfw.MouseButton1
       (Observe.button_queries
          (Effect.trace
             (GLFWFrame.NewFrame Examples.constants FrameExamples.glfw_unfocused
                (GLFW.mouseButtonChange Examples.constants FrameExamples.glfw_platform
                   glfw.MouseButton1 glfw.Press 0)) glfw.no_resources)).
Proof.
  destruct (glfw_click_is_held_without_query Examples.constants
              FrameExamples.glfw_unfocused FrameExamples.glfw_unfocused
              FrameExamples.glfw_platform glfw.no_resources glfw.MouseButton1 0 0)
    as (H1 & H2 & _).
  - repeat split.
  - reflexivity.
  - split; [exact H1 | exact H2].
Defined.

(** X14. The first frame of a platform that [NewGLFW] returned sets no
    time step at all, as no time is recorded yet.  If GLFW's clock
    read in that frame is positive, the frame after reports the
    difference of the two readings, computed in float64 and then
    rounded to float32. *)
Theorem glfw_first_frame_sets_no_delta_time :
  forall (pkg : PackageConstants) (answers : glfw.Answers) (io_ : imgui.IO)
         (clientAPI : GLFW.GLFWClientAPI) (r0 r : glfw.Resources) (platform : GLFW.t)
         (first second : GLFWFrame.Readings),
    Effect.value (GLFW.NewGLFW pkg answers io_ clientAPI) r0 = (Some platform, None) ->
    Observe.delta_reports (Effect.trace (GLFWFrame.NewFrame pkg first platform) r) = []
    /\ (SFltb GLFWFrame.f64_zero (GLFWFrame.GetTime_result first) = true ->
        Observe.delta_reports
          (Effect.trace
             (GLFWFrame.NewFrame pkg second
                (Effect.value (GLFWFrame.NewFrame pkg first platform) r)) r)
        = [f32_of_f64 (GLFWFrame.f64_sub (GLFWFrame.GetTime_result second)
                         (GLFWFrame.GetTime_result first))]).
Proof.
  intros pkg answers io_ clientAPI r0 r platform first second H.
  apply ConstructionFacts.NewGLFW_constructed in H as (w & _ & _ & _ & -> & _).
  rewrite !glfw_NewFrame_delta_reports.
  split; [reflexivity|].
  intros Hpos.
  destruct (glfw_NewFrame_value pkg first
              {| GLFW.imguiIO := io_; GLFW.window := Some w;
                 GLFW.time := S754_zero false;
                 GLFW.mouseJustPressed := fun _ => false |} r) as (-> & _).
  now rewrite Hpos.
Qed.

(** The theorem at two frames in which the clock reads two seconds. *)
Lemma glfw_first_frame_sets_no_delta_time_witness :
  Observe.delta_reports
    (Effect.trace
       (GLFWFrame.NewFrame Examples.constants FrameExamples.glfw_unfocused
          FrameExamples.glfw_platform) glfw.no_resources)
  = []
  /\ Observe.delta_reports
       (Effect.trace
          (GLFWFrame.NewFrame Examples.constants FrameExamples.glfw_unfocused
             (Effect.value
                (GLFWFrame.NewFrame Examples.constants FrameExamples.glfw_unfocused
                   FrameExamples.glfw_platform) glfw.no_resources)) glfw.no_resources)
     = [f32_of_f64 (GLFWFrame.f64_sub FrameExamples.two_seconds FrameExamples.two_seconds)].
Proof.
  destruct (glfw_first_frame_sets_no_delta_time Examples.constants
              Examples.glfw_succeeds 0 GLFW.GLFWClientAPIOpenGL3 glfw.no_resources
              glfw.no_resources FrameExamples.glfw_platform
              FrameExamples.glfw_unfocused FrameExamples.glfw_unfocused)
    as (H1 & H2).
  - reflexivity.
  - split; [exact H1 | apply H2; reflexivity].
Defined.

(** X15. In a frame in which the window has no focus the platform does
    not ask for the cursor position and reports the mouse at
    [(-MaxFloat32, -MaxFloat32)]; with focus it reports the cursor
    position rounded to float32. *)
Theorem glfw_unfocused_window_hides_the_mouse :
  forall (pkg : PackageConstants) (readings : GLFWFrame.Readings) (platform : GLFW.t)
         (r : glfw.Resources),
    (GLFWFrame.Focused readings = 0 ->
     Observe.position_reports
       (Effect.trace (GLFWFrame.NewFrame pkg readings platform) r)
     = [ {| imgui.v2X := f32_neg GLFWFrame.MaxFloat32;
            imgui.v2Y := f32_neg GLFWFrame.MaxFloat32 |} ]
     /\ existsb Observe.is_GetCursorPos
          (Effect.trace (GLFWFrame.NewFrame pkg readings platform) r) = false)
    /\ (GLFWFrame.Focused readings <> 0 ->
        Observe.position_reports
          (Effect.trace (GLFWFrame.NewFrame pkg readings platform) r)
        = [ {| imgui.v2X := f32_of_f64 (fst (GLFWFrame.CursorPos readings));
               imgui.v2Y := f32_of_f64 (snd (GLFWFrame.CursorPos readings)) |} ]).
Proof.
  intros pkg readings platform r.
  destruct (glfw_NewFrame_position pkg readings platform r) as (-> & ->).
  split; intros Hf.
  - rewrite Hf. split; reflexivity.
  - apply Z.eqb_neq in Hf. now rewrite Hf.
Qed.

(** The theorem at a window without focus. *)
Lemma glfw_unfocused_window_hides_the_mouse_witness :
  Observe.position_reports
    (Effect.trace
       (GLFWFrame.NewFrame Examples.constants FrameExamples.glfw_unfocused
          FrameExamples.glfw_platform) glfw.no_resources)
  = [ {| imgui.v2X := f32_neg GLFWFrame.MaxFloat32;
         imgui.v2Y := f32_neg GLFWFrame.MaxFloat32 |} ]
  /\ existsb Observe.is_GetCursorPos
       (Effect.trace
          (GLFWFrame.NewFrame Examples.constants FrameExamples.glfw_unfocused
             FrameExamples.glfw_platform) glfw.no_resources) = false.
Proof.
  apply (proj1 (glfw_unfocused_window_hides_the_mouse Examples.constants
                  FrameExamples.glfw_unfocused FrameExamples.glfw_platform
                  glfw.no_resources)).
  reflexivity.
Defined.

End GLFWFrameFacts.

(* ================================================================== *)
(** * The renderer's device objects *)
(* ================================================================== *)

Module DeviceObjectFacts.

Import Go renderers.
Local Open Scope Z_scope.

(** X16. With a framebuffer whose width or height is zero or negative
    (a minimised window) [Render] returns at once: it makes no call on
    OpenGL or imgui and leaves the context as it is. *)
Theorem Render_without_framebuffer_does_nothing :
  forall (imgui_ : imgui.Answers) (renderer : OpenGL3.t)
         (displaySize framebufferSize : float32 * float32)
         (drawData : imgui.DrawData) (s : gl.State),
    f32_leb (fst framebufferSize) f32_zero = true
    \/ f32_leb (snd framebufferSize) f32_zero = true ->
    OpenGL3.Render imgui_ renderer displaySize framebufferSize drawData s = ((tt, s), []).
Proof.
  intros imgui_ renderer displaySize framebufferSize drawData s H.
  unfold OpenGL3.Render.
  destruct H as [-> | ->]; rewrite ?orb_true_r; reflexivity.
Qed.

(** The theorem at a framebuffer of width 0. *)
Lemma Render_without_framebuffer_does_nothing_witness :
  OpenGL3.Render Examples.imgui_answers Examples.renderer Examples.size_800_600
    (f32_of_Z 0, f32_of_Z 600) Examples.draw_data Examples.context
  = ((tt, Examples.context), []).
Proof.
  apply (Render_without_framebuffer_does_nothing Examples.imgui_answers Examples.renderer
           Examples.size_800_600 (f32_of_Z 0, f32_of_Z 600) Examples.draw_data
           Examples.context).
  left. reflexivity.
Defined.

(** X17. [NewOpenGL3] leaves the bindings of the context as it found
    them: the texture, array buffer and vertex array bindings it saves
    are restored.  What it does change, when the loader initialises,
    is the pixel-store state, whose unpack row length it sets to 0
    and does not restore, and the name counter, as six object names
    are used.  When the loader fails nothing is written. *)
Theorem NewOpenGL3_leaves_the_bindings :
  forall (driver : gl.Answers) (imgui_ : imgui.Answers) (vert frag : string)
         (io_ : imgui.IO) (s : gl.State),
    gl.wf s ->
    (forall v, v <> gl.NextName -> v <> gl.UnpackRowLength ->
       Effect.final (OpenGL3.NewOpenGL3 driver imgui_ vert frag io_) s v = s v)
    /\ Effect.final (OpenGL3.NewOpenGL3 driver imgui_ vert frag io_) s gl.NextName
       = match gl.Init_error driver with
         | None => s gl.NextName + 6
         | Some _ => s gl.NextName
         end
    /\ Effect.final (OpenGL3.NewOpenGL3 driver imgui_ vert frag io_) s gl.UnpackRowLength
       = match gl.Init_error driver with
         | None => 0
         | Some _ => s gl.UnpackRowLength
         end.
Proof.
  intros driver imgui_ vert frag io_ s Hwf.
  destruct driver as [ie ul al]. unfold OpenGL3.NewOpenGL3.
  rewrite EffectFacts.final_bind.
  change (Effect.value (OpenGL3.gl_ (gl.Init _)) s) with ie.
  change (Effect.final (OpenGL3.gl_ (gl.Init _)) s) with s.
  cbn [gl.Init_error].
  destruct ie as [e|]; [repeat split; reflexivity|].
  assert (RT : forall x, is_uint32 (s x) -> uint32 (int32 (s x)) = s x)
    by (intros; now apply GoFacts.uint32_int32).
  split; [|split].
  - intros v Hv Hu.
    destruct v; try congruence;
      cbn -[Go.int32 Go.uint32 Z.add Z.eqb];
      unfold gl.upd; cbn -[Go.int32 Go.uint32 Z.add];
      try reflexivity.
    + destruct (Z.eqb_spec unit (s gl.ActiveTexture)) as [->|]; [|reflexivity].
      apply RT. apply (Hwf (gl.TextureBinding2D (s gl.ActiveTexture))).
    + apply RT. apply (Hwf gl.ArrayBufferBinding).
    + apply RT. apply (Hwf gl.VertexArrayBinding).
  - cbn -[Go.int32 Go.uint32 Z.add Z.eqb];
      unfold gl.upd; cbn -[Go.int32 Go.uint32 Z.add]. lia.
  - cbn -[Go.int32 Go.uint32 Z.add Z.eqb];
      unfold gl.upd; cbn -[Go.int32 Go.uint32 Z.add]. reflexivity.
Qed.

(** The theorem at the context with texture 5 bound in unit 0 and an
    unpack row length of 256. *)
Lemma NewOpenGL3_leaves_the_bindings_witness :
  Effect.final
    (OpenGL3.NewOpenGL3 FrameExamples.gl_driver Examples.imgui_answers
       EmptyString EmptyString 0)
    FrameExamples.context_with_row_length (gl.TextureBinding2D gl.TEXTURE0)
  = 5
  /\ Effect.final
       (OpenGL3.NewOpenGL3 FrameExamples.gl_driver Examples.imgui_answers
          EmptyString EmptyString 0)
       FrameExamples.context_with_row_length gl.UnpackRowLength
     = 0
  /\ FrameExamples.context_with_row_length gl.UnpackRowLength = 256.
Proof.
  destruct (NewOpenGL3_leaves_the_bindings FrameExamples.gl_driver
              Examples.imgui_answers EmptyString EmptyString 0
              FrameExamples.context_with_row_length) as (H1 & _ & H3).
  - apply ContextFacts.wf_upd; [exact ContextFacts.wf_context|].
    unfold gl.in_range, is_uint32. lia.
  - split; [|split; [exact H3 | reflexivity]].
    rewrite H1 by discriminate. reflexivity.
Defined.

(** X18. The renderer [NewOpenGL3] returns holds the six names it was
    given, in the order of creation: program, vertex shader, fragment
    shader, vertex buffer, element buffer, font texture.  When names
    are not zero, [Dispose] on it deletes each of the six objects once
    and resets imgui's texture id, and makes no other call. *)
Theorem Dispose_deletes_what_NewOpenGL3_created :
  forall (driver : gl.Answers) (imgui_ : imgui.Answers) (vert frag : string)
         (io_ : imgui.IO) (s s' : gl.State) (renderer : OpenGL3.t),
    Effect.value (OpenGL3.NewOpenGL3 driver imgui_ vert frag io_) s
    = (Some renderer, None) ->
    0 < s gl.NextName ->
    ( OpenGL3.shaderHandle renderer = s gl.NextName
      /\ OpenGL3.vertHandle renderer = s gl.NextName + 1
      /\ OpenGL3.fragHandle renderer = s gl.NextName + 2
      /\ OpenGL3.vboHandle renderer = s gl.NextName + 3
      /\ OpenGL3.elementsHandle renderer = s gl.NextName + 4
      /\ OpenGL3.fontTexture renderer = s gl.NextName + 5 )
    /\ Effect.trace (OpenGL3.Dispose renderer) s' = ObserveGL.deletes_of (s gl.NextName).
Proof.
  intros driver imgui_ vert frag io_ s s' renderer H Hn.
  destruct driver as [ie ul al]. unfold OpenGL3.NewOpenGL3 in H.
  rewrite EffectFacts.value_bind in H.
  change (Effect.value (OpenGL3.gl_ (gl.Init _)) s) with ie in H.
  change (Effect.final (OpenGL3.gl_ (gl.Init _)) s) with s in H.
  destruct ie as [e|]; [discriminate H|].
  cbn -[Go.int32 Go.uint32 Z.add Z.eqb] in H.
  unfold gl.upd in H. cbn -[Go.int32 Go.uint32 Z.add] in H.
  injection H as <-.
  unfold OpenGL3.Dispose. rewrite RendererFacts.invalidateDeviceObjects_trace.
  cbn -[Z.add Z.eqb]. rewrite <- !Z.add_assoc.
  split; [repeat split|].
  repeat match goal with
  | |- context [?x =? 0] =>
      let E := fresh in
      assert (E : (x =? 0) = false) by (apply Z.eqb_neq; lia); rewrite !E; clear E
  end.
  reflexivity.
Qed.

(** The theorem at a fresh context, whose first free name is 1. *)
Lemma Dispose_deletes_what_NewOpenGL3_created_witness :
  ( OpenGL3.shaderHandle Examples.renderer = 1
    /\ OpenGL3.vertHandle Examples.renderer = 1 + 1
    /\ OpenGL3.fragHandle Examples.renderer = 1 + 2
    /\ OpenGL3.vboHandle Examples.renderer = 1 + 3
    /\ OpenGL3.elementsHandle Examples.renderer = 1 + 4
    /\ OpenGL3.fontTexture Examples.renderer = 1 + 5 )
  /\ Effect.trace (OpenGL3.Dispose Examples.renderer) Examples.context
     = ObserveGL.deletes_of 1.
Proof.
  apply (Dispose_deletes_what_NewOpenGL3_created FrameExamples.gl_driver
           Examples.imgui_answers EmptyString EmptyString 0
           Examples.context Examples.context Examples.renderer).
  - reflexivity.
  - reflexivity.
Defined.

End DeviceObjectFacts.

(* ================================================================== *)
(** * What a frame writes *)
(* ================================================================== *)

Module RenderFrameFacts.

Import Go renderers.
Local Open Scope Z_scope.

(** ** The draw loop *)

Section DrawLoop.
Variable renderer : OpenGL3.t.
Variable fbHeight : float32.
Variables drawType indexSize : Z.

Lemma written_by_draw_loop_keys (s s' : gl.State) (v : gl.Var) :
  s' gl.VertexArrayBinding = s gl.VertexArrayBinding ->
  s' gl.ActiveTexture = s gl.ActiveTexture ->
  ObserveGL.written_by_draw_loop s' v = ObserveGL.written_by_draw_loop s v.
Proof. unfold ObserveGL.written_by_draw_loop. now intros -> ->. Qed.

Lemma Render_command_writes (l : imgui.DrawList) (cmd : imgui.DrawCommand)
    (s : gl.State) (v : gl.Var) :
  (forall callback, imgui.UserCallback cmd = Some callback ->
                    forall s v, callback s v = s v) ->
  ObserveGL.written_by_draw_loop s v = false ->
  Effect.final (OpenGL3.Render_command fbHeight drawType indexSize l cmd) s v = s v.
Proof.
  intros Hcb Hv. unfold OpenGL3.Render_command, imgui.HasUserCallback.
  destruct (imgui.UserCallback cmd) as [callback|] eqn:E.
  - cbn. rewrite E. now apply Hcb.
  - unfold ObserveGL.written_by_draw_loop in Hv.
    apply orb_false_iff in Hv as [Hv Hsc].
    apply orb_false_iff in Hv as [_ Htex].
    cbn -[Go.int32 Go.uint32 Go.int32_of_f32 f32_sub Z.sub Z.mul OpenGL3.uintptr gl.Var_eqb].
    unfold gl.upd. rewrite Htex.
    destruct v; try discriminate Hsc; reflexivity.
Qed.

Lemma Render_commands_write (l : imgui.DrawList) (cmds : list imgui.DrawCommand) :
  (forall cmd callback,
      In cmd cmds -> imgui.UserCallback cmd = Some callback ->
      forall s v, callback s v = s v) ->
  forall s v,
    ObserveGL.written_by_draw_loop s v = false ->
    Effect.final
      (Effect.for_range cmds (OpenGL3.Render_command fbHeight drawType indexSize l)) s v
    = s v.
Proof.
  induction cmds as [|cmd rest IH]; intros Hcb s v Hv.
  - reflexivity.
  - cbn [Effect.for_range]. rewrite EffectFacts.final_bind.
    assert (Hone : forall w, ObserveGL.written_by_draw_loop s w = false ->
              Effect.final (OpenGL3.Render_command fbHeight drawType indexSize l cmd) s w
              = s w).
    { intros w Hw. apply Render_command_writes; [|exact Hw].
      intros cb. apply (Hcb cmd cb). now left. }
    rewrite IH.
    + now apply Hone.
    + intros c cb Hc. apply (Hcb c cb). now right.
    + rewrite (written_by_draw_loop_keys s); [exact Hv | |]; now apply Hone.
Qed.

Lemma Render_list_writes (l : imgui.DrawList) (s : gl.State) (v : gl.Var) :
  (forall cmd callback,
      In cmd (imgui.Commands l) -> imgui.UserCallback cmd = Some callback ->
      forall s v, callback s v = s v) ->
  ObserveGL.written_by_draw_loop s v = false ->
  Effect.final (OpenGL3.Render_list renderer fbHeight drawType indexSize l) s v = s v.
Proof.
  intros Hcb Hv. unfold OpenGL3.Render_list.
  repeat (rewrite EffectFacts.final_bind; cbv beta).
  match goal with
  | |- Effect.final (Effect.for_range _ _) ?st v = _ => set (s1 := st)
  end.
  assert (H1 : forall w, ObserveGL.written_by_draw_loop s w = false -> s1 w = s w).
  { intros w Hw. subst s1. unfold ObserveGL.written_by_draw_loop in Hw.
    apply orb_false_iff in Hw as [Hw _].
    apply orb_false_iff in Hw as [Hw _].
    apply orb_false_iff in Hw as [Hab Hea].
    cbn -[gl.Var_eqb gl.upd]. ContextFacts.lookup. unfold gl.upd.
    now rewrite Hab, Hea. }
  rewrite Render_commands_write.
  - now apply H1.
  - exact Hcb.
  - rewrite (written_by_draw_loop_keys s); [exact Hv | |]; now apply H1.
Qed.

Lemma Render_lists_write (lists : list imgui.DrawList) :
  (forall l cmd callback,
      In l lists -> In cmd (imgui.Commands l) ->
      imgui.UserCallback cmd = Some callback ->
      forall s v, callback s v = s v) ->
  forall s v,
    ObserveGL.written_by_draw_loop s v = false ->
    Effect.final
      (Effect.for_range lists
         (OpenGL3.Render_list renderer fbHeight drawType indexSize)) s v
    = s v.
Proof.
  induction lists as [|l rest IH]; intros Hcb s v Hv.
  - reflexivity.
  - cbn [Effect.for_range]. rewrite EffectFacts.final_bind.
    assert (Hone : forall w, ObserveGL.written_by_draw_loop s w = false ->
              Effect.final (OpenGL3.Render_list renderer fbHeight drawType indexSize l) s w
              = s w).
    { intros w Hw. apply Render_list_writes; [|exact Hw].
      intros c cb. apply (Hcb l c cb). now left. }
    rewrite IH.
    + now apply Hone.
    + intros l' c cb Hl. apply (Hcb l' c cb). now right.
    + rewrite (written_by_draw_loop_keys s); [exact Hv | |]; now apply Hone.
Qed.

(** The draw loop makes no call on vertex array objects. *)
Lemma Render_command_no_vertex_array (l : imgui.DrawList) (cmd : imgui.DrawCommand)
    (s : gl.State) :
  filter ObserveGL.is_vertex_array_call
    (Effect.trace (OpenGL3.Render_command fbHeight drawType indexSize l cmd) s) = [].
Proof.
  unfold OpenGL3.Render_command. now destruct (imgui.HasUserCallback cmd).
Qed.

Lemma Render_commands_no_vertex_array (l : imgui.DrawList) (cmds : list imgui.DrawCommand) :
  forall s,
    filter ObserveGL.is_vertex_array_call
      (Effect.trace
         (Effect.for_range cmds (OpenGL3.Render_command fbHeight drawType indexSize l)) s)
    = [].
Proof.
  induction cmds as [|cmd rest IH]; intros s; [reflexivity|].
  cbn [Effect.for_range]. rewrite EffectFacts.trace_bind, filter_app.
  now rewrite Render_command_no_vertex_array, IH.
Qed.

Lemma Render_list_no_vertex_array (l : imgui.DrawList) (s : gl.State) :
  filter ObserveGL.is_vertex_array_call
    (Effect.trace (OpenGL3.Render_list renderer fbHeight drawType indexSize l) s) = [].
Proof.
  unfold OpenGL3.Render_list.
  repeat (rewrite EffectFacts.trace_bind, filter_app; cbv beta).
  now rewrite Render_commands_no_vertex_array.
Qed.

Lemma Render_lists_no_vertex_array (lists : list imgui.DrawList) :
  forall s,
    filter ObserveGL.is_vertex_array_call
      (Effect.trace
         (Effect.for_range lists
            (OpenGL3.Render_list renderer fbHeight drawType indexSize)) s)
    = [].
Proof.
  induction lists as [|l rest IH]; intros s; [reflexivity|].
  cbn [Effect.for_range]. rewrite EffectFacts.trace_bind, filter_app.
  now rewrite Render_list_no_vertex_array, IH.
Qed.
End DrawLoop.

Lemma ScaleClipRects_keeps_the_context (scale : imgui.Vec2) (drawData : imgui.DrawData) :
  ObserveGL.callbacks_keep_the_context drawData ->
  ObserveGL.callbacks_keep_the_context (imgui.ScaleClipRects scale drawData).
Proof.
  intros H l cmd cb Hl Hc Hcb. cbn in Hl.
  apply in_map_iff in Hl as [l0 [<- Hl0]]. cbn in Hc.
  apply in_map_iff in Hc as [c0 [<- Hc0]].
  exact (H l0 c0 cb Hl0 Hc0 Hcb).
Qed.

Lemma DeleteVertexArrays_other (n array : Z) (s : gl.State) (w : gl.Var) :
  gl.Var_eqb w gl.VertexArrayBinding = false ->
  gl.Var_eqb w (gl.ElementArrayBufferBinding array) = false ->
  Effect.final (OpenGL3.gl_ (gl.DeleteVertexArrays n array)) s w = s w.
Proof.
  intros H1 H2. cbn -[gl.Var_eqb].
  destruct (s gl.VertexArrayBinding =? array); unfold gl.upd; now rewrite ?H1, ?H2.
Qed.

Lemma enable_if_no_vertex_array (b : bool) (c : gl.Cap) (s : gl.State) :
  filter ObserveGL.is_vertex_array_call
    (Effect.trace (if b then OpenGL3.gl_ (gl.Enable c) else OpenGL3.gl_ (gl.Disable c)) s)
  = [].
Proof. now destruct b. Qed.

Lemma draw_data_keeps_the_context :
  ObserveGL.callbacks_keep_the_context Examples.draw_data.
Proof.
  intros l cmd cb Hl Hc Hcb.
  destruct Hl as [<-|[]]. destruct Hc as [<-|[]]. discriminate Hcb.
Qed.

(** Looking a variable up through a chain of updates whose keys
    differ from it by a parameter. *)
Ltac lookup_apart :=
  repeat match goal with
  | |- context [gl.upd ?st ?k ?x ?v] =>
      first [ rewrite (ContextFacts.upd_same st k x)
            | rewrite (ContextFacts.upd_other st k x v)
                by first [ reflexivity
                         | unfold gl.Var_eqb; cbn; apply Z.eqb_neq;
                           first [ assumption | congruence ] ] ]
  end.

(** ** [Render] *)

(** X19. A call to [Render] with a framebuffer of strictly positive
    size, whose user callbacks, if any, return with the context as
    they found it, leaves every state variable of the context as it
    was, whether [Render] saves it or not: the texture bindings of
    the other units, the sampler bindings of the other units and the
    element array buffer bindings of the other vertex arrays and the
    pixel-store state are not written.  The exceptions are the name counter, which has advanced
    by the one vertex array generated, and the element array buffer
    binding of that vertex array. *)
Theorem Render_writes_nothing_else :
  forall (imgui_ : imgui.Answers) (renderer : OpenGL3.t)
         (displaySize framebufferSize : float32 * float32)
         (drawData : imgui.DrawData) (s : gl.State),
    gl.wf s ->
    f32_ltb f32_zero (fst framebufferSize) = true ->
    f32_ltb f32_zero (snd framebufferSize) = true ->
    ObserveGL.callbacks_keep_the_context drawData ->
    (forall v,
        v <> gl.NextName -> v <> gl.ElementArrayBufferBinding (s gl.NextName) ->
        Effect.final
          (OpenGL3.Render imgui_ renderer displaySize framebufferSize drawData) s v
        = s v)
    /\ Effect.final
         (OpenGL3.Render imgui_ renderer displaySize framebufferSize drawData) s
         gl.NextName
       = s gl.NextName + 1.
Proof.
  intros imgui_ renderer displaySize framebufferSize drawData s Hwf Hw Hh Hcb.
  unfold OpenGL3.Render.
  rewrite (GoFacts.positive_not_le_zero _ Hw), (GoFacts.positive_not_le_zero _ Hh).
  cbv beta iota zeta delta [orb].
  destruct (imgui.VertexBufferLayout imgui_) as [[[vs vp] vu] vc].
  repeat (rewrite EffectFacts.final_bind; cbv beta).
  (* the context before the draw loop, after it, and after the
     vertex array is deleted *)
  match goal with
  | |- context [Effect.final (Effect.for_range ?l ?b) ?st] =>
      set (body := b); set (s3 := st)
  end.
  set (s4 := Effect.final _ s3).
  match goal with
  | |- context [Effect.final (OpenGL3.gl_ (gl.DeleteVertexArrays _ ?a)) s4] =>
      set (vao := a)
  end.
  set (s5 := Effect.final (OpenGL3.gl_ (gl.DeleteVertexArrays _ _)) s4).
  assert (Hvao : vao = s gl.NextName).
  { unfold vao.
    cbn -[Go.int32 Go.uint32 OpenGL3.uintptr Go.int32_of_f32 f32_div f32_of_Z
          f32_neg f32_zero Z.add Z.sub gl.upd gl.TEXTURE0].
    ContextFacts.lookup. reflexivity. }
  clearbody vao. subst vao.
  assert (A1 : s3 gl.VertexArrayBinding = s gl.NextName).
  { unfold s3.
    cbn -[Go.int32 Go.uint32 OpenGL3.uintptr Go.int32_of_f32 f32_div f32_of_Z
          f32_neg f32_zero Z.add Z.sub gl.upd gl.TEXTURE0].
    ContextFacts.lookup. reflexivity. }
  assert (A2 : s3 gl.ActiveTexture = gl.TEXTURE0).
  { unfold s3.
    cbn -[Go.int32 Go.uint32 OpenGL3.uintptr Go.int32_of_f32 f32_div f32_of_Z
          f32_neg f32_zero Z.add Z.sub gl.upd gl.TEXTURE0].
    ContextFacts.lookup. reflexivity. }
  assert (A3 : s3 gl.NextName = s gl.NextName + 1).
  { unfold s3.
    cbn -[Go.int32 Go.uint32 OpenGL3.uintptr Go.int32_of_f32 f32_div f32_of_Z
          f32_neg f32_zero Z.add Z.sub gl.upd gl.TEXTURE0].
    ContextFacts.lookup. reflexivity. }
  assert (T3 : forall u, u <> gl.TEXTURE0 ->
                 s3 (gl.TextureBinding2D u) = s (gl.TextureBinding2D u)).
  { intros u Hu. unfold s3.
    cbn -[Go.int32 Go.uint32 OpenGL3.uintptr Go.int32_of_f32 f32_div f32_of_Z
          f32_neg f32_zero Z.add Z.sub gl.upd gl.TEXTURE0].
    lookup_apart. reflexivity. }
  assert (S3 : forall u, u <> 0 ->
                 s3 (gl.SamplerBinding u) = s (gl.SamplerBinding u)).
  { intros u Hu. unfold s3.
    cbn -[Go.int32 Go.uint32 OpenGL3.uintptr Go.int32_of_f32 f32_div f32_of_Z
          f32_neg f32_zero Z.add Z.sub gl.upd gl.TEXTURE0].
    lookup_apart. reflexivity. }
  assert (E3 : forall a, s3 (gl.ElementArrayBufferBinding a)
                         = s (gl.ElementArrayBufferBinding a)).
  { intros a. unfold s3.
    cbn -[Go.int32 Go.uint32 OpenGL3.uintptr Go.int32_of_f32 f32_div f32_of_Z
          f32_neg f32_zero Z.add Z.sub gl.upd gl.TEXTURE0].
    lookup_apart. reflexivity. }
  assert (U3 : s3 gl.UnpackRowLength = s gl.UnpackRowLength).
  { unfold s3.
    cbn -[Go.int32 Go.uint32 OpenGL3.uintptr Go.int32_of_f32 f32_div f32_of_Z
          f32_neg f32_zero Z.add Z.sub gl.upd gl.TEXTURE0].
    ContextFacts.lookup. reflexivity. }
  assert (Hloop : forall w, ObserveGL.written_by_draw_loop s3 w = false -> s4 w = s3 w).
  { intros w Hwr. unfold s4, body. apply Render_lists_write; [|exact Hwr].
    apply ScaleClipRects_keeps_the_context. exact Hcb. }
  assert (Hs5 : forall w,
             gl.Var_eqb w gl.VertexArrayBinding = false ->
             gl.Var_eqb w (gl.ElementArrayBufferBinding (s gl.NextName)) = false ->
             ObserveGL.written_by_draw_loop s3 w = false ->
             s5 w = s3 w).
  { intros w H1 H2 H3. unfold s5. rewrite DeleteVertexArrays_other by assumption.
    now apply Hloop. }
  assert (Hat : s5 gl.ActiveTexture = gl.TEXTURE0)
    by (rewrite Hs5, A2; reflexivity).
  assert (N5 : s5 gl.NextName = s gl.NextName + 1)
    by (rewrite Hs5, A3; reflexivity).
  assert (U5 : s5 gl.UnpackRowLength = s gl.UnpackRowLength)
    by (rewrite Hs5, U3; reflexivity).
  assert (T5 : forall u, u <> gl.TEXTURE0 ->
                 s5 (gl.TextureBinding2D u) = s (gl.TextureBinding2D u)).
  { intros u Hu. rewrite Hs5, T3; try reflexivity; try assumption.
    unfold ObserveGL.written_by_draw_loop. rewrite A2.
    unfold gl.Var_eqb. cbn. rewrite orb_false_r. apply Z.eqb_neq. exact Hu. }
  assert (S5 : forall u, u <> 0 ->
                 s5 (gl.SamplerBinding u) = s (gl.SamplerBinding u)).
  { intros u Hu. rewrite Hs5, S3; try reflexivity; assumption. }
  assert (E5 : forall a, a <> s gl.NextName ->
                 s5 (gl.ElementArrayBufferBinding a) = s (gl.ElementArrayBufferBinding a)).
  { intros a Ha. rewrite Hs5, E3; try reflexivity.
    - unfold gl.Var_eqb. cbn. apply Z.eqb_neq. exact Ha.
    - unfold ObserveGL.written_by_draw_loop. rewrite A1.
      unfold gl.Var_eqb. cbn. rewrite !orb_false_r. apply Z.eqb_neq. exact Ha. }
  clearbody s5. clear Hs5 Hloop A1 A2 A3 U3 T3 S3 E3 s4 s3 body.
  rewrite !ContextFacts.final_enable_if.
  cbn -[Go.int32 Go.uint32 OpenGL3.uintptr Go.int32_of_f32 f32_div f32_of_Z
        f32_neg f32_zero Z.add Z.sub gl.upd gl.TEXTURE0].
  rewrite ?Z.sub_diag.
  assert (RT : forall x, is_uint32 (s x) -> uint32 (int32 (s x)) = s x)
    by (intros; now apply GoFacts.uint32_int32).
  assert (RI : forall x, is_int32 (s x) -> int32 (s x) = s x)
    by (intros; now apply GoFacts.int32_id).
  assert (RE : forall c,
             (if negb (s (gl.Enabled c) =? 0) then 1 else 0) = s (gl.Enabled c)).
  { intros c. destruct (Hwf (gl.Enabled c)) as [E|E]; rewrite E; reflexivity. }
  pose proof (RT gl.VertexArrayBinding (Hwf gl.VertexArrayBinding)) as RV.
  split.
  - intros v Hv1 Hv2.
    destruct v as [ | |u|u| | |a| | | | | | | | | | | | | | | |c| | ];
      try congruence;
      [ | | destruct (Z.eq_dec u gl.TEXTURE0) as [->|Hu]
          | destruct (Z.eq_dec u 0) as [->|Hu]
          | | | destruct (Z.eq_dec a (s gl.VertexArrayBinding)) as [->|Ha]
          | | | | | | | | | | | | | | | | destruct c | ];
      ContextFacts.lookup; rewrite ?Hat, ?RV; lookup_apart; rewrite ?RE;
      first [ reflexivity
            | match goal with
              | |- uint32 (int32 (s ?x)) = _ => exact (RT x (Hwf x))
              | |- int32 (s ?x) = _ => exact (RI x (Hwf x))
              end
            | now apply T5
            | now apply S5
            | apply E5; congruence
            | exact U5 ].
  - ContextFacts.lookup. exact N5.
Qed.

(** The theorem at the texture binding of unit 1, which [Render] does
    not save. *)
Lemma Render_writes_nothing_else_witness :
  Effect.final
    (OpenGL3.Render Examples.imgui_answers Examples.renderer
       Examples.size_800_600 Examples.size_800_600 Examples.draw_data)
    Examples.context (gl.TextureBinding2D (gl.TEXTURE0 + 1))
  = Examples.context (gl.TextureBinding2D (gl.TEXTURE0 + 1)).
Proof.
  apply (proj1 (Render_writes_nothing_else Examples.imgui_answers Examples.renderer
                  Examples.size_800_600 Examples.size_800_600 Examples.draw_data
                  Examples.context ContextFacts.wf_context eq_refl eq_refl
                  draw_data_keeps_the_context)).
  - discriminate.
  - discriminate.
Defined.

(** X20. A call to [Render] with a framebuffer of strictly positive
    size generates one vertex array, binds it, deletes it after the
    draw loop and binds again the vertex array that was bound at
    entry; it makes no other call on vertex arrays, whatever the draw
    data. *)
Theorem Render_uses_one_vertex_array_per_frame :
  forall (imgui_ : imgui.Answers) (renderer : OpenGL3.t)
         (displaySize framebufferSize : float32 * float32)
         (drawData : imgui.DrawData) (s : gl.State),
    gl.wf s ->
    f32_ltb f32_zero (fst framebufferSize) = true ->
    f32_ltb f32_zero (snd framebufferSize) = true ->
    filter ObserveGL.is_vertex_array_call
      (Effect.trace
         (OpenGL3.Render imgui_ renderer displaySize framebufferSize drawData) s)
    = [ Gl (gl.CallGenVertexArrays 1);
        Gl (gl.CallBindVertexArray (s gl.NextName));
        Gl (gl.CallDeleteVertexArrays 1 (s gl.NextName));
        Gl (gl.CallBindVertexArray (s gl.VertexArrayBinding)) ].
Proof.
  intros imgui_ renderer displaySize framebufferSize drawData s Hwf Hw Hh.
  unfold OpenGL3.Render.
  rewrite (GoFacts.positive_not_le_zero _ Hw), (GoFacts.positive_not_le_zero _ Hh).
  cbv beta iota zeta delta [orb].
  destruct (imgui.VertexBufferLayout imgui_) as [[[vs vp] vu] vc].
  repeat (rewrite EffectFacts.trace_bind, filter_app; cbv beta).
  rewrite Render_lists_no_vertex_array.
  rewrite !enable_if_no_vertex_array.
  cbn -[Go.int32 Go.uint32 OpenGL3.uintptr Go.int32_of_f32 f32_div f32_of_Z
        f32_neg f32_zero Z.add Z.sub gl.upd gl.TEXTURE0].
  ContextFacts.lookup.
  rewrite (GoFacts.uint32_int32 _ (Hwf gl.VertexArrayBinding)). reflexivity.
Qed.

(** The theorem at a fresh context: vertex array 1 is generated and
    deleted, the default vertex array is bound again. *)
Lemma Render_uses_one_vertex_array_per_frame_witness :
  filter ObserveGL.is_vertex_array_call
    (Effect.trace
       (OpenGL3.Render Examples.imgui_answers Examples.renderer
          Examples.size_800_600 Examples.size_800_600 Examples.draw_data_with_callback)
       Examples.context)
  = [ Gl (gl.CallGenVertexArrays 1);
      Gl (gl.CallBindVertexArray 1);
      Gl (gl.CallDeleteVertexArrays 1 1);
      Gl (gl.CallBindVertexArray 0) ].
Proof.
  apply (Render_uses_one_vertex_array_per_frame Examples.imgui_answers Examples.renderer
           Examples.size_800_600 Examples.size_800_600 Examples.draw_data_with_callback
           Examples.context).
  - exact ContextFacts.wf_context.
  - reflexivity.
  - reflexivity.
Defined.

End RenderFrameFacts.

(* ================================================================== *)
(** * The key tables *)
(* ================================================================== *)

Module KeyTableFacts.

Import Go platforms.
Local Open Scope Z_scope.

Lemma switch_In {A : Type} (tag : Z) (cases : list (Z * A)) (body : A) :
  switch tag cases = Some body -> In (tag, body) cases.
Proof.
  induction cases as [|[c b] rest IH]; simpl; [discriminate|].
  destruct (Z.eqb_spec tag c) as [->|_].
  - intros [= ->]. now left.
  - intros H. right. now apply IH.
Qed.

(** Two constants for which a switch returns the same key are the
    same or a confused pair. *)
Lemma confused_complete (cases : list (Z * imgui.ImguiKey)) (t1 t2 : Z)
    (k : imgui.ImguiKey) :
  switch t1 cases = Some k -> switch t2 cases = Some k ->
  t1 = t2 \/ In (t1, t2) (Observe.confused cases).
Proof.
  intros H1 H2. apply switch_In in H1, H2.
  destruct (Z.eqb_spec t1 t2) as [E|E]; [now left|right].
  unfold Observe.confused.
  apply in_flat_map. exists (t1, k). split; [exact H1|].
  apply in_flat_map. exists (t2, k). split; [exact H2|].
  cbn [fst snd]. apply Z.eqb_neq in E. rewrite E.
  destruct (Observe.ImguiKey_eq_dec k k) as [_|N]; [now left | now destruct N].
Qed.

(** X21. The translations do not confuse keys.  Two GLFW keys that
    translate to the same imgui key other than [KeyNone] are the same
    key, or are the two [World] keys, which both translate to
    [KeyOem102].  Two SDL keycodes of the keycode switch that
    translate to the same imgui key are the same keycode. *)
Theorem distinct_keys_translate_to_distinct_imgui_keys :
  (forall key1 key2 scancode1 scancode2 : Z,
      glfwKeyEventToImguiKey key1 scancode1 = glfwKeyEventToImguiKey key2 scancode2 ->
      glfwKeyEventToImguiKey key1 scancode1 <> imgui.KeyNone ->
      key1 = key2
      \/ (key1 = glfw.KeyWorld1 /\ key2 = glfw.KeyWorld2)
      \/ (key1 = glfw.KeyWorld2 /\ key2 = glfw.KeyWorld1))
  /\
  (forall keycode1 keycode2 scancode1 scancode2 : Z,
      In keycode1 (case_constants sdl2_keycode_cases) ->
      In keycode2 (case_constants sdl2_keycode_cases) ->
      sdl2KeyEventToImguiKey keycode1 scancode1 = sdl2KeyEventToImguiKey keycode2 scancode2 ->
      keycode1 = keycode2).
Proof.
  split.
  - intros key1 key2 sc1 sc2. unfold glfwKeyEventToImguiKey.
    destruct (switch key1 glfw_key_cases) as [k1|] eqn:E1; [|congruence].
    destruct (switch key2 glfw_key_cases) as [k2|] eqn:E2.
    + intros <- _.
      destruct (confused_complete _ _ _ _ E1 E2) as [H|H]; [now left|right].
      assert (Hc : Observe.confused glfw_key_cases
                   = [(glfw.KeyWorld1, glfw.KeyWorld2); (glfw.KeyWorld2, glfw.KeyWorld1)])
        by (vm_compute; reflexivity).
      rewrite Hc in H.
      destruct H as [[= -> ->]|[[= -> ->]|[]]]; auto.
    + intros -> N. now destruct N.
  - intros kc1 kc2 sc1 sc2 H1 H2. unfold sdl2KeyEventToImguiKey.
    destruct (GoFacts.switch_Some kc1 sdl2_keycode_cases H1) as [k1 E1].
    destruct (GoFacts.switch_Some kc2 sdl2_keycode_cases H2) as [k2 E2].
    rewrite E1, E2. intros <-.
    destruct (confused_complete _ _ _ _ E1 E2) as [H|H]; [exact H|].
    assert (Hc : Observe.confused sdl2_keycode_cases = [])
      by (vm_compute; reflexivity).
    rewrite Hc in H. destruct H.
Qed.

(** The theorem at the two [World] keys of GLFW. *)
Lemma distinct_keys_translate_to_distinct_imgui_keys_witness :
  glfw.KeyWorld1 = glfw.KeyWorld2
  \/ (glfw.KeyWorld1 = glfw.KeyWorld1 /\ glfw.KeyWorld2 = glfw.KeyWorld2)
  \/ (glfw.KeyWorld1 = glfw.KeyWorld2 /\ glfw.KeyWorld2 = glfw.KeyWorld1).
Proof.
  apply (proj1 distinct_keys_translate_to_distinct_imgui_keys
           glfw.KeyWorld1 glfw.KeyWorld2 0 0).
  - reflexivity.
  - discriminate.
Defined.

(** X22. Only unmapped key events translate to [KeyNone]: for SDL the
    keycode is then none of the keycode switch and the scancode none
    of the scancode switch, for GLFW the key is none of the switch. *)
Theorem KeyNone_only_for_unmapped_key_events :
  (forall keycode scancode : Z,
      sdl2KeyEventToImguiKey keycode scancode = imgui.KeyNone ->
      ~ In keycode (case_constants sdl2_keycode_cases)
      /\ ~ In scancode (case_constants sdl2_scancode_cases))
  /\
  (forall key scancode : Z,
      glfwKeyEventToImguiKey key scancode = imgui.KeyNone ->
      ~ In key (case_constants glfw_key_cases)).
Proof.
  split.
  - exact KeyFacts.KeyNone_only_for_unmapped_keys.
  - intros key scancode. unfold glfwKeyEventToImguiKey.
    destruct (switch key glfw_key_cases) as [k|] eqn:Ek.
    + intros ->.
      pose proof (KeyFacts.switch_never_KeyNone glfw_key_cases key _ eq_refl Ek).
      congruence.
    + intros _. now apply GoFacts.switch_None.
Qed.

(** The theorem at the GLFW key 314, the key after [KeyF24]. *)
Lemma KeyNone_only_for_unmapped_key_events_witness :
  ~ In 314 (case_constants glfw_key_cases).
Proof.
  apply (proj2 KeyNone_only_for_unmapped_key_events 314 0).
  reflexivity.
Defined.

End KeyTableFacts.
